(** * otc-api-server: fetch / health / scoring / scheduling core

    A shallow embedding of the Go sources

      - internal/scraper/health_monitor.go
      - internal/scraper/oxylabs_client.go, internal/scraper/client.go
      - internal/scraper/scraper.go
      - internal/scoring/engine.go
      - internal/services/scoring_pipeline.go

    followed by the properties established about them.  Part I holds the
    definitions, one module per Go source file; Part II holds the lemmas
    and theorems. *)

From Stdlib Require Import ZArith Lia PrimFloat Uint63 String Ascii.
From stdpp Require Import gmap strings list pretty.

Set Warnings "-register-all".

Local Open Scope Z_scope.

(* ===================================================================== *)
(** * Part I.  Definitions                                                *)
(* ===================================================================== *)

(** ** Go runtime values used by every package *)

Module Go.

(** [int] and [int64] are 64-bit two's-complement integers; arithmetic on
    them wraps around. *)
Definition int64_min : Z := - 2 ^ 63.
Definition int64_max : Z := 2 ^ 63 - 1.
Definition wrap64 (z : Z) : Z := (z + 2 ^ 63) mod 2 ^ 64 - 2 ^ 63.

(** Go errors are modelled by their message ([err.Error()]). *)
Definition error : Type := string.

(** [fmt.Errorf("<prefix>: %w", err)]. *)
Definition wrapf (prefix : string) (err : error) : error :=
  prefix +:+ ": " +:+ err.

(** [time.Time]: an instant, counted in nanoseconds from Go's zero time
    (January 1, year 1, 00:00:00 UTC). *)
Definition Time : Type := Z.
Definition zeroTime : Time := 0.
Definition IsZero (t : Time) : bool := t =? 0.

(** [time.Duration]: an int64 count of nanoseconds. *)
Definition Duration : Type := Z.
Definition Nanosecond : Duration := 1.
Definition Second : Duration := 1000000000.
Definition Minute : Duration := 60 * Second.
Definition Hour : Duration := 60 * Minute.
Definition minDuration : Duration := int64_min.
Definition maxDuration : Duration := int64_max.

(** [t.Sub(u)]: the difference, saturated to the range of a Duration. *)
Definition Sub (t u : Time) : Duration :=
  if t - u <? minDuration then minDuration
  else if maxDuration <? t - u then maxDuration
  else t - u.

(** [time.Since(t)] when the clock reads [now]. *)
Definition Since (now t : Time) : Duration := Sub now t.

(** [float64(n)] for an int64 [n] (round to nearest, ties to even). *)
Definition float64_of_int (n : Z) : float :=
  if n =? int64_min then (- 0x1p63)%float
  else if n <? 0 then (- of_uint63 (Uint63.of_Z (- n)))%float
  else of_uint63 (Uint63.of_Z n).

(** [d.Hours()]. *)
Definition Hours (d : Duration) : float :=
  let hour := Z.quot d Hour in
  let nsec := Z.rem d Hour in
  (float64_of_int hour + float64_of_int nsec / float64_of_int (60 * 60 * 1000000000))%float.

(** *** package strings (byte strings; case mapping and white space are
    those of ASCII, which is exact on ASCII text) *)

Definition lower_ascii (c : ascii) : ascii :=
  let n := N_of_ascii c in
  if ((65 <=? n) && (n <=? 90))%N then ascii_of_N (n + 32) else c.

Fixpoint ToLower (s : string) : string :=
  match s with
  | EmptyString => EmptyString
  | String c s' => String (lower_ascii c) (ToLower s')
  end.

Fixpoint HasPrefix (s prefix : string) : bool :=
  match prefix, s with
  | EmptyString, _ => true
  | String _ _, EmptyString => false
  | String p prefix', String c s' =>
      if Ascii.eqb p c then HasPrefix s' prefix' else false
  end.

Fixpoint Contains (s substr : string) : bool :=
  HasPrefix s substr ||
  match s with
  | EmptyString => false
  | String _ s' => Contains s' substr
  end.

Definition eqb_string (a b : string) : bool := bool_decide (a = b).

Definition isSpace (c : ascii) : bool :=
  let n := N_of_ascii c in
  ((9 <=? n) && (n <=? 13) || (n =? 32))%N.

Fixpoint TrimLeft (s : string) : string :=
  match s with
  | EmptyString => EmptyString
  | String c s' => if isSpace c then TrimLeft s' else s
  end.

Fixpoint TrimRight (s : string) : string :=
  match s with
  | EmptyString => EmptyString
  | String c s' =>
      match TrimRight s' with
      | EmptyString => if isSpace c then EmptyString else String c EmptyString
      | rest => String c rest
      end
  end.

Definition TrimSpace (s : string) : string := TrimRight (TrimLeft s).

(** [strings.Split(s, sep)] for a non-empty [sep]: [cur] is the piece
    being read, [skip] the bytes of a matched separator still to pass. *)
Fixpoint splitFrom (sep : string) (skip : nat) (cur : string) (s : string)
    : list string :=
  match s with
  | EmptyString => [cur]
  | String c s' =>
      match skip with
      | S k => splitFrom sep k cur s'
      | O =>
          if HasPrefix s sep
          then cur :: splitFrom sep (pred (String.length sep)) EmptyString s'
          else splitFrom sep O (cur +:+ String c EmptyString) s'
      end
  end.

Definition Split (s sep : string) : list string := splitFrom sep O EmptyString s.

(** [strings.Fields]. *)
Fixpoint fieldsFrom (cur : string) (s : string) : list string :=
  match s with
  | EmptyString => match cur with EmptyString => [] | _ => [cur] end
  | String c s' =>
      if isSpace c
      then match cur with
           | EmptyString => fieldsFrom EmptyString s'
           | _ => cur :: fieldsFrom EmptyString s'
           end
      else fieldsFrom (cur +:+ String c EmptyString) s'
  end.

Definition Fields (s : string) : list string := fieldsFrom EmptyString s.

(** [strings.ReplaceAll(s, old, new)] for one-byte [old] and [new]. *)
Fixpoint ReplaceByte (s : string) (old new : ascii) : string :=
  match s with
  | EmptyString => EmptyString
  | String c s' =>
      String (if Ascii.eqb c old then new else c) (ReplaceByte s' old new)
  end.

(** [s[n:]]. *)
Fixpoint dropBytes (n : nat) (s : string) : string :=
  match n, s with
  | O, _ => s
  | S _, EmptyString => EmptyString
  | S k, String _ s' => dropBytes k s'
  end.

(** The last byte of a string. *)
Fixpoint lastByte (s : string) : option ascii :=
  match s with
  | EmptyString => None
  | String c s' => match lastByte s' with Some d => Some d | None => Some c end
  end.

(** [strings.Join]. *)
Fixpoint Join (items : list string) (sep : string) : string :=
  match items with
  | [] => EmptyString
  | [x] => x
  | x :: rest => x +:+ sep +:+ Join rest sep
  end.

(** *** package time: [time.Parse("2006-01-02", s)] *)

Definition digit (c : ascii) : option Z :=
  let n := N_of_ascii c in
  if ((48 <=? n) && (n <=? 57))%N then Some (Z.of_N n - 48) else None.

Definition isLeap (year : Z) : bool :=
  (year mod 4 =? 0) && (negb (year mod 100 =? 0) || (year mod 400 =? 0)).

Definition daysIn (month year : Z) : Z :=
  if month =? 2 then (if isLeap year then 29 else 28)
  else if (month =? 4) || (month =? 6) || (month =? 9) || (month =? 11) then 30
  else 31.

(** Days of the year before the first of [month]. *)
Definition daysBefore (month year : Z) : Z :=
  foldr (fun m acc => daysIn m year + acc) 0
        (map Z.of_nat (seq 1 (Z.to_nat (month - 1)))).

(** [time.Date(year, month, day, 0, 0, 0, 0, time.UTC)] for a valid day. *)
Definition Date (year month day : Z) : Time :=
  let y := year - 1 in
  let days := 365 * y + y / 4 - y / 100 + y / 400
              + daysBefore month year + (day - 1) in
  days * 24 * Hour.

(** A four-digit year, "-", a two-digit month in 1..12, "-", a two-digit
    day that exists in that month, and nothing after it. *)
Definition ParseDate (s : string) : option Time :=
  match s with
  | String y1 (String y2 (String y3 (String y4 (String dash1
      (String m1 (String m2 (String dash2
        (String d1 (String d2 EmptyString))))))))) =>
      match digit y1, digit y2, digit y3, digit y4,
            digit m1, digit m2, digit d1, digit d2 with
      | Some a, Some b, Some c, Some d, Some e, Some f, Some g, Some h =>
          let year := 1000 * a + 100 * b + 10 * c + d in
          let month := 10 * e + f in
          let day := 10 * g + h in
          if Ascii.eqb dash1 "-" && Ascii.eqb dash2 "-"
             && (1 <=? month) && (month <=? 12)
             && (1 <=? day) && (day <=? daysIn month year)
          then Some (Date year month day)
          else None
      | _, _, _, _, _, _, _, _ => None
      end
  | _ => None
  end.

(** A call that returns [(value, error)]. *)
Inductive result (A : Type) : Type :=
| Ok (a : A)
| Err (err : error).
Arguments Ok {A} a.
Arguments Err {A} err.

(** [interface{}] values, by dynamic type.  The constructors are the
    types that the sources inspect with a type switch or a type
    assertion; a value of any other dynamic type is [VOther], known only
    by what [%v] prints for it. *)
Inductive Value : Type :=
| VNil
| VBool (b : bool)
| VString (s : string)
| VInt (n : Z)
| VInt64 (n : Z)
| VInt32 (n : Z)
| VFloat64 (f : float)
| VFloat32 (f : float)
| VTime (t : Time)
| VTimePtr (p : option Time)
| VSlice (items : list Value)
| VStrings (items : list string)
| VOther (printed : string).

End Go.

(** ** internal/scraper/health_monitor.go *)

Module HealthMonitor.
Import Go.

(** [FailureRecord]: a single failure event. *)
Record FailureRecord := mkFailureRecord {
  Timestamp : Time;
  Ticker : string;
  Error : string;
  URL : string
}.

(** [HealthMonitor] (the mutex is left out: every method holds it for its
    whole body, so each call is one atomic step on this state). *)
Record t := mkHealthMonitor {
  totalRequests : Z;
  successfulRequests : Z;
  failedRequests : Z;
  consecutiveFailures : Z;
  lastFailureTime : Time;
  lastSuccessTime : Time;
  recentFailures : list FailureRecord;
  maxRecentFailures : Z;
  failureThreshold : float;
  consecutiveThreshold : Z
}.

Record HealthStatus := mkHealthStatus {
  IsHealthy : bool;
  TotalRequests : Z;
  SuccessfulRequests : Z;
  FailedRequests : Z;
  SuccessRate : float;
  ConsecutiveFailures : Z;
  LastFailureTime : option Time;
  LastSuccessTime : option Time;
  RecentFailures : list FailureRecord;
  HealthIssues : list string;
  RecommendedActions : list string
}.

(** The float64 nearest to 0.2, to 0.8 and the exact 0.5. *)
Definition f0_2 : float := 0x1.999999999999ap-3%float.
Definition f0_8 : float := 0x1.999999999999ap-1%float.
Definition f0_5 : float := 0x1p-1%float.

Definition NewHealthMonitor : t :=
  {| totalRequests := 0;
     successfulRequests := 0;
     failedRequests := 0;
     consecutiveFailures := 0;
     lastFailureTime := zeroTime;
     lastSuccessTime := zeroTime;
     recentFailures := [];
     maxRecentFailures := 50;
     failureThreshold := f0_2;
     consecutiveThreshold := 5 |}.

(** [RecordSuccess]; [now] is the reading of [time.Now()]. *)
Definition RecordSuccess (now : Time) (ticker : string) (h : t) : t :=
  {| totalRequests := wrap64 (totalRequests h + 1);
     successfulRequests := wrap64 (successfulRequests h + 1);
     failedRequests := failedRequests h;
     consecutiveFailures := 0;
     lastFailureTime := lastFailureTime h;
     lastSuccessTime := now;
     recentFailures := recentFailures h;
     maxRecentFailures := maxRecentFailures h;
     failureThreshold := failureThreshold h;
     consecutiveThreshold := consecutiveThreshold h |}.

(** [RecordFailure]; [now1] and [now2] are its two readings of
    [time.Now()]. *)
Definition RecordFailure (now1 now2 : Time) (ticker errorMsg url : string)
    (h : t) : t :=
  let failure :=
    {| Timestamp := now2; Ticker := ticker; Error := errorMsg; URL := url |} in
  let appended := recentFailures h ++ [failure] in
  {| totalRequests := wrap64 (totalRequests h + 1);
     successfulRequests := successfulRequests h;
     failedRequests := wrap64 (failedRequests h + 1);
     consecutiveFailures := wrap64 (consecutiveFailures h + 1);
     lastFailureTime := now1;
     lastSuccessTime := lastSuccessTime h;
     recentFailures :=
       if maxRecentFailures h <? Z.of_nat (length appended)
       then drop 1 appended
       else appended;
     maxRecentFailures := maxRecentFailures h;
     failureThreshold := failureThreshold h;
     consecutiveThreshold := consecutiveThreshold h |}.

(** [categorizeError]. *)
Definition categorizeError (errorMsg : string) : string :=
  let errorMsg := ToLower errorMsg in
  if Contains errorMsg "timeout" || Contains errorMsg "deadline"
  then "timeout"
  else if Contains errorMsg "rate limit" || Contains errorMsg "429"
  then "rate_limit"
  else if Contains errorMsg "unauthorized" || Contains errorMsg "401"
          || Contains errorMsg "403"
  then "authentication"
  else if Contains errorMsg "network" || Contains errorMsg "connection"
          || Contains errorMsg "dns"
  then "network"
  else "other".

(** The issue and the action that [analyzeFailurePatterns] attaches to a
    category ("other" has no case in its switch). *)
Definition patternAdvice (errorType : string) : option (string * string) :=
  if eqb_string errorType "timeout" then
    Some ("Frequent timeout errors detected",
          "Consider increasing request timeouts or reducing concurrency")
  else if eqb_string errorType "rate_limit" then
    Some ("Rate limiting detected",
          "Reduce scraping frequency and implement exponential backoff")
  else if eqb_string errorType "authentication" then
    Some ("Authentication errors detected",
          "Verify OxyLabs credentials and account status")
  else if eqb_string errorType "network" then
    Some ("Network connectivity issues detected",
          "Check network connectivity and DNS resolution")
  else None.

(** [errorCounts[errorType]++] over the ring. *)
Definition countErrors (ring : list FailureRecord) : gmap string Z :=
  foldl (fun (errorCounts : gmap string Z) failure =>
           let errorType := categorizeError (Error failure) in
           <[errorType := wrap64 (default 0 (errorCounts !! errorType) + 1)]>
             errorCounts)
        ∅ ring.

(** [analyzeFailurePatterns], on the two lists it appends to.  Go ranges
    over [errorCounts] in an unspecified order; at most one category can
    hold more than half of the ring, so the order does not show. *)
Definition analyzeFailurePatterns (h : t) (issues actions : list string)
    : list string * list string :=
  if Z.of_nat (length (recentFailures h)) <? 3 then (issues, actions)
  else
    let errorCounts := countErrors (recentFailures h) in
    let totalRecent := Z.of_nat (length (recentFailures h)) in
    foldl (fun '(issues, actions) errorType =>
             match errorCounts !! errorType with
             | Some count =>
                 if (f0_5 <? float64_of_int count / float64_of_int totalRecent)%float
                 then match patternAdvice errorType with
                      | Some (issue, action) =>
                          (issues ++ [issue], actions ++ [action])
                      | None => (issues, actions)
                      end
                 else (issues, actions)
             | None => (issues, actions)
             end)
          (issues, actions)
          ["timeout"; "rate_limit"; "authentication"; "network"; "other"]%string.

(** The three health checks of [GetHealthStatus], in source order: each
    one, when it fires, clears [IsHealthy] and appends an issue and an
    action. *)
Definition failureRateCheck (h : t) (rate : float) : bool :=
  (10 <=? totalRequests h) && (rate <? 1 - failureThreshold h)%float.

Definition consecutiveCheck (h : t) : bool :=
  consecutiveThreshold h <=? consecutiveFailures h.

Definition staleCheck (now : Time) (h : t) : bool :=
  negb (IsZero (lastSuccessTime h)) && (Hour <? Since now (lastSuccessTime h)).

(** [GetHealthStatus]; [now] is the reading of the clock in
    [time.Since]. *)
Definition GetHealthStatus (now : Time) (h : t) : HealthStatus :=
  let rate :=
    if 0 <? totalRequests h
    then (float64_of_int (successfulRequests h) / float64_of_int (totalRequests h))%float
    else 1%float in
  let healthy := true in
  let issues : list string := [] in
  let actions : list string := [] in
  let '(healthy, issues, actions) :=
    if failureRateCheck h rate
    then (false, issues ++ ["High failure rate detected (>20%)"%string],
          actions ++ ["Check OxyLabs connectivity and credentials"%string])
    else (healthy, issues, actions) in
  let '(healthy, issues, actions) :=
    if consecutiveCheck h
    then (false, issues ++ ["Multiple consecutive failures detected"%string],
          actions ++ ["Verify OTC Markets website accessibility and rate limits"%string])
    else (healthy, issues, actions) in
  let '(healthy, issues, actions) :=
    if staleCheck now h
    then (false, issues ++ ["No successful requests in the last hour"%string],
          actions ++ ["Check system connectivity and OxyLabs service status"%string])
    else (healthy, issues, actions) in
  let '(issues, actions) := analyzeFailurePatterns h issues actions in
  {| IsHealthy := healthy;
     TotalRequests := totalRequests h;
     SuccessfulRequests := successfulRequests h;
     FailedRequests := failedRequests h;
     SuccessRate := rate;
     ConsecutiveFailures := consecutiveFailures h;
     LastFailureTime :=
       if IsZero (lastFailureTime h) then None else Some (lastFailureTime h);
     LastSuccessTime :=
       if IsZero (lastSuccessTime h) then None else Some (lastSuccessTime h);
     RecentFailures := recentFailures h;
     HealthIssues := issues;
     RecommendedActions := actions |}.

(** [Reset]. *)
Definition Reset (h : t) : t :=
  {| totalRequests := 0;
     successfulRequests := 0;
     failedRequests := 0;
     consecutiveFailures := 0;
     lastFailureTime := zeroTime;
     lastSuccessTime := zeroTime;
     recentFailures := [];
     maxRecentFailures := maxRecentFailures h;
     failureThreshold := failureThreshold h;
     consecutiveThreshold := consecutiveThreshold h |}.

(** [IsHealthy()]. *)
Definition isHealthy (now : Time) (h : t) : bool :=
  IsHealthy (GetHealthStatus now h).

(** [GetFailureRate]. *)
Definition GetFailureRate (h : t) : float :=
  if totalRequests h =? 0 then 0%float
  else (float64_of_int (failedRequests h) / float64_of_int (totalRequests h))%float.

(** A call made on the monitor, with the clock readings it takes. *)
Inductive Call :=
| CallRecordSuccess (now : Time) (ticker : string)
| CallRecordFailure (now1 now2 : Time) (ticker errorMsg url : string)
| CallReset.

Definition step (h : t) (c : Call) : t :=
  match c with
  | CallRecordSuccess now ticker => RecordSuccess now ticker h
  | CallRecordFailure now1 now2 ticker errorMsg url =>
      RecordFailure now1 now2 ticker errorMsg url h
  | CallReset => Reset h
  end.

(** The monitor after a sequence of calls on a fresh one. *)
Definition run (cs : list Call) : t := foldl step NewHealthMonitor cs.

End HealthMonitor.

(** ** The outside world of the scraper *)

Module Net.
Import Go.

(** An outgoing HTTP request, as the clients build it. *)
Record HttpRequest := mkHttpRequest {
  Method : string;
  Target : string;
  Payload : option string;
  Headers : list (string * string);
  BasicAuth : option (string * string)
}.

(** What [httpClient.Do] followed by reading the body comes to. *)
Inductive Transport :=
| DoError (err : error)
| ReadError (status : Z) (err : error)
| Body (status : Z) (body : string).

(** What a program does to the outside, in order. *)
Inductive Event :=
| EvPermit
| EvRequest (req : HttpRequest)
| EvMonitor (c : HealthMonitor.Call).

(** The environment: the answer of the network to the n-th request, the
    n-th reading of the clock. *)
Record Env := mkEnv {
  remote : nat -> HttpRequest -> Transport;
  clock : nat -> Time
}.

Record World := mkWorld {
  httpCalls : nat;
  clockReads : nat;
  trace : list Event
}.

Definition initial : World :=
  {| httpCalls := 0; clockReads := 0; trace := [] |}.

Definition emit (e : Event) (w : World) : World :=
  {| httpCalls := httpCalls w; clockReads := clockReads w;
     trace := trace w ++ [e] |}.

(** [httpClient.Do(req)] and [io.ReadAll(resp.Body)]. *)
Definition Do (env : Env) (req : HttpRequest) (w : World) : Transport * World :=
  (remote env (httpCalls w) req,
   {| httpCalls := S (httpCalls w); clockReads := clockReads w;
      trace := trace w ++ [EvRequest req] |}).

(** [time.Now()]. *)
Definition Now (env : Env) (w : World) : Time * World :=
  (clock env (clockReads w),
   {| httpCalls := httpCalls w; clockReads := S (clockReads w);
      trace := trace w |}).

(** The requests issued so far. *)
Definition requests (w : World) : list HttpRequest :=
  omap (fun e => match e with EvRequest r => Some r | _ => None end) (trace w).

(** The calls made on the health monitor so far. *)
Definition monitorCalls (w : World) : list HealthMonitor.Call :=
  omap (fun e => match e with EvMonitor c => Some c | _ => None end) (trace w).

End Net.

(** ** internal/scraper/oxylabs_client.go *)

Module OxyLabs.
Import Go Net.

Record ContextParam := mkContextParam {
  Key : string;
  ParamValue : bool
}.

(** [OxyLabsRequest] ([ParseInstr] is never set). *)
Record OxyLabsRequest := mkOxyLabsRequest {
  Source : string;
  URL : string;
  UserAgent : string;
  Render : string;
  Context : list ContextParam
}.

Record OxyLabsResult := mkOxyLabsResult {
  Content : string;
  StatusCode : Z;
  ResultURL : string;
  ResultHeaders : list (string * string);
  TaskID : string
}.

Record OxyLabsResponse := mkOxyLabsResponse {
  Results : list OxyLabsResult
}.

(** What [json.Marshal] is applied to. *)
Inductive Marshalled :=
| OneRequest (r : OxyLabsRequest)
| ManyRequests (rs : list OxyLabsRequest).

(** The library calls of the client, which lie outside the repository:
    [json.Marshal], the URL check of [http.NewRequestWithContext],
    [json.Unmarshal] into an [OxyLabsResponse], and
    [goquery.NewDocumentFromReader]. *)
Class Library := {
  Document : Type;
  json_Marshal : Marshalled -> result string;
  url_Parse : string -> option error;
  json_Unmarshal : string -> result OxyLabsResponse;
  NewDocumentFromReader : string -> result Document
}.

Record OxyLabsClient := mkOxyLabsClient {
  username : string;
  password : string;
  endpoint : string
}.

Definition userAgent : string :=
  "Mozilla/5.0 (Windows NT 10.0; Win64; x64) AppleWebKit/537.36 (KHTML, like Gecko) Chrome/91.0.4472.124 Safari/537.36".

(** The request body for one URL, with page rendering and redirect
    following switched on. *)
Definition oxyRequest (url : string) : OxyLabsRequest :=
  {| Source := "universal";
     URL := url;
     UserAgent := userAgent;
     Render := "html";
     Context := [ {| Key := "follow_redirects"; ParamValue := true |};
                  {| Key := "return_only_content"; ParamValue := true |} ] |}.

Section Client.
Context `{Library}.
Variable env : Env.

(** [http.NewRequestWithContext(ctx, "POST", c.endpoint, body)] followed by
    the two header settings. *)
Definition newPost (c : OxyLabsClient) (requestBody : string)
    : result HttpRequest :=
  match url_Parse (endpoint c) with
  | Some err => Err err
  | None =>
      Ok {| Method := "POST";
            Target := endpoint c;
            Payload := Some requestBody;
            Headers := [("Content-Type", "application/json")];
            BasicAuth := Some (username c, password c) |}
  end.

(** The last two steps of [Get], shared with the result loop of
    [GetBatch]: the status of the target page, then the markup. *)
Definition pageOf (r : OxyLabsResult) : result Document :=
  if negb (StatusCode r =? 200)
  then Err ("target page returned status code: " +:+ pretty (StatusCode r))
  else match NewDocumentFromReader (Content r) with
       | Err err => Err (wrapf "failed to parse HTML content" err)
       | Ok doc => Ok doc
       end.

(** [Get]. *)
Definition Get (c : OxyLabsClient) (url : string) (w : World)
    : result Document * World :=
  match json_Marshal (OneRequest (oxyRequest url)) with
  | Err err => (Err (wrapf "failed to marshal request" err), w)
  | Ok requestBody =>
  match newPost c requestBody with
  | Err err => (Err (wrapf "failed to create request" err), w)
  | Ok req =>
  let '(resp, w) := Do env req w in
  match resp with
  | DoError err => (Err (wrapf "failed to perform request" err), w)
  | ReadError _ err => (Err (wrapf "failed to read response" err), w)
  | Body status respBody =>
  if negb (status =? 200)
  then (Err ("unexpected status code " +:+ pretty status +:+ ": " +:+ respBody), w)
  else
  match json_Unmarshal respBody with
  | Err err => (Err (wrapf "failed to parse OxyLabs response" err), w)
  | Ok oxyResponse =>
  match Results oxyResponse with
  | [] => (Err "no results returned from OxyLabs", w)
  | result :: _ => (pageOf result, w)
  end end end end end.

(** The two maps that [GetBatch] fills. *)
Record Split := mkSplit {
  docs : gmap string Document;
  errors : gmap string error
}.

Definition noSplit : Split := {| docs := ∅; errors := ∅ |}.

Definition setDoc (url : string) (doc : Document) (s : Split) : Split :=
  {| docs := <[url := doc]> (docs s); errors := errors s |}.

Definition setError (url : string) (err : error) (s : Split) : Split :=
  {| docs := docs s; errors := <[url := err]> (errors s) |}.

(** The loop [for _, url := range urls { doc, err := c.Get(ctx, url) ... }]
    that every batch-level failure of [GetBatch] runs. *)
Definition individualRequests (c : OxyLabsClient) (urls : list string)
    (s : Split) (w : World) : Split * World :=
  foldl (fun '(s, w) url =>
           let '(r, w) := Get c url w in
           match r with
           | Err err => (setError url err s, w)
           | Ok doc => (setDoc url doc s, w)
           end)
        (s, w) urls.

(** The loop over the results of a decoded batch response: result [i]
    belongs to [urls[i]]; results beyond the URLs are dropped. *)
Fixpoint batchResults (urls : list string) (results : list OxyLabsResult)
    (s : Split) : Split :=
  match results, urls with
  | [], _ => s
  | _ :: _, [] => s
  | result :: results', url :: urls' =>
      batchResults urls' results'
        (if negb (StatusCode result =? 200)
         then setError url
                ("target page returned status code: " +:+ pretty (StatusCode result)) s
         else match NewDocumentFromReader (Content result) with
              | Err err => setError url (wrapf "failed to parse HTML content" err) s
              | Ok doc => setDoc url doc s
              end)
  end.

(** [GetBatch]. *)
Definition GetBatch (c : OxyLabsClient) (urls : list string) (w : World)
    : Split * World :=
  let requests := map oxyRequest urls in
  match json_Marshal (ManyRequests requests) with
  | Err _ => individualRequests c urls noSplit w
  | Ok requestBody =>
  match newPost c requestBody with
  | Err _ => individualRequests c urls noSplit w
  | Ok req =>
  let '(resp, w) := Do env req w in
  match resp with
  | DoError _ => individualRequests c urls noSplit w
  | ReadError _ _ => individualRequests c urls noSplit w
  | Body _ respBody =>
  match json_Unmarshal respBody with
  | Err _ => individualRequests c urls noSplit w
  | Ok oxyResponse => (batchResults urls (Results oxyResponse) noSplit, w)
  end end end end.

End Client.
End OxyLabs.

(** ** internal/scraper/client.go *)

Module DirectClient.
Import Go Net OxyLabs.

(** [Client]: the permits now in the [rateLimiter] channel and the
    capacity of that channel. *)
Record Client := mkClient {
  permits : nat;
  capacity : nat;
  clientUserAgent : string
}.

(** [NewClient(requestsPerSecond)]: the channel is filled. *)
Definition NewClient (requestsPerSecond : nat) : Client :=
  {| permits := requestsPerSecond;
     capacity := requestsPerSecond;
     clientUserAgent := "Mozilla/5.0 (compatible; OTC-Scraper/1.0)" |}.

(** One tick of the refilling goroutine: a permit is added unless the
    channel is full. *)
Definition refill (c : Client) : Client :=
  {| permits := if (permits c <? capacity c)%nat then S (permits c) else permits c;
     capacity := capacity c;
     clientUserAgent := clientUserAgent c |}.

(** How the [select] at the head of [Get] ends: a permit is received
    (after waiting for a refill when the channel is empty), or the
    context is done first. *)
Inductive Select :=
| Permit
| Done (ctxErr : error).

Section Client.
Context `{Library}.
Variable env : Env.

(** [http.NewRequestWithContext(ctx, "GET", url, nil)] and the five
    header settings. *)
Definition newGet (c : Client) (url : string) : result HttpRequest :=
  match url_Parse url with
  | Some err => Err err
  | None =>
      Ok {| Method := "GET";
            Target := url;
            Payload := None;
            Headers :=
              [("User-Agent", clientUserAgent c);
               ("Accept", "text/html,application/xhtml+xml,application/xml;q=0.9,*/*;q=0.8");
               ("Accept-Language", "en-US,en;q=0.5");
               ("Accept-Encoding", "gzip, deflate");
               ("Connection", "keep-alive")];
            BasicAuth := None |}
  end.

(** [Get]. *)
Definition Get (sel : Select) (c : Client) (url : string) (w : World)
    : result Document * Client * World :=
  match sel with
  | Done ctxErr => (Err ctxErr, c, w)
  | Permit =>
  let c := {| permits := pred (permits c); capacity := capacity c;
              clientUserAgent := clientUserAgent c |} in
  let w := emit EvPermit w in
  match newGet c url with
  | Err err => (Err (wrapf "failed to create request" err), c, w)
  | Ok req =>
  let '(resp, w) := Do env req w in
  match resp with
  | DoError err => (Err (wrapf "failed to perform request" err), c, w)
  | ReadError status err =>
      if negb (status =? 200)
      then (Err ("unexpected status code: " +:+ pretty status), c, w)
      else (Err (wrapf "failed to parse HTML" err), c, w)
  | Body status body =>
      if negb (status =? 200)
      then (Err ("unexpected status code: " +:+ pretty status), c, w)
      else match NewDocumentFromReader body with
           | Err err => (Err (wrapf "failed to parse HTML" err), c, w)
           | Ok doc => (Ok doc, c, w)
           end
  end end end.

End Client.
End DirectClient.

(** ** internal/scraper/scraper.go *)

Module Scraper.
Import Go Net OxyLabs.

(** The three functions of parser.go that [ScrapeTicker] applies to a
    fetched page; what they extract does not matter here. *)
Class Parser `{Library} := {
  ParseOverviewPage : Document -> gmap string Value;
  ParseFinancialsPage : Document -> gmap string Value;
  ParseDisclosurePage : Document -> gmap string Value
}.

(** [models.ScrapedData]. *)
Record ScrapedData := mkScrapedData {
  Ticker : string;
  Overview : gmap string Value;
  Financials : gmap string Value;
  Disclosure : gmap string Value;
  ScrapedAt : Time;
  Errors : list string
}.

(** [Scraper]; the parser has no state. *)
Record t := mkScraper {
  client : OxyLabsClient;
  maxConcurrency : Z;
  healthMonitor : HealthMonitor.t
}.

Definition overviewURL (ticker : string) : string :=
  "https://www.otcmarkets.com/stock/" +:+ ticker +:+ "/overview".
Definition financialsURL (ticker : string) : string :=
  "https://www.otcmarkets.com/stock/" +:+ ticker +:+ "/financials".
Definition disclosureURL (ticker : string) : string :=
  "https://www.otcmarkets.com/stock/" +:+ ticker +:+ "/disclosure".

Definition setOverview (m : gmap string Value) (d : ScrapedData) : ScrapedData :=
  {| Ticker := Ticker d; Overview := m; Financials := Financials d;
     Disclosure := Disclosure d; ScrapedAt := ScrapedAt d; Errors := Errors d |}.
Definition setFinancials (m : gmap string Value) (d : ScrapedData) : ScrapedData :=
  {| Ticker := Ticker d; Overview := Overview d; Financials := m;
     Disclosure := Disclosure d; ScrapedAt := ScrapedAt d; Errors := Errors d |}.
Definition setDisclosure (m : gmap string Value) (d : ScrapedData) : ScrapedData :=
  {| Ticker := Ticker d; Overview := Overview d; Financials := Financials d;
     Disclosure := m; ScrapedAt := ScrapedAt d; Errors := Errors d |}.
Definition addError (msg : string) (d : ScrapedData) : ScrapedData :=
  {| Ticker := Ticker d; Overview := Overview d; Financials := Financials d;
     Disclosure := Disclosure d; ScrapedAt := ScrapedAt d;
     Errors := Errors d ++ [msg] |}.

(** The local variables of [ScrapeTicker], the monitor and the world. *)
Record Progress := mkProgress {
  scraped : ScrapedData;
  hasErrors : bool;
  errorDetails : list string;
  monitor : HealthMonitor.t;
  world : World
}.

Section Scraper.
Context `{Parser}.
Variable env : Env.

(** [s.healthMonitor.RecordFailure(ticker, errorMsg, url)], which reads
    the clock twice. *)
Definition recordFailure (ticker errorMsg url : string)
    (h : HealthMonitor.t) (w : World) : HealthMonitor.t * World :=
  let '(now1, w) := Now env w in
  let '(now2, w) := Now env w in
  let c := HealthMonitor.CallRecordFailure now1 now2 ticker errorMsg url in
  (HealthMonitor.step h c, emit (EvMonitor c) w).

(** [s.healthMonitor.RecordSuccess(ticker)]. *)
Definition recordSuccess (ticker : string)
    (h : HealthMonitor.t) (w : World) : HealthMonitor.t * World :=
  let '(now, w) := Now env w in
  let c := HealthMonitor.CallRecordSuccess now ticker in
  (HealthMonitor.step h c, emit (EvMonitor c) w).

(** One of the three blocks "Process ... page" of [ScrapeTicker]. *)
Definition processPage (label url ticker : string)
    (parse : Document -> gmap string Value)
    (store : gmap string Value -> ScrapedData -> ScrapedData)
    (fetched : Split) (p : Progress) : Progress :=
  match docs fetched !! url with
  | Some doc =>
      {| scraped := store (parse doc) (scraped p);
         hasErrors := hasErrors p;
         errorDetails := errorDetails p;
         monitor := monitor p;
         world := world p |}
  | None =>
      match errors fetched !! url with
      | Some err =>
          let errorMsg := label +:+ ": " +:+ err in
          let '(h, w) := recordFailure ticker errorMsg url (monitor p) (world p) in
          {| scraped := addError errorMsg (scraped p);
             hasErrors := true;
             errorDetails := errorDetails p ++ [errorMsg];
             monitor := h;
             world := w |}
      | None => p
      end
  end.

(** [s.healthMonitor.IsHealthy()], which reads the clock when a last
    success is stamped. *)
Definition checkHealth (h : HealthMonitor.t) (w : World) : bool * World :=
  if IsZero (HealthMonitor.lastSuccessTime h)
  then (HealthMonitor.isHealthy zeroTime h, w)
  else let '(now, w) := Now env w in (HealthMonitor.isHealthy now h, w).

(** [ScrapeTicker]; the error it returns is always nil. *)
Definition ScrapeTicker (s : t) (ticker : string) (w : World)
    : (ScrapedData * option error) * t * World :=
  let '(scrapedAt, w) := Now env w in
  let fresh :=
    {| Ticker := ticker; Overview := ∅; Financials := ∅; Disclosure := ∅;
       ScrapedAt := scrapedAt; Errors := [] |} in
  let urls := [overviewURL ticker; financialsURL ticker; disclosureURL ticker] in
  let '(fetched, w) := GetBatch env (client s) urls w in
  let p := {| scraped := fresh; hasErrors := false; errorDetails := [];
              monitor := healthMonitor s; world := w |} in
  let p := processPage "overview" (overviewURL ticker) ticker
             ParseOverviewPage setOverview fetched p in
  let p := processPage "financials" (financialsURL ticker) ticker
             ParseFinancialsPage setFinancials fetched p in
  let p := processPage "disclosure" (disclosureURL ticker) ticker
             ParseDisclosurePage setDisclosure fetched p in
  let '(h, w) :=
    if negb (hasErrors p) || (0 <? Z.of_nat (size (docs fetched)))
    then recordSuccess ticker (monitor p) (world p)
    else (monitor p, world p) in
  let '(_, w) := checkHealth h w in
  ((scraped p, None),
   {| client := client s; maxConcurrency := maxConcurrency s;
      healthMonitor := h |},
   w).

End Scraper.
End Scraper.

(** ** internal/scoring/engine.go *)

Module Engine.
Import Go.

(** Library calls of the engine that lie outside the repository: how
    [%v] prints a float64, a float32 and a [time.Time], and
    [regexp.MatchString]. *)
Class Library := {
  FormatFloat64 : float -> string;
  FormatFloat32 : float -> string;
  Time_String : Time -> string;
  regexp_MatchString : string -> string -> result bool
}.

Record ScoringRule := mkScoringRule {
  RuleField : string;
  RuleOperator : string;
  RuleValue : Value;
  Weight : Z;
  RuleDescription : string
}.

Record Requirement := mkRequirement {
  Field : string;
  Operator : string;
  Expected : Value;
  Description : string
}.

Record ICPModel := mkICPModel {
  ID : string;
  Name : string;
  ModelDescription : string;
  Version : Z;
  Requirements : list Requirement;
  Exclusions : list Requirement;
  Rules : list ScoringRule;
  MinScore : Z;
  IsActive : bool;
  CreatedAt : Time;
  UpdatedAt : Time
}.

Record ScoreDetail := mkScoreDetail {
  Points : Z;
  Triggered : bool;
  DetailDescription : string;
  DetailValue : string
}.

Record ScoreResult := mkScoreResult {
  CompanyID : string;
  ScoringModelID : string;
  Score : Z;
  Qualified : bool;
  RequirementsMet : bool;
  Breakdown : gmap string ScoreDetail;
  ScoredAt : Time
}.

(** The float64 nearest to 30.44. *)
Definition f30_44 : float := 0x1.e70a3d70a3d71p+4%float.

Section Engine.
Context `{Library}.

(** [fmt.Sprintf("%v", v)]. *)
Fixpoint Sprint (v : Value) : string :=
  match v with
  | VNil => "<nil>"
  | VBool b => if b then "true" else "false"
  | VString s => s
  | VInt n => pretty n
  | VInt64 n => pretty n
  | VInt32 n => pretty n
  | VFloat64 f => FormatFloat64 f
  | VFloat32 f => FormatFloat32 f
  | VTime t => Time_String t
  | VTimePtr None => "<nil>"
  | VTimePtr (Some t) => Time_String t
  | VSlice items => "[" +:+ Join (List.map Sprint items) " " +:+ "]"
  | VStrings items => "[" +:+ Join items " " +:+ "]"
  | VOther printed => printed
  end.

(** [data[key]]: the nil interface when the key is absent. *)
Definition index (data : gmap string Value) (key : string) : Value :=
  default VNil (data !! key).

(** [v == nil] for an interface value. *)
Definition isNil (v : Value) : bool :=
  match v with VNil => true | _ => false end.

(** [evaluateDelinquency]; [now] is the clock of [time.Since]. *)
Definition evaluateDelinquency (now : Time) (data : gmap string Value)
    (dateField : string) (monthsThreshold : Z) : bool :=
  match data !! dateField with
  | None => true
  | Some dateValue =>
      if isNil dateValue then true
      else
        let lastDate : option Time :=
          match dateValue with
          | VTime v => Some v
          | VTimePtr None => None
          | VTimePtr (Some v) => Some v
          | VString v => ParseDate v
          | _ => None
          end in
        match lastDate with
        | None => true
        | Some lastDate =>
            let monthsSince :=
              (Hours (Since now lastDate) / 24 / f30_44)%float in
            (float64_of_int monthsThreshold <? monthsSince)%float
        end
  end.

(** [evaluateMarketTierRisk]. *)
Definition evaluateMarketTierRisk (data : gmap string Value) : bool :=
  match data !! "market_tier" with
  | None => false
  | Some tier =>
      let tierStr := ToLower (Sprint tier) in
      existsb (fun riskTier => Contains tierStr riskTier)
        ["pink limited"; "expert market"; "grey market"; "gray market"]%string
  end.

(** [evaluateDescriptionKeywords]. *)
Definition evaluateDescriptionKeywords (data : gmap string Value)
    (keywords : list string) : bool :=
  match data !! "description" with
  | None => false
  | Some description =>
      if isNil description then false
      else
        let descStr := ToLower (Sprint description) in
        existsb (fun keyword => Contains descStr (ToLower keyword)) keywords
  end.

(** [containsAsianLocations]. *)
Definition containsAsianLocations (text : string) : bool :=
  let text := ToLower text in
  existsb (fun indicator => Contains text indicator)
    ["taiwan"; "tw"; "hong kong"; "hk"; "china"; "cn"; "singapore"; "sg";
     "beijing"; "shanghai"; "shenzhen"; "taipei"; "macau"; "mo"]%string.

(** [evaluateAsianManagement]. *)
Definition evaluateAsianManagement (data : gmap string Value) : bool :=
  let present (key : string) :=
    match data !! key with
    | Some v => if isNil v then false else containsAsianLocations (Sprint v)
    | None => false
    end in
  if present "officers" then true
  else if present "address" then true
  else false.

(** [getOfficerLocations]. *)
Definition getOfficerLocations (data : gmap string Value) : Value :=
  match data !! "officers" with
  | None => VString "No officer data"
  | Some officers => officers
  end.

(** [evaluateActiveTransferAgent]. *)
Definition evaluateActiveTransferAgent (data : gmap string Value) : bool :=
  match data !! "transfer_agent" with
  | None => false
  | Some agent =>
      if isNil agent then false
      else
        let agentStr := ToLower (Sprint agent) in
        if (String.length (TrimSpace agentStr) =? 0)%nat then false
        else if existsb (fun reputable => Contains agentStr reputable)
                  ["computershare"; "continental"; "american stock";
                   "island stock"; "vstock"; "pacific stock";
                   "securities transfer"; "registrar and transfer"]%string
        then true
        else negb (Contains agentStr "unknown") && negb (Contains agentStr "none")
  end.

(** [evaluateDomainMatch]. *)
Definition evaluateDomainMatch (data : gmap string Value) : bool :=
  match data !! "website", data !! "company_name" with
  | Some website, Some companyName =>
      if isNil website || isNil companyName then false
      else
        let websiteStr := ToLower (Sprint website) in
        let nameStr := ToLower (Sprint companyName) in
        let websiteStr :=
          if Contains websiteStr "//"
          then match Split websiteStr "//" with
               | _ :: second :: _ => second
               | _ => websiteStr
               end
          else websiteStr in
        let websiteStr :=
          if Contains websiteStr "/"
          then match Split websiteStr "/" with
               | first :: _ => first
               | [] => websiteStr
               end
          else websiteStr in
        let websiteStr :=
          if HasPrefix websiteStr "www." then dropBytes 4 websiteStr
          else websiteStr in
        let nameWords := Fields (ReplaceByte nameStr "," " ") in
        existsb (fun word =>
                   let word := ToLower (TrimSpace word) in
                   (3 <? String.length word)%nat
                   && negb (eqb_string word "inc") && negb (eqb_string word "corp")
                   && negb (eqb_string word "company") && negb (eqb_string word "ltd")
                   && Contains websiteStr word)
                nameWords
  | _, _ => false
  end.

(** [evaluateAuditorPresent]. *)
Definition evaluateAuditorPresent (data : gmap string Value) : bool :=
  match data !! "auditor" with
  | None => false
  | Some auditor =>
      if isNil auditor then false
      else
        let auditorStr := TrimSpace (Sprint auditor) in
        (0 <? String.length auditorStr)%nat
        && negb (Contains (ToLower auditorStr) "unknown")
        && negb (Contains (ToLower auditorStr) "none")
  end.

(** [evaluateInList]. *)
Definition evaluateInList (actual expected : Value) : bool :=
  let actualStr := Sprint actual in
  match expected with
  | VSlice v => existsb (fun item => eqb_string (Sprint item) actualStr) v
  | VStrings v => existsb (fun item => eqb_string item actualStr) v
  | VString v =>
      existsb (fun item => eqb_string (TrimSpace item) actualStr) (Split v ",")
  | _ => false
  end.

(** [evaluateRegex]. *)
Definition evaluateRegex (actual expected : Value) : bool :=
  match regexp_MatchString (Sprint expected) (Sprint actual) with
  | Ok matched => matched
  | Err _ => false
  end.

(** [toFloat64]. *)
Definition toFloat64 (val : Value) : float * bool :=
  match val with
  | VFloat64 v => (v, true)
  | VFloat32 v => (v, true)
  | VInt v => (float64_of_int v, true)
  | VInt64 v => (float64_of_int v, true)
  | VInt32 v => (float64_of_int v, true)
  | _ => (0%float, false)
  end.

(** [compareNumbers]. *)
Definition compareNumbers (actual expected : Value) (operator : string) : bool :=
  let '(actualFloat, actualOK) := toFloat64 actual in
  let '(expectedFloat, expectedOK) := toFloat64 expected in
  if negb actualOK || negb expectedOK then false
  else if eqb_string operator ">" then (expectedFloat <? actualFloat)%float
  else if eqb_string operator "<" then (actualFloat <? expectedFloat)%float
  else if eqb_string operator ">=" then (expectedFloat <=? actualFloat)%float
  else if eqb_string operator "<=" then (actualFloat <=? expectedFloat)%float
  else false.

(** The second switch of [evaluateCondition]: a stored field against an
    operator and a literal. *)
Definition standardField (actualValue : Value) (operator : string)
    (expectedValue : Value) : bool :=
  if eqb_string operator "equals" then
    eqb_string (Sprint actualValue) (Sprint expectedValue)
  else if eqb_string operator "not_equals" then
    negb (eqb_string (Sprint actualValue) (Sprint expectedValue))
  else if eqb_string operator "contains" then
    Contains (ToLower (Sprint actualValue)) (ToLower (Sprint expectedValue))
  else if eqb_string operator "greater_than" then
    compareNumbers actualValue expectedValue ">"
  else if eqb_string operator "less_than" then
    compareNumbers actualValue expectedValue "<"
  else if eqb_string operator "greater_than_or_equal" then
    compareNumbers actualValue expectedValue ">="
  else if eqb_string operator "less_than_or_equal" then
    compareNumbers actualValue expectedValue "<="
  else if eqb_string operator "is_true" then
    match actualValue with
    | VBool boolVal => boolVal
    | _ => eqb_string (Sprint actualValue) "true"
    end
  else if eqb_string operator "is_false" then
    match actualValue with
    | VBool boolVal => negb boolVal
    | _ => eqb_string (Sprint actualValue) "false"
    end
  else if eqb_string operator "in" then
    evaluateInList actualValue expectedValue
  else if eqb_string operator "not_in" then
    negb (evaluateInList actualValue expectedValue)
  else if eqb_string operator "regex" then
    evaluateRegex actualValue expectedValue
  else false.

(** [evaluateCondition]. *)
Definition evaluateCondition (now : Time) (data : gmap string Value)
    (field operator : string) (expectedValue : Value) : bool * Value :=
  if eqb_string field "delinquent_10k" then
    (evaluateDelinquency now data "last_10k_date" 15, index data "last_10k_date")
  else if eqb_string field "delinquent_10q" then
    (evaluateDelinquency now data "last_10q_date" 6, index data "last_10q_date")
  else if eqb_string field "no_recent_activity" then
    (evaluateDelinquency now data "last_filing_date" 12,
     index data "last_filing_date")
  else if eqb_string field "pink_limited_or_expert" then
    (evaluateMarketTierRisk data, index data "market_tier")
  else if eqb_string field "reverse_merger_shell" then
    (evaluateDescriptionKeywords data
       ["reverse merger"; "shell company"; "shell corporation"]%string,
     index data "description")
  else if eqb_string field "asian_management" then
    (evaluateAsianManagement data, getOfficerLocations data)
  else if eqb_string field "cannabis_or_crypto" then
    (evaluateDescriptionKeywords data
       ["cannabis"; "cbd"; "marijuana"; "blockchain"; "crypto"; "bitcoin"]%string,
     index data "description")
  else if eqb_string field "holding_company_or_spac" then
    (evaluateDescriptionKeywords data
       ["blank check"; "spac"; "holding company"; "special purpose"]%string,
     index data "description")
  else if eqb_string field "active_transfer_agent" then
    (evaluateActiveTransferAgent data, index data "transfer_agent")
  else if eqb_string field "domain_linked_to_company" then
    (evaluateDomainMatch data, index data "website")
  else if eqb_string field "auditor_identified" then
    (evaluateAuditorPresent data, index data "auditor")
  else if eqb_string field "no_verified_profile" then
    match index data "profile_verified" with
    | VBool verified => (negb verified, VBool verified)
    | _ => (true, VBool false)
    end
  else
    match data !! field with
    | None => (false, VNil)
    | Some actualValue =>
        (standardField actualValue operator expectedValue, actualValue)
    end.

(** The first loop of [ScoreCompany], over the requirements. *)
Definition checkRequirement (now : Time) (data : gmap string Value)
    (result : ScoreResult) (req : Requirement) : ScoreResult :=
  let '(met, value) :=
    evaluateCondition now data (Field req) (Operator req) (Expected req) in
  if negb met then
    {| CompanyID := CompanyID result;
       ScoringModelID := ScoringModelID result;
       Score := Score result;
       Qualified := Qualified result;
       RequirementsMet := false;
       Breakdown :=
         <[Field req +:+ "_requirement" :=
             {| Points := 0; Triggered := false;
                DetailDescription := "REQUIREMENT: " +:+ Description req;
                DetailValue := Sprint value |}]> (Breakdown result);
       ScoredAt := ScoredAt result |}
  else
    {| CompanyID := CompanyID result;
       ScoringModelID := ScoringModelID result;
       Score := Score result;
       Qualified := Qualified result;
       RequirementsMet := RequirementsMet result;
       Breakdown :=
         <[Field req +:+ "_requirement" :=
             {| Points := 0; Triggered := true;
                DetailDescription := "REQUIREMENT MET: " +:+ Description req;
                DetailValue := Sprint value |}]> (Breakdown result);
       ScoredAt := ScoredAt result |}.

(** The second loop, over the exclusions. *)
Definition checkExclusion (now : Time) (data : gmap string Value)
    (result : ScoreResult) (exclusion : Requirement) : ScoreResult :=
  let '(met, value) :=
    evaluateCondition now data (Field exclusion) (Operator exclusion)
      (Expected exclusion) in
  if met then
    {| CompanyID := CompanyID result;
       ScoringModelID := ScoringModelID result;
       Score := Score result;
       Qualified := Qualified result;
       RequirementsMet := false;
       Breakdown :=
         <[Field exclusion +:+ "_exclusion" :=
             {| Points := 0; Triggered := true;
                DetailDescription := "EXCLUSION VIOLATED: " +:+ Description exclusion;
                DetailValue := Sprint value |}]> (Breakdown result);
       ScoredAt := ScoredAt result |}
  else
    {| CompanyID := CompanyID result;
       ScoringModelID := ScoringModelID result;
       Score := Score result;
       Qualified := Qualified result;
       RequirementsMet := RequirementsMet result;
       Breakdown :=
         <[Field exclusion +:+ "_exclusion" :=
             {| Points := 0; Triggered := false;
                DetailDescription := "EXCLUSION OK: " +:+ Description exclusion;
                DetailValue := Sprint value |}]> (Breakdown result);
       ScoredAt := ScoredAt result |}.

(** The third loop, over the scoring rules. *)
Definition applyRule (now : Time) (data : gmap string Value)
    (result : ScoreResult) (rule : ScoringRule) : ScoreResult :=
  let '(triggered, value) :=
    evaluateCondition now data (RuleField rule) (RuleOperator rule)
      (RuleValue rule) in
  let detail :=
    {| Points := if triggered then Weight rule else 0;
       Triggered := triggered;
       DetailDescription := RuleDescription rule;
       DetailValue := Sprint value |} in
  {| CompanyID := CompanyID result;
     ScoringModelID := ScoringModelID result;
     Score := if triggered then wrap64 (Score result + Weight rule)
              else Score result;
     Qualified := Qualified result;
     RequirementsMet := RequirementsMet result;
     Breakdown := <[RuleField rule := detail]> (Breakdown result);
     ScoredAt := ScoredAt result |}.

(** [ScoreCompany]; its error is always nil.  [scoredAt] is the reading
    of [time.Now()] for the result, [now] the clock seen by the date
    rules. *)
Definition ScoreCompany (scoredAt now : Time) (companyData : gmap string Value)
    (model : ICPModel) : ScoreResult :=
  let result :=
    {| CompanyID := "";
       ScoringModelID := ID model;
       Score := 0;
       Qualified := false;
       RequirementsMet := true;
       Breakdown := ∅;
       ScoredAt := scoredAt |} in
  let result := foldl (checkRequirement now companyData) result (Requirements model) in
  let result := foldl (checkExclusion now companyData) result (Exclusions model) in
  if RequirementsMet result then
    let result := foldl (applyRule now companyData) result (Rules model) in
    {| CompanyID := CompanyID result;
       ScoringModelID := ScoringModelID result;
       Score := Score result;
       Qualified := MinScore model <=? Score result;
       RequirementsMet := RequirementsMet result;
       Breakdown := Breakdown result;
       ScoredAt := ScoredAt result |}
  else result.

End Engine.
End Engine.

(** ** internal/services/scoring_pipeline.go *)

Module Pipeline.
Import Go.

Record PipelineConfig := mkPipelineConfig {
  BatchSize : Z;
  IntervalMinutes : Z;
  MaxConcurrent : Z;
  ProcessNewOnly : bool;
  RescoreOlderThanDays : Z
}.

Definition DefaultPipelineConfig : PipelineConfig :=
  {| BatchSize := 50;
     IntervalMinutes := 60;
     MaxConcurrent := 10;
     ProcessNewOnly := false;
     RescoreOlderThanDays := 7 |}.

(** A channel of [struct{}] on which nothing is ever sent: it is open, or
    it has been closed. *)
Inductive Chan := Open | Closed.

(** [ScoringPipeline].  [wg] is the counter of the WaitGroup, that is the
    background loops that have not returned; [launched] lists the
    configurations of the [go p.runPipeline(config)] statements executed
    so far.  The mutex is left out: [Start] and [Stop] hold it for their
    whole body, so each call is one atomic step. *)
Record ScoringPipeline := mkScoringPipeline {
  isRunning : bool;
  stopChan : Chan;
  wg : nat;
  launched : list PipelineConfig
}.

(** [NewScoringPipeline]: the only place where [stopChan] is made. *)
Definition NewScoringPipeline : ScoringPipeline :=
  {| isRunning := false; stopChan := Open; wg := 0; launched := [] |}.

(** How a call ends: it returns its error (nil or not), or it panics. *)
Inductive Outcome :=
| Returned (err : option error)
| Panicked (msg : string).

(** [Start]. *)
Definition Start (config : PipelineConfig) (p : ScoringPipeline)
    : Outcome * ScoringPipeline :=
  if isRunning p then (Returned (Some "pipeline is already running"), p)
  else
    (Returned None,
     {| isRunning := true;
        stopChan := stopChan p;
        wg := S (wg p);
        launched := launched p ++ [config] |}).

(** [Stop].  [close] of a closed channel panics; the deferred unlock
    runs and the fields keep their values.  After [close] of an open
    channel, [wg.Wait()] returns when every loop has returned. *)
Definition Stop (p : ScoringPipeline) : Outcome * ScoringPipeline :=
  if negb (isRunning p) then (Returned (Some "pipeline is not running"), p)
  else
    match stopChan p with
    | Closed => (Panicked "close of closed channel", p)
    | Open =>
        (Returned None,
         {| isRunning := false;
            stopChan := Closed;
            wg := 0;
            launched := launched p |})
    end.

(** [IsRunning]. *)
Definition IsRunning (p : ScoringPipeline) : bool := isRunning p.

(** A background loop returns on its own ([defer p.wg.Done()]). *)
Definition loopReturns (p : ScoringPipeline) : ScoringPipeline :=
  {| isRunning := isRunning p;
     stopChan := stopChan p;
     wg := pred (wg p);
     launched := launched p |}.

(** What happens to a pipeline: calls of its methods by callers that
    survive a panic, and loops returning. *)
Inductive Call :=
| CallStart (config : PipelineConfig)
| CallStop
| LoopReturns.

Definition step (p : ScoringPipeline) (c : Call) : Outcome * ScoringPipeline :=
  match c with
  | CallStart config => Start config p
  | CallStop => Stop p
  | LoopReturns => (Returned None, loopReturns p)
  end.

(** The pipeline after a sequence of calls. *)
Definition after (cs : list Call) (p : ScoringPipeline) : ScoringPipeline :=
  foldl (fun p c => snd (step p c)) p cs.

(** The outcomes of a sequence of calls, in order. *)
Fixpoint outcomes (cs : list Call) (p : ScoringPipeline) : list Outcome :=
  match cs with
  | [] => []
  | c :: cs' => fst (step p c) :: outcomes cs' (snd (step p c))
  end.

(** What one [select] of the loop finds: whether [stopChan] is closed by
    then, whether a tick is waiting in [ticker.C], and, when both cases
    can proceed, whether the runtime's random choice takes the tick. *)
Record SelectObs := mkSelectObs {
  stopClosed : bool;
  tickPending : bool;
  pickTick : bool
}.

(** How the run of a loop ends, as far as it is observed. *)
Inductive LoopEnd :=
| Crashed
| Exited
| Waiting.

Record LoopRun := mkLoopRun {
  immediateCycles : nat;
  periodicCycles : nat;
  ending : LoopEnd
}.

(** The [for { select { ... } }] of [runPipeline]: [periodic] counts the
    cycles run on a tick. *)
Fixpoint selectLoop (sched : list SelectObs) (periodic : nat) : nat * LoopEnd :=
  match sched with
  | [] => (periodic, Waiting)
  | o :: rest =>
      if stopClosed o && tickPending o then
        if pickTick o then selectLoop rest (S periodic) else (periodic, Exited)
      else if stopClosed o then (periodic, Exited)
      else if tickPending o then selectLoop rest (S periodic)
      else selectLoop rest periodic
  end.

(** [runPipeline]: [time.NewTicker] panics on an interval that is not
    positive; otherwise one cycle runs at once and the loop follows.  A
    scoring cycle is taken to complete. *)
Definition runPipeline (config : PipelineConfig) (sched : list SelectObs)
    : LoopRun :=
  if wrap64 (wrap64 (IntervalMinutes config) * Minute) <=? 0 then
    {| immediateCycles := 0; periodicCycles := 0; ending := Crashed |}
  else
    let '(periodic, e) := selectLoop sched 0 in
    {| immediateCycles := 1; periodicCycles := periodic; ending := e |}.

(** The selects of a loop whose [stopChan] is closed throughout; [ticks]
    gives, select by select, whether a tick is waiting and whether the
    runtime would take it. *)
Definition closedSchedule (ticks : list (bool * bool)) : list SelectObs :=
  map (fun '(pending, pick) =>
         {| stopClosed := true; tickPending := pending; pickTick := pick |})
      ticks.

End Pipeline.

(** ** Definitions that follow the words of the specification *)

Module HealthSpec.
Import Go HealthMonitor.

(** "The most recent failures in arrival order": the failures recorded
    since the last reset, oldest first. *)
Definition arrivals (cs : list Call) : list FailureRecord :=
  foldl (fun acc c =>
           match c with
           | CallRecordSuccess _ _ => acc
           | CallRecordFailure _ now2 ticker errorMsg url =>
               acc ++ [{| Timestamp := now2; Ticker := ticker;
                          Error := errorMsg; URL := url |}]
           | CallReset => []
           end)
        [] cs.

(** The last [n] elements of a list. *)
Definition mostRecent {A : Type} (n : nat) (l : list A) : list A :=
  drop (length l - n) l.

(** "isHealthy=false exactly when at least one of the following holds":
    the verdict that the specification gives from the counters, the
    reported rate and the clock. *)
Definition unhealthy (now : Time) (h : t) (rate : float) : Prop :=
  (10 <= totalRequests h /\ (rate <? f0_8)%float = true)
  \/ 5 <= consecutiveFailures h
  \/ (lastSuccessTime h <> zeroTime /\ Hour < now - lastSuccessTime h).

End HealthSpec.

Module EngineSpec.
Import Go Engine.





Section Gate.
Context `{Library}.

(** Whether a requirement or an exclusion, as a condition, holds. *)
Definition holds (now : Time) (data : gmap string Value) (c : Requirement) : bool :=
  fst (evaluateCondition now data (Field c) (Operator c) (Expected c)).

(** "At least one requirement condition fails or at least one exclusion
    condition holds". *)
Definition gateFails (now : Time) (data : gmap string Value) (model : ICPModel)
    : Prop :=
  (exists req, req ∈ Requirements model /\ holds now data req = false)
  \/ (exists ex, ex ∈ Exclusions model /\ holds now data ex = true).

Definition requirementKey (req : Requirement) : string :=
  Field req +:+ "_requirement".
Definition exclusionKey (ex : Requirement) : string :=
  Field ex +:+ "_exclusion".

(** The entry that records the evaluation of one requirement, and of one
    exclusion. *)
Definition requirementEntry (now : Time) (data : gmap string Value)
    (req : Requirement) : ScoreDetail :=
  let '(met, value) :=
    evaluateCondition now data (Field req) (Operator req) (Expected req) in
  {| Points := 0;
     Triggered := met;
     DetailDescription :=
       (if met then "REQUIREMENT MET: " else "REQUIREMENT: ") +:+ Description req;
     DetailValue := Sprint value |}.

Definition exclusionEntry (now : Time) (data : gmap string Value)
    (ex : Requirement) : ScoreDetail :=
  let '(met, value) :=
    evaluateCondition now data (Field ex) (Operator ex) (Expected ex) in
  {| Points := 0;
     Triggered := met;
     DetailDescription :=
       (if met then "EXCLUSION VIOLATED: " else "EXCLUSION OK: ") +:+ Description ex;
     DetailValue := Sprint value |}.

(** "The breakdown contains one recorded entry for every requirement and
    every exclusion evaluated": each of them finds its own evaluation
    recorded. *)
Definition everyEvaluationRecorded (now : Time) (data : gmap string Value)
    (model : ICPModel) (r : ScoreResult) : Prop :=
  (forall req, req ∈ Requirements model ->
     Breakdown r !! requirementKey req = Some (requirementEntry now data req))
  /\ (forall ex, ex ∈ Exclusions model ->
        Breakdown r !! exclusionKey ex = Some (exclusionEntry now data ex)).

(** What a loop leaves in the breakdown when it stores one entry per
    element under the key of the element. *)
Definition store {A} (key : A -> string) (entry : A -> ScoreDetail)
    (m : gmap string ScoreDetail) (cs : list A) : gmap string ScoreDetail :=
  foldl (fun m c => <[key c := entry c]> m) m cs.

(** The last condition of a list that bears on a given field. *)
Definition lastOn (field : string) (cs : list Requirement) : option Requirement :=
  last (filter (fun c => Field c = field) cs).

End Gate.
End EngineSpec.

(** ** Sample inputs *)

Module Samples.
Import Go.

(** A stand-in for the library calls of the engine: the sample inputs
    hold strings, integers and dates only and never reach it. *)
Definition engineLibrary : Engine.Library :=
  {| Engine.FormatFloat64 := fun _ => "";
     Engine.FormatFloat32 := fun _ => "";
     Engine.Time_String := fun _ => "";
     Engine.regexp_MatchString := fun _ _ => Err "regexp: not available" |}.

(** October 30, 2026, 00:00 UTC. *)
Definition sampleNow : Time := Date 2026 10 30.

(** Two requirements on one field, of which the snapshot meets the second
    only, and a rule of weight 5. *)
Definition sharedFieldModel : Engine.ICPModel :=
  {| Engine.ID := "shared-field";
     Engine.Name := "Shared field";
     Engine.ModelDescription := "";
     Engine.Version := 1;
     Engine.Requirements :=
       [ {| Engine.Field := "market_tier"; Engine.Operator := "equals";
            Engine.Expected := VString "Expert Market";
            Engine.Description := "Must be in Expert Market tier" |};
         {| Engine.Field := "market_tier"; Engine.Operator := "contains";
            Engine.Expected := VString "Pink";
            Engine.Description := "Must be a Pink tier" |} ];
     Engine.Exclusions := [];
     Engine.Rules :=
       [ {| Engine.RuleField := "delinquent_10k"; Engine.RuleOperator := "";
            Engine.RuleValue := VNil; Engine.Weight := 5;
            Engine.RuleDescription := "Delinquent 10-K filing (>15 months)" |} ];
     Engine.MinScore := 3;
     Engine.IsActive := true;
     Engine.CreatedAt := zeroTime;
     Engine.UpdatedAt := zeroTime |}.

Definition pinkSnapshot : gmap string Value :=
  {[ "market_tier" := VString "OTC Pink" ]}.

(** One requirement, one exclusion, one rule of weight 5; the snapshot
    misses the requirement. *)
Definition expertModel : Engine.ICPModel :=
  {| Engine.ID := "expert";
     Engine.Name := "Expert";
     Engine.ModelDescription := "";
     Engine.Version := 1;
     Engine.Requirements :=
       [ {| Engine.Field := "market_tier"; Engine.Operator := "equals";
            Engine.Expected := VString "Expert Market";
            Engine.Description := "Must be in Expert Market tier" |} ];
     Engine.Exclusions :=
       [ {| Engine.Field := "quote_status"; Engine.Operator := "contains";
            Engine.Expected := VString "Eligible";
            Engine.Description := "Must not be eligible" |} ];
     Engine.Rules :=
       [ {| Engine.RuleField := "delinquent_10k"; Engine.RuleOperator := "";
            Engine.RuleValue := VNil; Engine.Weight := 5;
            Engine.RuleDescription := "Delinquent 10-K filing (>15 months)" |} ];
     Engine.MinScore := 3;
     Engine.IsActive := true;
     Engine.CreatedAt := zeroTime;
     Engine.UpdatedAt := zeroTime |}.

(** Six failures in a row, one second apart, from noon of the sample
    day. *)
Definition sampleNoon : Time := sampleNow + 12 * Hour.

Definition sixFailures : list HealthMonitor.Call :=
  map (fun i : Z =>
         HealthMonitor.CallRecordFailure
           (sampleNoon + i * Second) (sampleNoon + i * Second)
           "TICKER" "error" "")
      [0; 1; 2; 3; 4; 5].

(** Stand-ins for the library calls of the client: requests are
    marshalled to their URLs, every URL is well formed, markup always
    parses, and the decoder knows three response bodies. *)
Definition sampleDecode (body : string) : result OxyLabs.OxyLabsResponse :=
  if eqb_string body "{}" then Ok {| OxyLabs.Results := [] |}
  else if eqb_string body "page" then
    Ok {| OxyLabs.Results :=
            [ {| OxyLabs.Content := "<html></html>"; OxyLabs.StatusCode := 200;
                 OxyLabs.ResultURL := ""; OxyLabs.ResultHeaders := [];
                 OxyLabs.TaskID := "" |} ] |}
  else if eqb_string body "gone" then
    Ok {| OxyLabs.Results :=
            [ {| OxyLabs.Content := ""; OxyLabs.StatusCode := 404;
                 OxyLabs.ResultURL := ""; OxyLabs.ResultHeaders := [];
                 OxyLabs.TaskID := "" |} ] |}
  else Err "invalid character '<' looking for beginning of value".

Definition scraperLibrary : OxyLabs.Library :=
  {| OxyLabs.Document := string;
     OxyLabs.json_Marshal := fun m =>
       Ok (match m with
           | OxyLabs.OneRequest r => OxyLabs.URL r
           | OxyLabs.ManyRequests rs => Join (map OxyLabs.URL rs) ","
           end);
     OxyLabs.url_Parse := fun _ => None;
     OxyLabs.json_Unmarshal := sampleDecode;
     OxyLabs.NewDocumentFromReader := fun content => Ok content |}.

Definition sampleClient : OxyLabs.OxyLabsClient :=
  {| OxyLabs.username := "user";
     OxyLabs.password := "secret";
     OxyLabs.endpoint := "https://realtime.oxylabs.io/v1/queries" |}.

Definition sampleClock (n : nat) : Time := sampleNoon + Z.of_nat n * Second.

(** The batch request is answered by a body that does not decode; then
    the first single fetch gets its page, the second times out and the
    third finds the target page gone. *)
Definition fallbackEnv : Net.Env :=
  {| Net.remote := fun n _ =>
       match n with
       | 0%nat => Net.Body 200 "<html>Bad Gateway</html>"
       | 1%nat => Net.Body 200 "page"
       | 2%nat => Net.DoError "context deadline exceeded"
       | _ => Net.Body 200 "gone"
       end;
     Net.clock := sampleClock |}.

(** Every request is answered by status 500 and an empty envelope. *)
Definition emptyEnvelopeEnv : Net.Env :=
  {| Net.remote := fun _ _ => Net.Body 500 "{}";
     Net.clock := sampleClock |}.

(** Every request is answered by status 200 and one good page. *)
Definition goodEnv : Net.Env :=
  {| Net.remote := fun _ _ => Net.Body 200 "page";
     Net.clock := sampleClock |}.

Definition sampleURLs : list string :=
  [Scraper.overviewURL "ABCD"; Scraper.financialsURL "ABCD";
   Scraper.disclosureURL "ABCD"].

(** Stand-ins for the three page parsers. *)
Definition sampleParser : @Scraper.Parser scraperLibrary :=
  {| Scraper.ParseOverviewPage := fun doc : @OxyLabs.Document scraperLibrary =>
       {[ "overview" := VString (doc : string) ]};
     Scraper.ParseFinancialsPage := fun doc : @OxyLabs.Document scraperLibrary =>
       {[ "financials" := VString (doc : string) ]};
     Scraper.ParseDisclosurePage := fun doc : @OxyLabs.Document scraperLibrary =>
       {[ "disclosure" := VString (doc : string) ]} |}.

Definition sampleScraper : Scraper.t :=
  {| Scraper.client := sampleClient;
     Scraper.maxConcurrency := 5;
     Scraper.healthMonitor := HealthMonitor.NewHealthMonitor |}.

(** Start, stop, start again. *)
Definition restart : list Pipeline.Call :=
  [Pipeline.CallStart Pipeline.DefaultPipelineConfig;
   Pipeline.CallStop;
   Pipeline.CallStart Pipeline.DefaultPipelineConfig].

End Samples.

Module FetchSpec.
Import Go Net OxyLabs.

(** "Acquires a rate-limiter permit before issuing its request": in a
    trace, every request comes after a permit. *)
Definition permitBeforeRequest (tr : list Event) : Prop :=
  forall i req, tr !! i = Some (EvRequest req) ->
    exists j, (j < i)%nat /\ tr !! j = Some EvPermit.

Section FetchSpec.
Context `{Library}.
Variable env : Env.

(** "Calling the single fetch on each URL individually": one [Get] per
    URL, one after the other, each paired with its URL. *)
Fixpoint singleFetches (c : OxyLabsClient) (urls : list string) (w : World)
    : list (string * result Document) * World :=
  match urls with
  | [] => ([], w)
  | url :: rest =>
      let '(r, w) := Get env c url w in
      let '(rs, w) := singleFetches c rest w in
      ((url, r) :: rs, w)
  end.

Definition successes (outcomes : list (string * result Document))
    : list (string * Document) :=
  omap (fun '(url, r) => match r with Ok doc => Some (url, doc) | Err _ => None end)
       outcomes.

Definition failures (outcomes : list (string * result Document))
    : list (string * error) :=
  omap (fun '(url, r) => match r with Ok _ => None | Err err => Some (url, err) end)
       outcomes.

(** "The per-URL success/error split" of a list of outcomes: the
    documents by URL and the errors by URL; a URL that occurs more than
    once keeps its last document and its last error. *)
Definition splitOf (outcomes : list (string * result Document)) : Split :=
  {| docs := list_to_map (reverse (successes outcomes));
     errors := list_to_map (reverse (failures outcomes)) |}.

(** Filing one outcome into the two maps. *)
Definition place (s : Split) (o : string * result Document) : Split :=
  match snd o with
  | Err err => setError (fst o) err s
  | Ok doc => setDoc (fst o) doc s
  end.

(** "The batch fetch fails at the batch level": marshalling of the
    request body, construction of the HTTP request, the transport call,
    reading of the response body, or decoding of the envelope fails.
    The last argument is the world that the failed attempt leaves. *)
Inductive BatchLevelFailure (c : OxyLabsClient) (urls : list string) (w : World)
    : World -> Prop :=
| MarshalFails err :
    json_Marshal (ManyRequests (map oxyRequest urls)) = Err err ->
    BatchLevelFailure c urls w w
| ConstructionFails body err :
    json_Marshal (ManyRequests (map oxyRequest urls)) = Ok body ->
    newPost c body = Err err ->
    BatchLevelFailure c urls w w
| TransportFails body req err :
    json_Marshal (ManyRequests (map oxyRequest urls)) = Ok body ->
    newPost c body = Ok req ->
    remote env (httpCalls w) req = DoError err ->
    BatchLevelFailure c urls w (snd (Do env req w))
| ReadFails body req status err :
    json_Marshal (ManyRequests (map oxyRequest urls)) = Ok body ->
    newPost c body = Ok req ->
    remote env (httpCalls w) req = ReadError status err ->
    BatchLevelFailure c urls w (snd (Do env req w))
| DecodeFails body req status respBody err :
    json_Marshal (ManyRequests (map oxyRequest urls)) = Ok body ->
    newPost c body = Ok req ->
    remote env (httpCalls w) req = Body status respBody ->
    json_Unmarshal respBody = Err err ->
    BatchLevelFailure c urls w (snd (Do env req w)).

(** A URL "appears in neither the returned document map nor the returned
    error map". *)
Definition unaccounted (s : Split) (url : string) : Prop :=
  docs s !! url = None /\ errors s !! url = None.

End FetchSpec.
End FetchSpec.

Module ScrapeSpec.
Import Go Net OxyLabs Scraper.

(** The three pages of a ticker, with the label that prefixes their
    error strings. *)
Definition pages (ticker : string) : list (string * string) :=
  [("overview", overviewURL ticker);
   ("financials", financialsURL ticker);
   ("disclosure", disclosureURL ticker)].

Section ScrapeSpec.
Context `{Library}.

(** A page is failed when the fetch returned an error and no document
    for its URL. *)
Definition failedPage (fetched : Split) (label url : string)
    : list (string * string * error) :=
  match docs fetched !! url, errors fetched !! url with
  | None, Some err => [(label, url, err)]
  | _, _ => []
  end.

(** "Failed pages": the pages for which the fetch returned an error and
    no document, in page order, with their error. *)
Definition failedPages (fetched : Split) (ticker : string)
    : list (string * string * error) :=
  omap (fun '(label, url) =>
          match docs fetched !! url, errors fetched !! url with
          | None, Some err => Some (label, url, err)
          | _, _ => None
          end)
       (pages ticker).


(** The error string recorded for a failed page. *)
Definition errorString (page : string * string * error) : string :=
  let '(label, _, err) := page in label +:+ ": " +:+ err.

(** A call on the monitor is the one per-page failure of a failed page. *)
Definition failureOf (ticker : string) (c : HealthMonitor.Call)
    (page : string * string * error) : Prop :=
  exists now1 now2,
    c = HealthMonitor.CallRecordFailure now1 now2 ticker (errorString page)
          (snd (fst page)).

End ScrapeSpec.
End ScrapeSpec.

Module PipelineSpec.
Import Go Pipeline.

(** The states of the specification: Running is [isRunning = true]. *)
Definition Running (p : ScoringPipeline) : Prop := isRunning p = true.
Definition Stopped (p : ScoringPipeline) : Prop := isRunning p = false.

(** "A Conflict error": the call returns a non-nil error. *)
Definition Conflict (o : Outcome) : Prop := exists msg, o = Returned (Some msg).

(** "Executes at most its one immediate cycle and then exits at its first
    check of the stop signal; no periodic cycle ever runs again". *)
Definition exitsAtFirstCheck (run : LoopRun) : Prop :=
  (immediateCycles run <= 1)%nat /\ periodicCycles run = 0%nat.

(** The selects, from the first one on, at which a tick is waiting and
    the runtime takes it. *)
Fixpoint ticksTaken (ticks : list (bool * bool)) : nat :=
  match ticks with
  | (true, true) :: rest => S (ticksTaken rest)
  | _ => 0%nat
  end.

End PipelineSpec.

(** ** The map iteration of the pattern analysis *)

Module HealthRange.
Import Go HealthMonitor.

(** The body of the [range errorCounts] loop of [analyzeFailurePatterns]
    for one key. *)
Definition patternStep (errorCounts : gmap string Z) (totalRecent : Z)
    : list string * list string -> string -> list string * list string :=
  fun '(issues, actions) errorType =>
  match errorCounts !! errorType with
  | Some count =>
      if (f0_5 <? float64_of_int count / float64_of_int totalRecent)%float
      then match patternAdvice errorType with
           | Some (issue, action) => (issues ++ [issue], actions ++ [action])
           | None => (issues, actions)
           end
      else (issues, actions)
  | None => (issues, actions)
  end.

(** [analyzeFailurePatterns] when Go's runtime visits the keys of
    [errorCounts] in the order [order]. *)
Definition analyzeFailurePatternsIn (order : list string) (h : t)
    (issues actions : list string) : list string * list string :=
  if Z.of_nat (length (recentFailures h)) <? 3 then (issues, actions)
  else
    let errorCounts := countErrors (recentFailures h) in
    let totalRecent := Z.of_nat (length (recentFailures h)) in
    foldl (patternStep errorCounts totalRecent) (issues, actions) order.

(** The keys of [errorCounts], in some order. *)
Definition keyOrder (h : t) (order : list string) : Prop :=
  order ≡ₚ (map_to_list (countErrors (recentFailures h))).*1.

(** How many records of the ring fall in a category. *)
Definition categoryCount (errorType : string) (ring : list FailureRecord) : Z :=
  Z.of_nat (length (filter (fun f => categorizeError (Error f) = errorType) ring)).

(** Whether the loop body appends for a key. *)
Definition fires (errorCounts : gmap string Z) (totalRecent : Z)
    (errorType : string) : bool :=
  match errorCounts !! errorType with
  | Some count =>
      (f0_5 <? float64_of_int count / float64_of_int totalRecent)%float
      && bool_decide (is_Some (patternAdvice errorType))
  | None => false
  end.

End HealthRange.

(** ** Fields, operators and rule entries of the scoring engine *)

Module EngineFields.
Import Go Engine.

(** The field names that the first switch of [evaluateCondition]
    answers by computation. *)
Definition computedFields : list string :=
  ["delinquent_10k"; "delinquent_10q"; "no_recent_activity";
   "pink_limited_or_expert"; "reverse_merger_shell"; "asian_management";
   "cannabis_or_crypto"; "holding_company_or_spac"; "active_transfer_agent";
   "domain_linked_to_company"; "auditor_identified"; "no_verified_profile"]%string.

(** The operator names of its second switch. *)
Definition operators : list string :=
  ["equals"; "not_equals"; "contains"; "greater_than"; "less_than";
   "greater_than_or_equal"; "less_than_or_equal"; "is_true"; "is_false";
   "in"; "not_in"; "regex"]%string.

Definition comparisonOperators : list string :=
  ["greater_than"; "less_than"; "greater_than_or_equal";
   "less_than_or_equal"]%string.

(** The values that [toFloat64] converts. *)
Definition numeric (v : Value) : bool :=
  match v with
  | VFloat64 _ | VFloat32 _ | VInt _ | VInt64 _ | VInt32 _ => true
  | _ => false
  end.

Definition sumZ (l : list Z) : Z := foldr Z.add 0 l.

Section Rules.
Context `{Library}.

(** Whether a rule triggers, and the breakdown entry that records it. *)
Definition triggers (now : Time) (data : gmap string Value) (rule : ScoringRule)
    : bool :=
  fst (evaluateCondition now data (RuleField rule) (RuleOperator rule)
         (RuleValue rule)).

Definition ruleEntry (now : Time) (data : gmap string Value) (rule : ScoringRule)
    : ScoreDetail :=
  let '(triggered, value) :=
    evaluateCondition now data (RuleField rule) (RuleOperator rule)
      (RuleValue rule) in
  {| Points := if triggered then Weight rule else 0;
     Triggered := triggered;
     DetailDescription := RuleDescription rule;
     DetailValue := Sprint value |}.

(** The points that a rule contributes. *)
Definition pointsOf (now : Time) (data : gmap string Value) (rule : ScoringRule)
    : Z :=
  if triggers now data rule then Weight rule else 0.

(** The last rule of a list that bears on a given field. *)
Definition lastRuleOn (field : string) (rules : list ScoringRule)
    : option ScoringRule :=
  last (filter (fun rule => RuleField rule = field) rules).

(** The gate of [ScoreCompany] passes: every requirement holds and no
    exclusion does. *)
Definition gatePasses (now : Time) (data : gmap string Value) (model : ICPModel)
    : bool :=
  forallb (EngineSpec.holds now data) (Requirements model)
  && forallb (fun ex => negb (EngineSpec.holds now data ex)) (Exclusions model).

(** Weights and rule counts small enough for no sum of weights to leave
    the int64 range. *)
Definition boundedWeights (model : ICPModel) : Prop :=
  Forall (fun rule => - 2 ^ 31 <= Weight rule <= 2 ^ 31) (Rules model)
  /\ Z.of_nat (length (Rules model)) <= 2 ^ 31.

End Rules.
End EngineFields.

Module RuleSamples.
Import Go.

(** One requirement, which [Samples.pinkSnapshot] meets, and two rules. *)
Definition pinkModel : Engine.ICPModel :=
  {| Engine.ID := "pink";
     Engine.Name := "Pink";
     Engine.ModelDescription := "";
     Engine.Version := 1;
     Engine.Requirements :=
       [ {| Engine.Field := "market_tier"; Engine.Operator := "contains";
            Engine.Expected := VString "Pink";
            Engine.Description := "Must be a Pink tier" |} ];
     Engine.Exclusions := [];
     Engine.Rules :=
       [ {| Engine.RuleField := "delinquent_10k"; Engine.RuleOperator := "";
            Engine.RuleValue := VNil; Engine.Weight := 5;
            Engine.RuleDescription := "Delinquent 10-K filing (>15 months)" |};
         {| Engine.RuleField := "market_tier"; Engine.RuleOperator := "equals";
            Engine.RuleValue := VString "Expert Market"; Engine.Weight := 3;
            Engine.RuleDescription := "Expert Market tier" |} ];
     Engine.MinScore := 3;
     Engine.IsActive := true;
     Engine.CreatedAt := zeroTime;
     Engine.UpdatedAt := zeroTime |}.

End RuleSamples.

(** ** The default models of the engine *)

Module DefaultModels.
Import Go Engine.

(** A rule of [GetDefaultICPModels]: field, weight and description; the
    operator and the value are not set. *)
Definition rule (field : string) (weight : Z) (description : string)
    : ScoringRule :=
  {| RuleField := field; RuleOperator := ""; RuleValue := VNil;
     Weight := weight; RuleDescription := description |}.

(** [GetDefaultICPModels]. *)
Definition GetDefaultICPModels : list ICPModel :=
  [ {| ID := "double-black-diamond";
       Name := "Double Black Diamond";
       ModelDescription :=
         "Companies in Expert Market needing services to regain eligibility";
       Version := 1;
       Requirements :=
         [ {| Field := "market_tier"; Operator := "equals";
              Expected := VString "Expert Market";
              Description := "Must be in Expert Market tier" |};
           {| Field := "quote_status"; Operator := "contains";
              Expected := VString "Ineligible";
              Description := "Must be ineligible for solicited quotes" |} ];
       Exclusions := [];
       Rules :=
         [ rule "delinquent_10k" 1 "Delinquent 10-K filing (>15 months)";
           rule "delinquent_10q" 1 "Delinquent 10-Q filing (>6 months)";
           rule "no_verified_profile" 1 "Profile not verified";
           rule "pink_limited_or_expert" 1 "In risky market tier";
           rule "no_recent_activity" 1 "No recent activity (>12 months)";
           rule "reverse_merger_shell" 1 "Reverse merger or shell company indicators";
           rule "asian_management" 1 "Asian management team";
           rule "cannabis_or_crypto" 1 "Cannabis or crypto business";
           rule "holding_company_or_spac" 1 "Holding company or SPAC";
           rule "active_transfer_agent" (-1) "Has active transfer agent";
           rule "domain_linked_to_company" (-1) "Website matches company name";
           rule "auditor_identified" (-1) "Has identified auditor" ];
       MinScore := 3;
       IsActive := true;
       CreatedAt := zeroTime;
       UpdatedAt := zeroTime |};
    {| ID := "pink-market-opportunity";
       Name := "Pink Market Opportunity";
       ModelDescription :=
         "Active Pink sheet companies with potential compliance gaps";
       Version := 1;
       Requirements :=
         [ {| Field := "market_tier"; Operator := "equals";
              Expected := VString "OTC Pink";
              Description := "Must be in OTC Pink tier" |};
           {| Field := "trading_volume"; Operator := "greater_than";
              Expected := VInt 0;
              Description := "Must have trading volume" |} ];
       Exclusions :=
         [ {| Field := "last_filing_date"; Operator := "less_than";
              Expected := VString "2023-01-01";
              Description := "Must not have filings older than 2023" |} ];
       Rules :=
         [ rule "delinquent_10k" 1 "Delinquent 10-K filing (>15 months)";
           rule "delinquent_10q" 1 "Delinquent 10-Q filing (>6 months)";
           rule "no_verified_profile" 1 "Profile not verified";
           rule "no_recent_activity" 1 "No recent activity (>12 months)";
           rule "reverse_merger_shell" 1 "Reverse merger or shell company indicators";
           rule "asian_management" 1 "Asian management team";
           rule "cannabis_or_crypto" 1 "Cannabis or crypto business";
           rule "holding_company_or_spac" 1 "Holding company or SPAC";
           rule "active_transfer_agent" (-1) "Has active transfer agent";
           rule "domain_linked_to_company" (-1) "Website matches company name";
           rule "auditor_identified" (-1) "Has identified auditor" ];
       MinScore := 3;
       IsActive := true;
       CreatedAt := zeroTime;
       UpdatedAt := zeroTime |} ].

End DefaultModels.

(** ** internal/services/scoring_pipeline.go: one scoring cycle *)

Module ScoringCycle.
Import Go Pipeline.

Record CompanyForScoring := mkCompanyForScoring {
  ID : string;
  Ticker : string;
  CompanyName : string
}.

Record BatchStats := mkBatchStats {
  Processed : Z;
  Succeeded : Z;
  Failed : Z;
  ModelsApplied : Z
}.

(** [PipelineStats]; the fields [Duration], [BatchSize] and
    [ModelsApplied] carry the prefix Stats here. *)
Record PipelineStats := mkPipelineStats {
  StartTime : Time;
  EndTime : Time;
  StatsDuration : Duration;
  StatsBatchSize : Z;
  CompaniesFound : Z;
  CompaniesProcessed : Z;
  CompaniesSucceeded : Z;
  CompaniesFailed : Z;
  StatsModelsApplied : Z
}.

(** How the loop that launches one goroutine per batch ends: all
    batches are launched (each with the index of its first company), a
    slice expression panics, or the loop is still launching when the
    fuel runs out. *)
Inductive Spawn :=
| Spawned (batches : list (nat * list CompanyForScoring))
| SliceOutOfRange
| StillSpawning.

(** How a scoring cycle ends. *)
Inductive CycleEnd :=
| Finished (stats : PipelineStats) (err : option error)
| Panics (msg : string)
| Blocked
| Unfinished.

(** [for i := 0; i < len(companies); i += config.BatchSize]: [end] is
    clamped from above only, and [companies[i:end]] panics unless
    0 <= i <= end. *)
Fixpoint spawnBatches (fuel : nat) (batchSize : Z)
    (companies : list CompanyForScoring) (i : Z) : Spawn :=
  if i <? Z.of_nat (length companies) then
    match fuel with
    | O => StillSpawning
    | S fuel =>
        let end_ := wrap64 (i + batchSize) in
        let end_ :=
          if Z.of_nat (length companies) <? end_
          then Z.of_nat (length companies) else end_ in
        if (0 <=? i) && (i <=? end_) then
          let batch := take (Z.to_nat (end_ - i)) (drop (Z.to_nat i) companies) in
          match spawnBatches fuel batchSize companies (wrap64 (i + batchSize)) with
          | Spawned batches => Spawned ((Z.to_nat i, batch) :: batches)
          | other => other
          end
        else SliceOutOfRange
    end
  else Spawned [].

Section Cycle.

(** The database query of [getCompaniesForScoring], and the outcome of
    the call [p.scoringService.ScoreCompany(company.ID)] made for the
    company at a given index of the list it returned. *)
Variable getCompaniesForScoring : PipelineConfig -> result (list CompanyForScoring).
Variable ScoreCompany : nat -> string -> option error.

(** The two readings of [time.Now()] of a cycle. *)
Variable startTime endTime : Time.

(** [processBatch], on a batch whose first company has index [n]. *)
Fixpoint processFrom (n : nat) (companies : list CompanyForScoring)
    (stats : BatchStats) : BatchStats :=
  match companies with
  | [] => stats
  | company :: rest =>
      let processed := wrap64 (Processed stats + 1) in
      let stats :=
        match ScoreCompany n (ID company) with
        | Some _ =>
            {| Processed := processed;
               Succeeded := Succeeded stats;
               Failed := wrap64 (Failed stats + 1);
               ModelsApplied := ModelsApplied stats |}
        | None =>
            {| Processed := processed;
               Succeeded := wrap64 (Succeeded stats + 1);
               Failed := Failed stats;
               ModelsApplied := wrap64 (ModelsApplied stats + 2) |}
        end in
      processFrom (S n) rest stats
  end.

Definition processBatch (n : nat) (companies : list CompanyForScoring)
    : BatchStats :=
  processFrom n companies
    {| Processed := 0; Succeeded := 0; Failed := 0; ModelsApplied := 0 |}.

(** The update of the shared statistics by one goroutine, under the
    mutex. *)
Definition addBatch (stats : PipelineStats) (batchStats : BatchStats)
    : PipelineStats :=
  {| StartTime := StartTime stats;
     EndTime := EndTime stats;
     StatsDuration := StatsDuration stats;
     StatsBatchSize := StatsBatchSize stats;
     CompaniesFound := CompaniesFound stats;
     CompaniesProcessed := wrap64 (CompaniesProcessed stats + Processed batchStats);
     CompaniesSucceeded := wrap64 (CompaniesSucceeded stats + Succeeded batchStats);
     CompaniesFailed := wrap64 (CompaniesFailed stats + Failed batchStats);
     StatsModelsApplied := wrap64 (StatsModelsApplied stats + ModelsApplied batchStats) |}.

(** [executeScoringCycle].  The goroutines add their batch statistics
    under a mutex; the sums are taken here in the order of launch.  With
    a semaphore of capacity 0 no goroutine can ever send on it, and
    [wg.Wait()] does not return. *)
Definition executeScoringCycle (fuel : nat) (config : PipelineConfig) : CycleEnd :=
  let stats :=
    {| StartTime := startTime; EndTime := zeroTime; StatsDuration := 0;
       StatsBatchSize := BatchSize config; CompaniesFound := 0;
       CompaniesProcessed := 0; CompaniesSucceeded := 0; CompaniesFailed := 0;
       StatsModelsApplied := 0 |} in
  match getCompaniesForScoring config with
  | Err err => Finished stats (Some (wrapf "failed to get companies for scoring" err))
  | Ok companies =>
      if Z.of_nat (length companies) =? 0 then
        Finished
          {| StartTime := startTime; EndTime := endTime; StatsDuration := 0;
             StatsBatchSize := BatchSize config; CompaniesFound := 0;
             CompaniesProcessed := 0; CompaniesSucceeded := 0;
             CompaniesFailed := 0; StatsModelsApplied := 0 |}
          None
      else
        let stats :=
          {| StartTime := startTime; EndTime := zeroTime; StatsDuration := 0;
             StatsBatchSize := BatchSize config;
             CompaniesFound := Z.of_nat (length companies);
             CompaniesProcessed := 0; CompaniesSucceeded := 0;
             CompaniesFailed := 0; StatsModelsApplied := 0 |} in
        if MaxConcurrent config <? 0 then Panics "makechan: size out of range"
        else
          match spawnBatches fuel (BatchSize config) companies 0 with
          | StillSpawning => Unfinished
          | SliceOutOfRange => Panics "slice bounds out of range"
          | Spawned [] =>
              Finished
                {| StartTime := startTime; EndTime := endTime;
                   StatsDuration := Sub endTime startTime;
                   StatsBatchSize := StatsBatchSize stats;
                   CompaniesFound := CompaniesFound stats;
                   CompaniesProcessed := 0; CompaniesSucceeded := 0;
                   CompaniesFailed := 0; StatsModelsApplied := 0 |}
                None
          | Spawned batches =>
              if MaxConcurrent config =? 0 then Blocked
              else
                let stats :=
                  foldl (fun stats '(n, batch) => addBatch stats (processBatch n batch))
                        stats batches in
                Finished
                  {| StartTime := startTime; EndTime := endTime;
                     StatsDuration := Sub endTime startTime;
                     StatsBatchSize := StatsBatchSize stats;
                     CompaniesFound := CompaniesFound stats;
                     CompaniesProcessed := CompaniesProcessed stats;
                     CompaniesSucceeded := CompaniesSucceeded stats;
                     CompaniesFailed := CompaniesFailed stats;
                     StatsModelsApplied := StatsModelsApplied stats |}
                  None
          end
  end.

(** [RunOnce]. *)
Definition RunOnce (fuel : nat) (config : PipelineConfig) : CycleEnd :=
  executeScoringCycle fuel config.

(** The outcomes of the scoring calls for the companies of a list whose
    first company has index [n], and how many of them are nil. *)
Fixpoint outcomesFrom (n : nat) (companies : list CompanyForScoring)
    : list (option error) :=
  match companies with
  | [] => []
  | company :: rest => ScoreCompany n (ID company) :: outcomesFrom (S n) rest
  end.

Definition successes (l : list (option error)) : Z :=
  Z.of_nat (length (filter (fun o => o = None) l)).

End Cycle.

(** A configuration whose integers fit Go's [int]. *)
Definition fitsInt (config : PipelineConfig) : Prop :=
  int64_min <= BatchSize config <= int64_max
  /\ int64_min <= MaxConcurrent config <= int64_max.

End ScoringCycle.

(** ** The pipeline handlers and the configuration of the pipeline command *)

Module PipelineHandler.
Import Go Pipeline ScoringCycle.

(** [strconv.Atoi], which lies outside the repository. *)
Class Strconv := {
  Atoi : string -> result Z
}.

(** What [Atoi] returns without error is an [int]. *)
Definition AtoiInt `{Strconv} : Prop :=
  forall s n, Atoi s = Ok n -> int64_min <= n <= int64_max.

(** [role, exists := c.Get("user_role"); !exists || role != "admin"]:
    [role] is the value stored in the request context, if any. *)
Definition notAdmin (role : option Value) : bool :=
  match role with
  | Some (VString r) => negb (eqb_string r "admin")
  | _ => true
  end.

(** The block "Validate config" of [StartPipeline]. *)
Definition validate (config : PipelineConfig) : PipelineConfig :=
  let config :=
    if BatchSize config <=? 0
    then {| BatchSize := 50; IntervalMinutes := IntervalMinutes config;
            MaxConcurrent := MaxConcurrent config;
            ProcessNewOnly := ProcessNewOnly config;
            RescoreOlderThanDays := RescoreOlderThanDays config |}
    else config in
  let config :=
    if IntervalMinutes config <=? 0
    then {| BatchSize := BatchSize config; IntervalMinutes := 60;
            MaxConcurrent := MaxConcurrent config;
            ProcessNewOnly := ProcessNewOnly config;
            RescoreOlderThanDays := RescoreOlderThanDays config |}
    else config in
  let config :=
    if MaxConcurrent config <=? 0
    then {| BatchSize := BatchSize config; IntervalMinutes := IntervalMinutes config;
            MaxConcurrent := 10;
            ProcessNewOnly := ProcessNewOnly config;
            RescoreOlderThanDays := RescoreOlderThanDays config |}
    else config in
  if RescoreOlderThanDays config <=? 0
  then {| BatchSize := BatchSize config; IntervalMinutes := IntervalMinutes config;
          MaxConcurrent := MaxConcurrent config;
          ProcessNewOnly := ProcessNewOnly config;
          RescoreOlderThanDays := 7 |}
  else config.

(** The configuration that [StartPipeline] hands to [Start]; [bound] is
    what [c.ShouldBindJSON(&config)] comes to. *)
Definition startConfig (bound : result PipelineConfig) : PipelineConfig :=
  validate (match bound with
            | Err _ => DefaultPipelineConfig
            | Ok config => config
            end).

(** What a handler answers: the status code, and the error message or
    the configuration in use. *)
Inductive Response :=
| Forbidden
| Conflict (msg : string)
| InternalServerError (msg : string)
| StatusOK (config : PipelineConfig).

(** [StartPipeline]; the pipeline is not reached by a panic here. *)
Definition StartPipeline (role : option Value) (bound : result PipelineConfig)
    (p : ScoringPipeline) : Response * ScoringPipeline :=
  if notAdmin role then (Forbidden, p)
  else
    let config := startConfig bound in
    match Start config p with
    | (Returned (Some err), p) =>
        (Conflict ("Failed to start pipeline: " +:+ err), p)
    | (_, p) => (StatusOK config, p)
    end.

Section Handlers.
Context `{Strconv}.

(** One of the three integer query parameters of [RunPipelineOnce]:
    taken when it is present, parses and is positive. *)
Definition positiveQuery (value : string) (fallback : Z) : Z :=
  if negb (eqb_string value "") then
    match Atoi value with
    | Ok parsed => if 0 <? parsed then parsed else fallback
    | Err _ => fallback
    end
  else fallback.

(** The configuration that [RunPipelineOnce] hands to [RunOnce];
    [query] is [c.Query], which answers the empty string for a missing
    parameter. *)
Definition runOnceConfig (query : string -> string) : PipelineConfig :=
  let config := DefaultPipelineConfig in
  {| BatchSize := positiveQuery (query "batch_size") (BatchSize config);
     IntervalMinutes := IntervalMinutes config;
     MaxConcurrent := positiveQuery (query "max_concurrent") (MaxConcurrent config);
     ProcessNewOnly :=
       if eqb_string (query "process_new_only") "true" then true
       else ProcessNewOnly config;
     RescoreOlderThanDays :=
       positiveQuery (query "rescore_older_than_days") (RescoreOlderThanDays config) |}.

(** One of the integer variables of [parsePipelineConfig]: taken when it
    is set and parses. *)
Definition parsedEnv (value : string) (fallback : Z) : Z :=
  if negb (eqb_string value "") then
    match Atoi value with
    | Ok parsed => parsed
    | Err _ => fallback
    end
  else fallback.

(** [parsePipelineConfig] of cmd/scoring-pipeline; [getenv] is
    [os.Getenv]. *)
Definition parsePipelineConfig (getenv : string -> string) : PipelineConfig :=
  let config := DefaultPipelineConfig in
  {| BatchSize := parsedEnv (getenv "PIPELINE_BATCH_SIZE") (BatchSize config);
     IntervalMinutes :=
       parsedEnv (getenv "PIPELINE_INTERVAL_MINUTES") (IntervalMinutes config);
     MaxConcurrent :=
       parsedEnv (getenv "PIPELINE_MAX_CONCURRENT") (MaxConcurrent config);
     ProcessNewOnly :=
       if negb (eqb_string (getenv "PIPELINE_PROCESS_NEW_ONLY") "")
       then eqb_string (getenv "PIPELINE_PROCESS_NEW_ONLY") "true"
       else ProcessNewOnly config;
     RescoreOlderThanDays :=
       parsedEnv (getenv "PIPELINE_RESCORE_OLDER_THAN_DAYS")
         (RescoreOlderThanDays config) |}.

(** How a request to [RunPipelineOnce] ends: with a response, or as the
    cycle does when it does not return. *)
Inductive Handled :=
| Responds (r : Response) (stats : option PipelineStats)
| HandlerPanics (msg : string)
| HandlerBlocked
| HandlerUnfinished.

Variable getCompaniesForScoring : PipelineConfig -> result (list CompanyForScoring).
Variable ScoreCompany : nat -> string -> option error.
Variable startTime endTime : Time.

(** [RunPipelineOnce]. *)
Definition RunPipelineOnce (role : option Value) (query : string -> string)
    (fuel : nat) : Handled :=
  if notAdmin role then Responds Forbidden None
  else
    let config := runOnceConfig query in
    match RunOnce getCompaniesForScoring ScoreCompany startTime endTime fuel config with
    | Finished stats (Some err) =>
        Responds (InternalServerError ("Failed to run scoring cycle: " +:+ err)) None
    | Finished stats None => Responds (StatusOK config) (Some stats)
    | Panics msg => HandlerPanics msg
    | Blocked => HandlerBlocked
    | Unfinished => HandlerUnfinished
    end.

End Handlers.

(** All four integers of a configuration are positive. *)
Definition positive (config : PipelineConfig) : Prop :=
  0 < BatchSize config /\ 0 < IntervalMinutes config
  /\ 0 < MaxConcurrent config /\ 0 < RescoreOlderThanDays config.

End PipelineHandler.

Module CycleSamples.
Import Go Pipeline ScoringCycle PipelineHandler.

Definition sampleCompanies : list CompanyForScoring :=
  [ {| ID := "c-1"; Ticker := "AAAA"; CompanyName := "A Corp" |};
    {| ID := "c-2"; Ticker := "BBBB"; CompanyName := "B Corp" |};
    {| ID := "c-3"; Ticker := "CCCC"; CompanyName := "C Corp" |} ].

(** The database returns the three companies; the scoring call for the
    second one fails. *)
Definition sampleQuery (config : PipelineConfig)
    : result (list CompanyForScoring) := Ok sampleCompanies.

Definition sampleScore (n : nat) (id : string) : option error :=
  if (n =? 1)%nat then Some "failed to get company data" else None.

(** Batches of two, one at a time. *)
Definition smallBatches : PipelineConfig :=
  {| BatchSize := 2; IntervalMinutes := 60; MaxConcurrent := 1;
     ProcessNewOnly := false; RescoreOlderThanDays := 7 |}.

(** A batch size of 0, as PIPELINE_BATCH_SIZE=0 gives. *)
Definition zeroBatch : PipelineConfig :=
  {| BatchSize := 0; IntervalMinutes := 60; MaxConcurrent := 10;
     ProcessNewOnly := false; RescoreOlderThanDays := 7 |}.

(** A stand-in for [strconv.Atoi] that knows two strings. *)
Definition sampleAtoi (s : string) : result Z :=
  if eqb_string s "0" then Ok 0
  else if eqb_string s "25" then Ok 25
  else Err "strconv.Atoi: invalid syntax".

Definition sampleStrconv : Strconv := {| Atoi := sampleAtoi |}.

Definition sampleEnv (name : string) : string :=
  if eqb_string name "PIPELINE_BATCH_SIZE" then "0" else "".

Definition adminRole : option Value := Some (VString "admin").

(** A request body with an interval of 153722868 minutes. *)
Definition longInterval : PipelineConfig :=
  {| BatchSize := 50; IntervalMinutes := 153722868; MaxConcurrent := 10;
     ProcessNewOnly := false; RescoreOlderThanDays := 7 |}.

End CycleSamples.

(** ** internal/models and the scoring service *)

Module Models.
Import Go.

Record Officer := mkOfficer {
  Name : string;
  Title : string;
  Location : string
}.

Record Address := mkAddress {
  Street : string;
  City : string;
  State : string;
  Country : string;
  PostCode : string
}.

(** [models.Company]; the field [Address] is [CompanyAddress] here, and
    [ID] is the text of the UUID, empty for the zero UUID. *)
Record Company := mkCompany {
  ID : string;
  Ticker : string;
  CompanyName : string;
  MarketTier : string;
  QuoteStatus : string;
  TradingVolume : Z;
  Website : string;
  Description : string;
  Officers : list Officer;
  CompanyAddress : Address;
  TransferAgent : string;
  Auditor : string;
  Last10KDate : option Time;
  Last10QDate : option Time;
  LastFilingDate : option Time;
  ProfileVerified : bool;
  CreatedAt : Time;
  UpdatedAt : Time
}.

(** How [%v] prints an [Officers] value and an [Address]: the fields of
    a struct between braces, the elements of a slice between brackets,
    separated by spaces. *)
Definition printOfficer (o : Officer) : string :=
  "{" +:+ Name o +:+ " " +:+ Title o +:+ " " +:+ Location o +:+ "}".

Definition printOfficers (officers : list Officer) : string :=
  "[" +:+ Join (map printOfficer officers) " " +:+ "]".

Definition printAddress (a : Address) : string :=
  "{" +:+ Street a +:+ " " +:+ City a +:+ " " +:+ State a +:+ " "
  +:+ Country a +:+ " " +:+ PostCode a +:+ "}".

End Models.

Module ScoringService.
Import Go Models.

(** The map that [getCompanyData] builds from a company: twelve keys
    always, and a date key for each date that is set. *)
Definition companyData (company : Company) : gmap string Value :=
  let data : gmap string Value :=
    <["ticker" := VString (Ticker company)]>
    (<["company_name" := VString (CompanyName company)]>
    (<["market_tier" := VString (MarketTier company)]>
    (<["quote_status" := VString (QuoteStatus company)]>
    (<["trading_volume" := VInt64 (TradingVolume company)]>
    (<["website" := VString (Website company)]>
    (<["description" := VString (Description company)]>
    (<["officers" := VOther (printOfficers (Officers company))]>
    (<["address" := VOther (printAddress (CompanyAddress company))]>
    (<["transfer_agent" := VString (TransferAgent company)]>
    (<["auditor" := VString (Auditor company)]>
    (<["profile_verified" := VBool (ProfileVerified company)]> ∅))))))))))) in
  let data :=
    match Last10KDate company with
    | Some t => <["last_10k_date" := VTime t]> data
    | None => data
    end in
  let data :=
    match Last10QDate company with
    | Some t => <["last_10q_date" := VTime t]> data
    | None => data
    end in
  match LastFilingDate company with
  | Some t => <["last_filing_date" := VTime t]> data
  | None => data
  end.


Section Service.
Context `{Engine.Library}.

(** What lies outside: the two repositories and [uuid.Parse]; the
    storing of one result ([StoreScoreResult] applied to
    [convertScoreResult], a round trip through JSON and an insert); and
    the readings of the clock for the i-th model: [time.Now()] for
    [ScoredAt], and the clock of the date rules. *)
Variable GetActiveModels : result (list Engine.ICPModel).
Variable uuid_Parse : string -> result string.
Variable GetByID : string -> result Company.
Variable StoreScoreResult : string -> Engine.ScoreResult -> option error.
Variable readings : nat -> Time * Time.

(** [getCompanyData]. *)
Definition getCompanyData (companyID : string) : result (gmap string Value) :=
  match uuid_Parse companyID with
  | Err err => Err (wrapf "invalid company ID" err)
  | Ok companyUUID =>
      match GetByID companyUUID with
      | Err err => Err (wrapf "failed to get company" err)
      | Ok company => Ok (companyData company)
      end
  end.

(** [result.CompanyID = companyID]. *)
Definition setCompanyID (companyID : string) (r : Engine.ScoreResult)
    : Engine.ScoreResult :=
  {| Engine.CompanyID := companyID;
     Engine.ScoringModelID := Engine.ScoringModelID r;
     Engine.Score := Engine.Score r;
     Engine.Qualified := Engine.Qualified r;
     Engine.RequirementsMet := Engine.RequirementsMet r;
     Engine.Breakdown := Engine.Breakdown r;
     Engine.ScoredAt := Engine.ScoredAt r |}.

(** The loop of [ScoreCompany] over the models, from the i-th on: the
    results handed to [StoreScoreResult], and the errors it returned,
    which are logged. *)
Fixpoint scoreModels (i : nat) (companyID : string)
    (companyData : gmap string Value) (models : list Engine.ICPModel)
    : list Engine.ScoreResult * list error :=
  match models with
  | [] => ([], [])
  | model :: rest =>
      let '(scoredAt, now) := readings i in
      let result :=
        setCompanyID companyID (Engine.ScoreCompany scoredAt now companyData model) in
      let '(stored, logged) := scoreModels (S i) companyID companyData rest in
      match StoreScoreResult companyID result with
      | Some err => (result :: stored, err :: logged)
      | None => (result :: stored, logged)
      end
  end.

(** [ScoreCompany]: its error, the results handed to the store, and the
    store errors logged. *)
Definition ScoreCompany (companyID : string)
    : option error * list Engine.ScoreResult * list error :=
  match GetActiveModels with
  | Err err => (Some (wrapf "failed to get active models" err), [], [])
  | Ok models =>
      match getCompanyData companyID with
      | Err err => (Some (wrapf "failed to get company data" err), [], [])
      | Ok companyData =>
          let '(stored, logged) := scoreModels 0 companyID companyData models in
          (None, stored, logged)
      end
  end.

End Service.
End ScoringService.

Module ServiceSamples.
Import Go Models.

Definition sampleCompany : Company :=
  {| ID := "c-1"; Ticker := "ABCD"; CompanyName := "Abcd Holdings";
     MarketTier := "OTC Pink"; QuoteStatus := "Eligible"; TradingVolume := 1200;
     Website := "https://abcd.example"; Description := "A shell company";
     Officers := [ {| Name := "Ann Lee"; Title := "CEO"; Location := "Reno" |} ];
     CompanyAddress := {| Street := "1 Main St"; City := "Reno"; State := "NV";
                          Country := "US"; PostCode := "89501" |};
     TransferAgent := "Computershare"; Auditor := "";
     Last10KDate := Some (Date 2025 4 30); Last10QDate := None;
     LastFilingDate := Some (Date 2026 7 30);
     ProfileVerified := true; CreatedAt := zeroTime; UpdatedAt := zeroTime |}.

End ServiceSamples.

(** ** The scoring cycle over the scoring service *)

Module CycleService.
Import Go Pipeline ScoringCycle.

Section CycleService.
Context `{Engine.Library}.

(** The outside of the service at the n-th scoring call of a cycle. *)
Variable GetActiveModels : nat -> result (list Engine.ICPModel).
Variable uuid_Parse : string -> result string.
Variable GetByID : nat -> string -> result Models.Company.
Variable StoreScoreResult : nat -> string -> Engine.ScoreResult -> option error.
Variable readings : nat -> nat -> Time * Time.

(** The n-th call [p.scoringService.ScoreCompany(company.ID)]. *)
Definition serviceCall (n : nat) (companyID : string)
    : option error * list Engine.ScoreResult * list error :=
  ScoringService.ScoreCompany (GetActiveModels n) uuid_Parse (GetByID n)
    (StoreScoreResult n) (readings n) companyID.

Definition ScoreCompany (n : nat) (companyID : string) : option error :=
  (serviceCall n companyID).1.1.

(** The results that the n-th call hands to the store. *)
Definition handedToStore (n : nat) (companyID : string)
    : list Engine.ScoreResult :=
  (serviceCall n companyID).1.2.

End CycleService.
End CycleService.

(** ** The health checks of the client and of the scraper *)

Module OxyLabsHealth.
Import Go Net OxyLabs.

Section Health.
Context `{Library}.
Variable env : Env.

(** [OxyLabsClient.Health]. *)
Definition Health (c : OxyLabsClient) (w : World) : option error * World :=
  let testURL := "https://httpbin.org/status/200"%string in
  let '(r, w) := Get env c testURL w in
  match r with
  | Err err => (Some (wrapf "OxyLabs health check failed" err), w)
  | Ok _ => (None, w)
  end.

End Health.
End OxyLabsHealth.

Module ScraperHealth.
Import Go Net OxyLabs Scraper.

Section Health.
Context `{Library}.
Variable env : Env.

(** [s.healthMonitor.GetHealthStatus()], which reads the clock when a
    last success is stamped. *)
Definition getHealthStatus (h : HealthMonitor.t) (w : World)
    : HealthMonitor.HealthStatus * World :=
  if IsZero (HealthMonitor.lastSuccessTime h)
  then (HealthMonitor.GetHealthStatus zeroTime h, w)
  else let '(now, w) := Now env w in (HealthMonitor.GetHealthStatus now h, w).

Definition setMonitor (h : HealthMonitor.t) (s : Scraper.t) : Scraper.t :=
  {| client := client s; maxConcurrency := maxConcurrency s; healthMonitor := h |}.

(** [Scraper.Health]; [%v] prints the issues between brackets,
    separated by spaces. *)
Definition Health (s : Scraper.t) (w : World)
    : option error * Scraper.t * World :=
  let '(err, w) := OxyLabsHealth.Health env (client s) w in
  match err with
  | Some err =>
      let '(h, w) := recordFailure env "health_check" err "" (healthMonitor s) w in
      (Some (wrapf "OxyLabs client health check failed" err), setMonitor h s, w)
  | None =>
      let '(status, w) := getHealthStatus (healthMonitor s) w in
      if negb (HealthMonitor.IsHealthy status) then
        (Some ("scraper health check failed: "
               +:+ "[" +:+ Join (HealthMonitor.HealthIssues status) " " +:+ "]"),
         s, w)
      else
        let '(h, w) := recordSuccess env "health_check" (healthMonitor s) w in
        (None, setMonitor h s, w)
  end.

(** [n] health checks in a row: their errors, the scraper and the world
    after them. *)
Fixpoint probes (n : nat) (s : Scraper.t) (w : World)
    : list (option error) * Scraper.t * World :=
  match n with
  | O => ([], s, w)
  | S n =>
      let '(err, s, w) := Health s w in
      let '(errs, s, w) := probes n s w in
      (err :: errs, s, w)
  end.

End Health.
End ScraperHealth.

Module ProbeSamples.

(** A scraper whose monitor has seen six failures in a row. *)
Definition lockedScraper : Scraper.t :=
  {| Scraper.client := Samples.sampleClient;
     Scraper.maxConcurrency := 5;
     Scraper.healthMonitor := HealthMonitor.run Samples.sixFailures |}.

End ProbeSamples.

(** ** internal/scraper/scraper.go: the batched scrape *)

Module ScraperBatch.
Import Go Net OxyLabs Scraper.

(** What the [select] around a send on [resultsChan] comes to: the
    result is received, the context is done first (when both can
    proceed the runtime picks one), or neither ever happens. *)
Inductive SendObs :=
| Sent
| CtxDone (ctxErr : error)
| NeverReceived.

(** The observations of a run: the k-th send, and the k-th check of
    [ctx.Done()] after a batch. *)
Record Schedule := mkSchedule {
  sendObs : nat -> SendObs;
  doneObs : nat -> option error
}.

(** The results sent so far and the observations used so far. *)
Record Out := mkOut {
  sent : list ScrapedData;
  sends : nat;
  checks : nat
}.

(** How a call ends: it returns (its error, nil or not), or it stays
    blocked in a send. *)
Inductive End :=
| Returned (err : option error)
| Stuck.

Section Batch.
Context `{Parser}.
Variable env : Env.
Variable sched : Schedule.

(** One of the three blocks "Process ..." of [processBatch]: as in
    [ScrapeTicker], without the monitor. *)
Definition storePage (label url : string)
    (parse : Document -> gmap string Value)
    (store : gmap string Value -> ScrapedData -> ScrapedData)
    (fetched : Split) (scraped : ScrapedData) : ScrapedData :=
  match docs fetched !! url with
  | Some doc => store (parse doc) scraped
  | None =>
      match errors fetched !! url with
      | Some err => addError (label +:+ ": " +:+ err) scraped
      | None => scraped
      end
  end.

(** The result built for one ticker from the two maps. *)
Definition resultFor (fetched : Split) (ticker : string) (scrapedAt : Time)
    : ScrapedData :=
  let scraped :=
    {| Ticker := ticker; Overview := ∅; Financials := ∅; Disclosure := ∅;
       ScrapedAt := scrapedAt; Errors := [] |} in
  let scraped := storePage "overview" (overviewURL ticker)
                   ParseOverviewPage setOverview fetched scraped in
  let scraped := storePage "financials" (financialsURL ticker)
                   ParseFinancialsPage setFinancials fetched scraped in
  storePage "disclosure" (disclosureURL ticker)
    ParseDisclosurePage setDisclosure fetched scraped.

(** The second loop of [processBatch], over the tickers. *)
Fixpoint sendResults (fetched : Split) (tickers : list string)
    (out : Out) (w : World) : End * Out * World :=
  match tickers with
  | [] => (Returned None, out, w)
  | ticker :: rest =>
      let '(scrapedAt, w) := Now env w in
      let scraped := resultFor fetched ticker scrapedAt in
      let out' := {| sent := sent out; sends := S (sends out); checks := checks out |} in
      match sendObs sched (sends out) with
      | Sent =>
          sendResults fetched rest
            {| sent := sent out ++ [scraped]; sends := S (sends out);
               checks := checks out |} w
      | CtxDone ctxErr => (Returned (Some ctxErr), out', w)
      | NeverReceived => (Stuck, out', w)
      end
  end.

(** [processBatch]: the URLs of all tickers go into one [GetBatch]. *)
Definition processBatch (s : Scraper.t) (tickers : list string)
    (out : Out) (w : World) : End * Out * World :=
  let allURLs :=
    flat_map (fun ticker =>
                [overviewURL ticker; financialsURL ticker; disclosureURL ticker])
             tickers in
  let '(fetched, w) := GetBatch env (client s) allURLs w in
  sendResults fetched tickers out w.

(** The loop of [ScrapeTickersOptimized] over the batches; an error of
    [processBatch] is logged and the loop goes on to the check of the
    context. *)
Fixpoint batchLoop (s : Scraper.t) (batches : list (list string))
    (out : Out) (w : World) : End * Out * World :=
  match batches with
  | [] => (Returned None, out, w)
  | batch :: rest =>
      match processBatch s batch out w with
      | (Stuck, out, w) => (Stuck, out, w)
      | (Returned _, out, w) =>
          let out' := {| sent := sent out; sends := sends out;
                         checks := S (checks out) |} in
          match doneObs sched (checks out) with
          | Some ctxErr => (Returned (Some ctxErr), out', w)
          | None => batchLoop s rest out' w
          end
      end
  end.

(** [tickers[i:end]] for i = 0, 10, 20, ... *)
Fixpoint batchesOf (fuel : nat) (tickers : list string) : list (list string) :=
  match fuel, tickers with
  | _, [] => []
  | O, _ => []
  | S fuel, _ => take 10 tickers :: batchesOf fuel (drop 10 tickers)
  end.

(** [ScrapeTickersOptimized]: with its end, the results sent, whether
    [resultsChan] has been closed (the deferred [close] runs when the
    function returns), and the world. *)
Definition ScrapeTickersOptimized (s : Scraper.t) (tickers : list string)
    (w : World) : End * list ScrapedData * bool * World :=
  let '(e, out, w) :=
    batchLoop s (batchesOf (length tickers) tickers)
      {| sent := []; sends := 0; checks := 0 |} w in
  (e, sent out,
   match e with Returned _ => true | Stuck => false end,
   w).

End Batch.

(** The context is never done and every result is received. *)
Definition undisturbed : Schedule :=
  {| sendObs := fun _ => Sent; doneObs := fun _ => None |}.

End ScraperBatch.

(** ** internal/scraper/transformer.go *)

Module Transformer.
Import Go Models.

Section Transformer.

(** The type assertions [.([]models.Officer)] and [.(models.Address)],
    on values that the model of [interface{}] does not take apart. *)
Variable asOfficers : Value -> option (list Officer).
Variable asAddress : Value -> option Address.

(** [allData]: the three maps poured into one, overview first, then
    financials, then disclosure, each entry overwriting an earlier one
    of the same key. *)
Definition allData (scraped : Scraper.ScrapedData) : gmap string Value :=
  Scraper.Disclosure scraped ∪ (Scraper.Financials scraped ∪ Scraper.Overview scraped).

(** [allData[key].(string)] and the like; a missing key gives the nil
    interface, on which every assertion fails. *)
Definition asString (v : option Value) : option string :=
  match v with Some (VString s) => Some s | _ => None end.

Definition asInt64 (v : option Value) : option Z :=
  match v with Some (VInt64 n) => Some n | _ => None end.

Definition asBool (v : option Value) : option bool :=
  match v with Some (VBool b) => Some b | _ => None end.

Definition asTimePtr (v : option Value) : option (option Time) :=
  match v with Some (VTimePtr t) => Some t | _ => None end.

(** [TransformToCompany]; [scraped] is [None] for a nil pointer, [now]
    is the reading of [time.Now()]. *)
Definition TransformToCompany (scraped : option Scraper.ScrapedData) (now : Time)
    : result Company :=
  match scraped with
  | None => Err "scraped data is nil"
  | Some scraped =>
      let data := allData scraped in
      Ok {| ID := "";
            Ticker := Scraper.Ticker scraped;
            CompanyName := default "" (asString (data !! "company_name"));
            MarketTier := default "" (asString (data !! "market_tier"));
            QuoteStatus := default "" (asString (data !! "quote_status"));
            TradingVolume := default 0 (asInt64 (data !! "trading_volume"));
            Website := default "" (asString (data !! "website"));
            Description := default "" (asString (data !! "description"));
            Officers := default [] (data !! "officers" ≫= asOfficers);
            CompanyAddress :=
              default {| Street := ""; City := ""; State := ""; Country := "";
                         PostCode := "" |}
                      (data !! "address" ≫= asAddress);
            TransferAgent := default "" (asString (data !! "transfer_agent"));
            Auditor := default "" (asString (data !! "auditor"));
            Last10KDate := default None (asTimePtr (data !! "last_10k_date"));
            Last10QDate := default None (asTimePtr (data !! "last_10q_date"));
            LastFilingDate := default None (asTimePtr (data !! "last_filing_date"));
            ProfileVerified := default false (asBool (data !! "profile_verified"));
            CreatedAt := zeroTime;
            UpdatedAt := now |}
  end.

End Transformer.

(** [ValidateCompanyData]. *)
Definition ValidateCompanyData (company : Company) : list string :=
  let errors := [] in
  let errors :=
    if eqb_string (Ticker company) "" then errors ++ ["ticker is required"%string]
    else errors in
  let errors :=
    if eqb_string (CompanyName company) ""
    then errors ++ ["company name is missing"%string]
    else errors in
  if eqb_string (MarketTier company) ""
  then errors ++ ["market tier is missing"%string]
  else errors.

(** The value that the three pages give for a key: that of the
    disclosure page if it has the key, else that of the financials
    page, else that of the overview page. *)
Definition pageValue (scraped : Scraper.ScrapedData) (key : string)
    : option Value :=
  match Scraper.Disclosure scraped !! key with
  | Some v => Some v
  | None =>
      match Scraper.Financials scraped !! key with
      | Some v => Some v
      | None => Scraper.Overview scraped !! key
      end
  end.

End Transformer.

(** ** Counting on the health monitor *)

Module ScrapePolicy.
Import Go Net OxyLabs Scraper ScrapeSpec.

(** [n] times [z++] on an int64. *)
Definition bump (n : nat) (z : Z) : Z := Nat.iter n (fun z => wrap64 (z + 1)) z.

Section Policy.
Context `{Library}.

(** The test of [ScrapeTicker] before it records a success: no page
    failed, or the fetch returned at least one document, for whatever
    URL. *)
Definition countsAsSuccess (fetched : Split) (ticker : string) : bool :=
  bool_decide (failedPages fetched ticker = [])
  || (0 <? Z.of_nat (size (docs fetched))).

End Policy.
End ScrapePolicy.

(* ===================================================================== *)
(** * Part II.  Properties                                                *)
(* ===================================================================== *)

(** ** Go runtime *)

Section GoFacts.
Import Go.

Lemma wrap64_id (z : Z) : int64_min <= z <= int64_max -> wrap64 z = z.
Proof.
  unfold wrap64, int64_min, int64_max. intros Hz.
  rewrite Z.mod_small by lia. lia.
Qed.

Lemma wrap64_succ (z : Z) : 0 <= z < int64_max -> wrap64 (z + 1) = z + 1.
Proof.
  intros Hz. apply wrap64_id. unfold int64_min, int64_max in *. lia.
Qed.

(** Saturation does not change how a difference compares with an hour. *)
Lemma Since_gt_Hour (now t : Time) :
  (Hour <? Since now t) = true <-> Hour < now - t.
Proof.
  unfold Since, Sub, minDuration, maxDuration, int64_min, int64_max, Hour,
    Minute, Second.
  repeat case_match; rewrite ?Z.ltb_lt, ?Z.ltb_ge in *; lia.
Qed.

End GoFacts.

(** ** The health monitor *)

Section HealthMonitorFacts.
Import Go HealthMonitor HealthSpec.

Lemma run_snoc (cs : list Call) (c : Call) : run (cs ++ [c]) = step (run cs) c.
Proof. unfold run. by rewrite foldl_app. Qed.

Lemma arrivals_snoc (cs : list Call) (c : Call) :
  arrivals (cs ++ [c]) =
  match c with
  | CallRecordSuccess _ _ => arrivals cs
  | CallRecordFailure _ now2 ticker errorMsg url =>
      arrivals cs ++ [{| Timestamp := now2; Ticker := ticker;
                         Error := errorMsg; URL := url |}]
  | CallReset => []
  end.
Proof. unfold arrivals. by rewrite foldl_app. Qed.

(** The thresholds set by [NewHealthMonitor] are never changed. *)
Lemma run_constants (cs : list Call) :
  maxRecentFailures (run cs) = 50
  /\ failureThreshold (run cs) = f0_2
  /\ consecutiveThreshold (run cs) = 5.
Proof.
  induction cs as [|c cs IH] using rev_ind; [done|].
  rewrite run_snoc. by destruct c.
Qed.

Lemma mostRecent_length {A} (n : nat) (l : list A) :
  (length (mostRecent n l) <= n)%nat.
Proof. unfold mostRecent. rewrite length_drop. lia. Qed.

(** Appending to a window and evicting on overflow keeps the window. *)
Lemma mostRecent_snoc {A} (n : nat) (l : list A) (x : A) :
  mostRecent (S n) (l ++ [x]) =
  if (Z.of_nat (S n) <? Z.of_nat (length (mostRecent (S n) l ++ [x])))
  then drop 1 (mostRecent (S n) l ++ [x])
  else mostRecent (S n) l ++ [x].
Proof.
  unfold mostRecent. rewrite !length_app, !length_drop. simpl length.
  destruct (decide (length l < S n)%nat) as [Hlt|Hge].
  - replace (length l - S n)%nat with 0%nat by lia.
    replace (length l + 1 - S n)%nat with 0%nat by lia.
    rewrite !drop_0.
    case_match; [rewrite Z.ltb_lt in *; lia | done].
  - case_match; [|rewrite Z.ltb_ge in *; lia].
    rewrite <- (drop_app_le l [x]) by lia.
    rewrite drop_drop. f_equal. lia.
Qed.

Lemma ring_is_window (cs : list Call) :
  recentFailures (run cs) = mostRecent 50 (arrivals cs).
Proof.
  induction cs as [|c cs IH] using rev_ind; [done|].
  rewrite run_snoc, arrivals_snoc.
  destruct c as [now ticker|now1 now2 ticker errorMsg url|]; simpl; [done| |done].
  destruct (run_constants cs) as (-> & _ & _).
  rewrite IH. symmetry. apply (mostRecent_snoc 49).
Qed.

(** C8. Whatever calls ([RecordSuccess], [RecordFailure], [Reset]) are
    made on a fresh monitor, the ring of recent failures never holds
    more than 50 records and is exactly the last (up to 50) failures
    recorded since the last reset, in arrival order; a failure recorded
    when the ring holds 50 records evicts the oldest one before it is
    kept, and otherwise is just appended. *)
Theorem failure_ring_bounded (cs : list Call) :
  (length (recentFailures (run cs)) <= 50)%nat
  /\ recentFailures (run cs) = mostRecent 50 (arrivals cs)
  /\ forall now1 now2 ticker errorMsg url,
       recentFailures (RecordFailure now1 now2 ticker errorMsg url (run cs)) =
       (if (length (recentFailures (run cs)) =? 50)%nat
        then drop 1 (recentFailures (run cs))
        else recentFailures (run cs))
       ++ [{| Timestamp := now2; Ticker := ticker;
              Error := errorMsg; URL := url |}].
Proof.
  pose proof (ring_is_window cs) as Hw.
  assert (length (recentFailures (run cs)) <= 50)%nat as Hlen.
  { rewrite Hw. apply mostRecent_length. }
  split; [done|]. split; [done|].
  intros now1 now2 ticker errorMsg url. simpl.
  destruct (run_constants cs) as (-> & _ & _).
  rewrite length_app. simpl length.
  destruct (Nat.eqb_spec (length (recentFailures (run cs))) 50) as [Heq|Hne].
  - case_match; [|rewrite Z.ltb_ge in *; lia].
    destruct (recentFailures (run cs)); [done|]. by rewrite !skipn_cons, !drop_0.
  - case_match; [rewrite Z.ltb_lt in *; lia|done].
Qed.

(** The counters of a monitor that has seen fewer than 2^63 calls have
    not wrapped around. *)
Lemma run_counters (cs : list Call) :
  Z.of_nat (length cs) < 2 ^ 63 ->
  0 <= totalRequests (run cs) <= Z.of_nat (length cs).
Proof.
  induction cs as [|c cs IH] using rev_ind; [simpl; lia|].
  rewrite length_app, run_snoc. simpl length. intros Hlen.
  assert (0 <= totalRequests (run cs) <= Z.of_nat (length cs)) as Hc
    by (apply IH; lia).
  destruct c; simpl; rewrite ?wrap64_succ; unfold int64_max; lia.
Qed.

(** The verdict of [GetHealthStatus] is the conjunction of its three
    checks failing to fire. *)
Lemma IsHealthy_checks (now : Time) (h : t) :
  IsHealthy (GetHealthStatus now h) =
  negb (failureRateCheck h (SuccessRate (GetHealthStatus now h))
        || consecutiveCheck h || staleCheck now h).
Proof.
  unfold GetHealthStatus.
  destruct (failureRateCheck h _) eqn:Hrate;
    destruct (consecutiveCheck h) eqn:Hcons;
    destruct (staleCheck now h) eqn:Hstale;
    destruct (analyzeFailurePatterns h _ _); simpl; by rewrite ?Hrate.
Qed.

Lemma one_minus_threshold : (1 - f0_2)%float = f0_8.
Proof. reflexivity. Qed.

(** Up to a thousand requests, the float64 test "rate below 0.8" is the
    exact test 5 * successes < 4 * total. *)
Lemma rate_grid :
  forallb (fun total =>
             forallb (fun successes =>
                        Bool.eqb
                          (float64_of_int successes / float64_of_int total <? f0_8)%float
                          (5 * successes <? 4 * total))
                     (seqZ 0 (total + 1)))
          (seqZ 1 1000) = true.
Proof. vm_compute. reflexivity. Qed.

Lemma rate_below_threshold_exact (successes total : Z) :
  0 <= successes <= total -> 0 < total <= 1000 ->
  (float64_of_int successes / float64_of_int total <? f0_8)%float
  = (5 * successes <? 4 * total).
Proof.
  intros Hs Ht. pose proof rate_grid as Hgrid.
  rewrite forallb_forall in Hgrid.
  specialize (Hgrid total). rewrite <- list_elem_of_In, elem_of_seqZ in Hgrid.
  specialize (Hgrid ltac:(lia)). rewrite forallb_forall in Hgrid.
  specialize (Hgrid successes).
  rewrite <- list_elem_of_In, elem_of_seqZ in Hgrid.
  specialize (Hgrid ltac:(lia)). by apply eqb_prop in Hgrid.
Qed.

(** C3. After any sequence of calls on a fresh monitor (short enough
    for the int64 counters not to wrap), the status reports the success
    rate successfulRequests/totalRequests, exactly 1.0 when there were
    no requests, and it reports isHealthy=false exactly when
    totalRequests >= 10 and the rate is below 0.8, or
    consecutiveFailures >= 5, or a last success is stamped and lies more
    than one hour back. *)
Theorem health_status_verdict (cs : list Call) (now : Time) :
  Z.of_nat (length cs) < 2 ^ 63 ->
  let h := run cs in
  let st := GetHealthStatus now h in
  (totalRequests h = 0 -> SuccessRate st = 1%float)
  /\ (totalRequests h <> 0 ->
      SuccessRate st =
      (float64_of_int (successfulRequests h) / float64_of_int (totalRequests h))%float)
  /\ (IsHealthy st = false <-> unhealthy now h (SuccessRate st)).
Proof.
  intros Hlen h st.
  pose proof (run_counters cs Hlen) as Hcount. fold h in Hcount.
  split; [|split].
  - intros H0. subst st. unfold GetHealthStatus. rewrite H0. simpl.
    by repeat case_match.
  - intros Hne. subst st. unfold GetHealthStatus.
    destruct (Z.ltb_spec 0 (totalRequests h)); [|lia].
    by repeat case_match.
  - subst st. rewrite IsHealthy_checks, negb_false_iff.
    unfold unhealthy, failureRateCheck, consecutiveCheck, staleCheck.
    destruct (run_constants cs) as (_ & Hthr & Hcons). fold h in Hthr, Hcons.
    rewrite Hthr, Hcons, one_minus_threshold.
    rewrite !orb_true_iff, !andb_true_iff, negb_true_iff, Z.leb_le, Z.leb_le.
    rewrite Since_gt_Hour. unfold IsZero, zeroTime.
    rewrite Z.eqb_neq. tauto.
Qed.

(** The verdict theorem after six failures in a row: the monitor is
    unhealthy. *)
Lemma health_status_witness :
  Z.of_nat (length Samples.sixFailures) < 2 ^ 63
  /\ IsHealthy (GetHealthStatus Samples.sampleNoon (run Samples.sixFailures)) = false
  /\ SuccessRate (GetHealthStatus Samples.sampleNoon (run Samples.sixFailures))
     = 0%float.
Proof.
  assert (Z.of_nat (length Samples.sixFailures) < 2 ^ 63) as Hlen
    by (vm_compute; reflexivity).
  destruct (health_status_verdict Samples.sixFailures Samples.sampleNoon Hlen)
    as (_ & Hrate & Hverdict).
  split; [exact Hlen|]. split.
  - apply Hverdict. right; left. vm_compute. discriminate.
  - rewrite Hrate; [|vm_compute; discriminate]. vm_compute. reflexivity.
Defined.

End HealthMonitorFacts.

(** ** The scoring engine *)

Section EngineFacts.
Import Go Engine EngineSpec.
Context `{Library}.






(** *** The requirement and exclusion gate of [ScoreCompany] *)

(** Byte strings: cancelling a common suffix, and the last byte. *)
Lemma append_length (s t : string) :
  String.length (s +:+ t) = (String.length s + String.length t)%nat.
Proof. induction s as [|c s IH]; simpl; [done|by rewrite IH]. Qed.

Lemma append_inv_tail (s1 s2 t : string) : s1 +:+ t = s2 +:+ t -> s1 = s2.
Proof.
  revert s2. induction s1 as [|c s1 IH]; intros [|c2 s2] Heq; simpl in *.
  - done.
  - apply (f_equal String.length) in Heq.
    rewrite !append_length in Heq. simpl in Heq. lia.
  - apply (f_equal String.length) in Heq.
    rewrite !append_length in Heq. simpl in Heq. lia.
  - injection Heq as -> Heq. f_equal. by apply IH.
Qed.

Lemma lastByte_append (s t : string) (d : ascii) :
  lastByte t = Some d -> lastByte (s +:+ t) = Some d.
Proof. intros Ht. induction s as [|c s IH]; simpl; [done|by rewrite IH]. Qed.

Lemma requirementKey_inj (a b : Requirement) :
  requirementKey a = requirementKey b <-> Field a = Field b.
Proof.
  unfold requirementKey. split; [apply append_inv_tail|by intros ->].
Qed.

Lemma exclusionKey_inj (a b : Requirement) :
  exclusionKey a = exclusionKey b <-> Field a = Field b.
Proof.
  unfold exclusionKey. split; [apply append_inv_tail|by intros ->].
Qed.

(** A requirement key never is an exclusion key: they end differently. *)
Lemma requirementKey_exclusionKey (a b : Requirement) :
  requirementKey a <> exclusionKey b.
Proof.
  unfold requirementKey, exclusionKey. intros Heq.
  apply (f_equal lastByte) in Heq.
  rewrite (lastByte_append _ "_requirement" "t") in Heq by done.
  by rewrite (lastByte_append _ "_exclusion" "n") in Heq.
Qed.

(** What one pass of each loop does to the result. *)
Lemma checkRequirement_effect now data r req :
  RequirementsMet (checkRequirement now data r req)
    = RequirementsMet r && holds now data req
  /\ Score (checkRequirement now data r req) = Score r
  /\ Qualified (checkRequirement now data r req) = Qualified r
  /\ Breakdown (checkRequirement now data r req)
     = <[requirementKey req := requirementEntry now data req]> (Breakdown r).
Proof.
  unfold checkRequirement, holds, requirementEntry, requirementKey.
  destruct (evaluateCondition _ _ _ _ _) as [[|] value]; simpl;
    rewrite ?andb_true_r, ?andb_false_r; done.
Qed.

Lemma checkExclusion_effect now data r ex :
  RequirementsMet (checkExclusion now data r ex)
    = RequirementsMet r && negb (holds now data ex)
  /\ Score (checkExclusion now data r ex) = Score r
  /\ Qualified (checkExclusion now data r ex) = Qualified r
  /\ Breakdown (checkExclusion now data r ex)
     = <[exclusionKey ex := exclusionEntry now data ex]> (Breakdown r).
Proof.
  unfold checkExclusion, holds, exclusionEntry, exclusionKey.
  destruct (evaluateCondition _ _ _ _ _) as [[|] value]; simpl;
    rewrite ?andb_true_r, ?andb_false_r; done.
Qed.

Lemma store_lookup {A} (key : A -> string) (entry : A -> ScoreDetail)
    (m : gmap string ScoreDetail) (cs : list A) (k : string) :
  store key entry m cs !! k =
  match last (filter (fun c => key c = k) cs) with
  | Some c => Some (entry c)
  | None => m !! k
  end.
Proof.
  unfold store. induction cs as [|c cs IH] using rev_ind; [done|].
  rewrite foldl_app, filter_app. simpl.
  destruct (decide (key c = k)) as [<-|Hne].
  - rewrite filter_cons_True by done. rewrite filter_nil.
    by rewrite last_snoc, lookup_insert_eq.
  - rewrite filter_cons_False by done. rewrite filter_nil, app_nil_r.
    by rewrite lookup_insert_ne.
Qed.

Lemma requirements_loop now data r reqs :
  let r' := foldl (checkRequirement now data) r reqs in
  RequirementsMet r' = RequirementsMet r && forallb (holds now data) reqs
  /\ Score r' = Score r
  /\ Qualified r' = Qualified r
  /\ Breakdown r' = store requirementKey (requirementEntry now data) (Breakdown r) reqs.
Proof.
  unfold store. induction reqs as [|req reqs IH] using rev_ind; simpl.
  - by rewrite andb_true_r.
  - rewrite !foldl_app. simpl.
    destruct IH as (IH1 & IH2 & IH3 & IH4).
    destruct (checkRequirement_effect now data
                (foldl (checkRequirement now data) r reqs) req)
      as (-> & -> & -> & ->).
    rewrite forallb_app. simpl. rewrite IH1, IH2, IH3, IH4, andb_true_r.
    by rewrite andb_assoc.
Qed.

Lemma exclusions_loop now data r excls :
  let r' := foldl (checkExclusion now data) r excls in
  RequirementsMet r'
    = RequirementsMet r && forallb (fun ex => negb (holds now data ex)) excls
  /\ Score r' = Score r
  /\ Qualified r' = Qualified r
  /\ Breakdown r' = store exclusionKey (exclusionEntry now data) (Breakdown r) excls.
Proof.
  unfold store. induction excls as [|ex excls IH] using rev_ind; simpl.
  - by rewrite andb_true_r.
  - rewrite !foldl_app. simpl.
    destruct IH as (IH1 & IH2 & IH3 & IH4).
    destruct (checkExclusion_effect now data
                (foldl (checkExclusion now data) r excls) ex)
      as (-> & -> & -> & ->).
    rewrite forallb_app. simpl. rewrite IH1, IH2, IH3, IH4, andb_true_r.
    by rewrite andb_assoc.
Qed.

Lemma forallb_false_elem {A} (f : A -> bool) (l : list A) :
  forallb f l = false <-> exists x, x ∈ l /\ f x = false.
Proof.
  induction l as [|a l IH]; simpl.
  - split; [done|]. intros (x & Hin & _). by apply elem_of_nil in Hin.
  - rewrite andb_false_iff, IH. split.
    + intros [Ha|(x & Hin & Hx)].
      * exists a. split; [apply list_elem_of_here|done].
      * exists x. split; [by apply list_elem_of_further|done].
    + intros (x & Hin & Hx). apply elem_of_cons in Hin as [->|Hin].
      * by left.
      * right. by exists x.
Qed.

(** The gate fails exactly when the two loops leave [RequirementsMet]
    false. *)
Lemma gateFails_forallb now data model :
  gateFails now data model <->
  forallb (holds now data) (Requirements model)
  && forallb (fun ex => negb (holds now data ex)) (Exclusions model) = false.
Proof.
  unfold gateFails. rewrite andb_false_iff, !forallb_false_elem.
  split; (intros [(c & Hin & Hc)|(c & Hin & Hc)]; [left|right];
          exists c; (split; [done|])).
  - done.
  - by rewrite Hc.
  - done.
  - by apply negb_false_iff.
Qed.

(** With pairwise distinct fields, the last condition on the field of a
    listed condition is that condition. *)
Lemma lastOn_self (c : Requirement) (cs : list Requirement) :
  c ∈ cs -> exists c', lastOn (Field c) cs = Some c' /\ Field c' = Field c.
Proof.
  intros Hin. unfold lastOn.
  destruct (last (filter (fun c0 => Field c0 = Field c) cs)) as [c'|] eqn:Hl.
  - exists c'. split; [done|].
    apply last_Some_elem_of in Hl. by apply list_elem_of_filter in Hl as [? _].
  - apply last_None in Hl.
    assert (c ∈ filter (fun c0 => Field c0 = Field c) cs) as Hc
      by by apply list_elem_of_filter.
    rewrite Hl in Hc. by apply elem_of_nil in Hc.
Qed.

Lemma lastOn_NoDup (c : Requirement) (cs : list Requirement) :
  NoDup (map Field cs) -> c ∈ cs -> lastOn (Field c) cs = Some c.
Proof.
  intros Hnd Hin.
  destruct (lastOn_self c cs Hin) as (c' & Hl & Hf). rewrite Hl. f_equal.
  unfold lastOn in Hl. apply last_Some_elem_of in Hl.
  apply list_elem_of_filter in Hl as [_ Hin'].
  apply list_elem_of_lookup in Hin as [i Hi].
  apply list_elem_of_lookup in Hin' as [j Hj].
  assert (i = j) as ->.
  { eapply NoDup_lookup; [exact Hnd| |].
    - by rewrite list_lookup_fmap, Hi.
    - by rewrite list_lookup_fmap, Hj; simpl; rewrite Hf. }
  congruence.
Qed.

Lemma filter_none {A} (P : A -> Prop) `{forall x, Decision (P x)} (l : list A) :
  (forall x, ~ P x) -> filter P l = [].
Proof.
  intros Hno. induction l as [|a l IH]; [done|].
  by rewrite filter_cons_False.
Qed.

(** The rules leave [RequirementsMet] as it is. *)
Lemma rules_loop now data r rules :
  RequirementsMet (foldl (applyRule now data) r rules) = RequirementsMet r.
Proof.
  induction rules as [|rule rules IH] using rev_ind; [done|].
  rewrite foldl_app. simpl. unfold applyRule at 1.
  by destruct (evaluateCondition _ _ _ _ _).
Qed.

(** C1 (amended). For every snapshot and every model, [ScoreCompany]
    returns qualified=true only with requirementsMet=true and
    score >= MinScore; and when a requirement fails or an exclusion
    holds, it returns requirementsMet=false, score=0, qualified=false,
    whatever the rules and their weights, with a breakdown that has
    entries under the keys of the requirements and exclusions only, the
    entry under a key recording the last requirement (exclusion)
    evaluated on that field.  Every requirement and every exclusion has
    its own recorded entry when no two requirements and no two
    exclusions bear on one field. *)
Theorem score_gate scoredAt now data model :
  let r := ScoreCompany scoredAt now data model in
  (Qualified r = true -> RequirementsMet r = true /\ MinScore model <= Score r)
  /\ (gateFails now data model ->
      RequirementsMet r = false /\ Score r = 0 /\ Qualified r = false
      /\ (forall req, req ∈ Requirements model ->
            exists req', lastOn (Field req) (Requirements model) = Some req'
              /\ Breakdown r !! requirementKey req
                 = Some (requirementEntry now data req'))
      /\ (forall ex, ex ∈ Exclusions model ->
            exists ex', lastOn (Field ex) (Exclusions model) = Some ex'
              /\ Breakdown r !! exclusionKey ex
                 = Some (exclusionEntry now data ex'))
      /\ (forall k, is_Some (Breakdown r !! k) ->
            (exists req, req ∈ Requirements model /\ k = requirementKey req)
            \/ (exists ex, ex ∈ Exclusions model /\ k = exclusionKey ex))
      /\ (NoDup (map Field (Requirements model)) ->
          NoDup (map Field (Exclusions model)) ->
          everyEvaluationRecorded now data model r)).
Proof.
  intros r. subst r. unfold ScoreCompany.
  set (r0 := {| CompanyID := ""; ScoringModelID := ID model; Score := 0;
                Qualified := false; RequirementsMet := true; Breakdown := ∅;
                ScoredAt := scoredAt |}).
  destruct (requirements_loop now data r0 (Requirements model))
    as (Hm1 & Hs1 & Hq1 & Hb1).
  set (r1 := foldl (checkRequirement now data) r0 (Requirements model)) in *.
  destruct (exclusions_loop now data r1 (Exclusions model))
    as (Hm2 & Hs2 & Hq2 & Hb2).
  set (r2 := foldl (checkExclusion now data) r1 (Exclusions model)) in *.
  rewrite Hm1 in Hm2. rewrite Hs1 in Hs2. rewrite Hq1 in Hq2. rewrite Hb1 in Hb2.
  simpl in Hm2, Hs2, Hq2, Hb2.
  split.
  - destruct (RequirementsMet r2) eqn:Hmet; simpl.
    + intros Hq. split; [by rewrite rules_loop|]. by apply Z.leb_le.
    + by rewrite Hq2.
  - intros Hgate. apply gateFails_forallb in Hgate.
    rewrite <- Hm2 in Hgate. rewrite Hgate.
    split; [done|]. split; [done|]. split; [done|].
    assert (forall req, req ∈ Requirements model ->
              Breakdown r2 !! requirementKey req =
              requirementEntry now data <$> lastOn (Field req) (Requirements model))
      as Hreq.
    { intros req Hin. rewrite Hb2, store_lookup.
      rewrite filter_none; last first.
      { intros ex Heq. symmetry in Heq.
        by apply requirementKey_exclusionKey in Heq. }
      simpl. rewrite store_lookup, lookup_empty. unfold lastOn.
      rewrite (list_filter_iff _ (fun c => Field c = Field req));
        [|intros c; apply requirementKey_inj].
      by destruct (last _). }
    assert (forall ex, ex ∈ Exclusions model ->
              Breakdown r2 !! exclusionKey ex =
              exclusionEntry now data <$> lastOn (Field ex) (Exclusions model))
      as Hexc.
    { intros ex Hin. rewrite Hb2, store_lookup. unfold lastOn.
      rewrite (list_filter_iff _ (fun c => Field c = Field ex));
        [|intros c; apply exclusionKey_inj].
      destruct (lastOn_self ex (Exclusions model) Hin) as (ex' & Hl & _).
      unfold lastOn in Hl. by rewrite Hl. }
    split; [|split; [|split]].
    + intros req Hin. destruct (lastOn_self req _ Hin) as (req' & Hl & _).
      exists req'. split; [done|]. by rewrite Hreq, Hl.
    + intros ex Hin. destruct (lastOn_self ex _ Hin) as (ex' & Hl & _).
      exists ex'. split; [done|]. by rewrite Hexc, Hl.
    + intros k [d Hd]. rewrite Hb2, store_lookup in Hd.
      destruct (last (filter _ (Exclusions model))) as [ex|] eqn:Hl.
      * right. apply last_Some_elem_of in Hl.
        apply list_elem_of_filter in Hl as [Hk Hin]. by exists ex.
      * rewrite store_lookup, lookup_empty in Hd.
        destruct (last (filter _ (Requirements model))) as [req|] eqn:Hl';
          [|done].
        left. apply last_Some_elem_of in Hl'.
        apply list_elem_of_filter in Hl' as [Hk Hin]. by exists req.
    + intros Hnd1 Hnd2. split.
      * intros req Hin. by rewrite Hreq, lastOn_NoDup.
      * intros ex Hin. by rewrite Hexc, lastOn_NoDup.
Qed.

End EngineFacts.

Section EngineSamples.
Import Go Engine EngineSpec Samples.

(** A missing date is delinquent; on October 30, 2026 a filing of April
    30, 2025 is older than 15 months and one of July 30, 2026 is not
    older than 6 months. *)
Example delinquency_samples :
  @evaluateDelinquency sampleNow ∅ "last_10k_date" 15 = true
  /\ @evaluateDelinquency sampleNow
       {[ "last_10k_date" := VString "2025-04-30" ]} "last_10k_date" 15 = true
  /\ @evaluateDelinquency sampleNow
       {[ "last_10q_date" := VString "2026-07-30" ]} "last_10q_date" 6 = false.
Proof. repeat split; vm_compute; reflexivity. Qed.

(** C1, as stated, fails: with two requirements on one field, of which
    the first fails and the second holds, the gate fails but the
    breakdown holds a single entry, which records the second
    requirement as met; the evaluation of the first is not recorded. *)
Lemma shared_field_loses_record :
  let r := @ScoreCompany engineLibrary 0 sampleNow pinkSnapshot sharedFieldModel in
  @gateFails engineLibrary sampleNow pinkSnapshot sharedFieldModel
  /\ RequirementsMet r = false
  /\ size (Breakdown r) = 1%nat
  /\ ~ @everyEvaluationRecorded engineLibrary sampleNow pinkSnapshot
         sharedFieldModel r.
Proof.
  pose (req1 := {| Field := "market_tier"; Operator := "equals";
                   Expected := VString "Expert Market";
                   Description := "Must be in Expert Market tier" |}).
  assert (req1 ∈ Requirements sharedFieldModel) as Hin
    by apply list_elem_of_here.
  split; [|split; [|split]].
  - left. exists req1. split; [done|]. vm_compute. reflexivity.
  - vm_compute. reflexivity.
  - vm_compute. reflexivity.
  - intros [Hreq _]. specialize (Hreq req1 Hin).
    vm_compute in Hreq. discriminate Hreq.
Qed.

(** The gate theorem at a snapshot that misses the one requirement of
    [expertModel]. *)
Lemma score_gate_witness :
  let r := @ScoreCompany engineLibrary 0 sampleNow pinkSnapshot expertModel in
  @gateFails engineLibrary sampleNow pinkSnapshot expertModel
  /\ RequirementsMet r = false /\ Score r = 0 /\ Qualified r = false
  /\ @everyEvaluationRecorded engineLibrary sampleNow pinkSnapshot expertModel r.
Proof.
  assert (@gateFails engineLibrary sampleNow pinkSnapshot expertModel) as Hgate.
  { left. eexists. split; [apply list_elem_of_here|]. vm_compute. reflexivity. }
  destruct (@score_gate engineLibrary 0 sampleNow pinkSnapshot expertModel)
    as [_ Hg].
  destruct (Hg Hgate) as (Hm & Hs & Hq & _ & _ & _ & Hall).
  split; [exact Hgate|]. split; [exact Hm|]. split; [exact Hs|].
  split; [exact Hq|].
  apply Hall; apply NoDup_singleton.
Defined.

End EngineSamples.

(** ** The proxy client *)

Section FetchFacts.
Import Go Net OxyLabs FetchSpec.
Context `{Library}.
Variable env : Env.

Lemma place_all (outcomes : list (string * result Document)) :
  foldl place noSplit outcomes = splitOf outcomes.
Proof.
  induction outcomes as [|[url r] outcomes IH] using rev_ind; [done|].
  rewrite foldl_app. simpl. rewrite IH. unfold splitOf, successes, failures.
  rewrite !omap_app. destruct r as [doc|err]; unfold place; simpl.
  - rewrite app_nil_r, reverse_app. done.
  - rewrite app_nil_r, reverse_app. done.
Qed.

(** The fallback loop is the sequence of single fetches, filed. *)
Lemma individualRequests_singleFetches c urls s w :
  individualRequests env c urls s w =
  (foldl place s (fst (singleFetches env c urls w)),
   snd (singleFetches env c urls w)).
Proof.
  unfold individualRequests. revert s w.
  induction urls as [|url urls IH]; intros s w; [done|].
  simpl. destruct (Get env c url w) as [r w1] eqn:Hget.
  destruct r as [doc|err]; rewrite IH;
    by destruct (singleFetches env c urls w1) as [rs w2].
Qed.

Lemma singleFetches_urls c urls w :
  map fst (fst (singleFetches env c urls w)) = urls.
Proof.
  revert w. induction urls as [|url urls IH]; intros w; [done|].
  simpl. destruct (Get env c url w) as [r w1].
  specialize (IH w1). destruct (singleFetches env c urls w1) as [rs w2].
  simpl in *. by rewrite IH.
Qed.

(** C2. For every URL list, when the batch fetch fails at the batch
    level (marshalling, request construction, transport, reading the
    body, decoding the envelope), [GetBatch] makes one single fetch per
    URL, in order, and returns exactly the per-URL success/error split
    of those single fetches. *)
Theorem batch_failure_falls_back c urls w w' :
  BatchLevelFailure env c urls w w' ->
  GetBatch env c urls w =
    (splitOf (fst (singleFetches env c urls w')),
     snd (singleFetches env c urls w'))
  /\ map fst (fst (singleFetches env c urls w')) = urls.
Proof.
  intros Hfail. split; [|apply singleFetches_urls].
  unfold GetBatch.
  destruct Hfail as [err Hm|body err Hm Hn|body req err Hm Hn Hr
                    |body req status err Hm Hn Hr
                    |body req status respBody err Hm Hn Hr Hd];
    rewrite Hm; [|rewrite Hn..]; unfold Do; simpl; rewrite ?Hr, ?Hd;
    by rewrite individualRequests_singleFetches, place_all.
Qed.

(** The result loop of a decoded batch files, position by position, what
    the page check makes of each result. *)
Lemma batchResults_positional urls results s :
  batchResults urls results s =
  foldl place s (zip urls (map pageOf results)).
Proof.
  revert urls s. induction results as [|result results IH];
    intros [|url urls] s; try done.
  simpl. rewrite IH. f_equal. unfold place, pageOf. simpl.
  destruct (negb (StatusCode result =? 200)); [done|].
  by destruct (NewDocumentFromReader (Content result)).
Qed.

Lemma splitOf_lookup_None outcomes url :
  url ∉ map fst outcomes -> unaccounted (splitOf outcomes) url.
Proof.
  intros Hnot. unfold unaccounted, splitOf, successes, failures. simpl.
  split; apply not_elem_of_list_to_map_1; intros Hin; apply Hnot;
    apply list_elem_of_fmap in Hin as ([u x] & -> & Hin);
    apply elem_of_reverse, list_elem_of_omap in Hin as ([u' r] & Hin & Hsome);
    destruct r; simplify_eq; apply list_elem_of_fmap; by eexists (_, _).
Qed.

(** C9. When the batch response decodes, whatever its HTTP status, the
    results are matched to the URLs by position alone; so with fewer
    results than (distinct) URLs, every URL beyond the results is in
    neither map, and there is such a URL. *)
Theorem batch_leaves_urls_unaccounted c urls w body req status respBody resp :
  json_Marshal (ManyRequests (map oxyRequest urls)) = Ok body ->
  newPost c body = Ok req ->
  remote env (httpCalls w) req = Body status respBody ->
  json_Unmarshal respBody = Ok resp ->
  NoDup urls ->
  (length (Results resp) < length urls)%nat ->
  let s := fst (GetBatch env c urls w) in
  s = splitOf (zip urls (map pageOf (Results resp)))
  /\ (forall i url, urls !! i = Some url -> (length (Results resp) <= i)%nat ->
        unaccounted s url)
  /\ (exists url, url ∈ urls /\ unaccounted s url).
Proof.
  intros Hm Hn Hr Hd Hnd Hlen s. subst s. unfold GetBatch.
  rewrite Hm, Hn. unfold Do. simpl. rewrite Hr, Hd. simpl.
  rewrite batchResults_positional, place_all.
  assert (forall i url, urls !! i = Some url ->
            (length (Results resp) <= i)%nat ->
            unaccounted (splitOf (zip urls (map pageOf (Results resp)))) url)
    as Hbeyond.
  { intros i url Hi Hge. apply splitOf_lookup_None.
    intros Hin. apply list_elem_of_fmap in Hin as ([u r] & -> & Hin).
    apply list_elem_of_lookup in Hin as [j Hj].
    apply lookup_zip_with_Some in Hj as (x & y & Heq & Hx & Hy).
    injection Heq as -> ->. simpl in Hi.
    apply lookup_lt_Some in Hy. rewrite length_map in Hy.
    assert (i = j) by (eapply NoDup_lookup; eauto). lia. }
  split; [done|]. split; [done|].
  destruct (lookup_lt_is_Some_2 urls (length (Results resp)) Hlen) as [url Hu].
  exists url. split; [by eapply list_elem_of_lookup_2|]. by eapply Hbeyond.
Qed.

(** A call that ended in an error returned no content, and the
    conditions for content contradict the step that failed. *)
Ltac no_content :=
  let Hex := fresh "Hex" in
  intros ?; split;
  [ intros [=]
  | intros Hex; decompose [ex and] Hex; congruence ].

(** C6 (amended). A single-page fetch through the proxy ([OxyLabs.Get])
    acquires no rate-limiter permit: it issues at most its one request
    and nothing else.  It returns content exactly when the body
    marshals, the request is built, the proxy answers with status 200
    and a readable body that decodes to an envelope with a first result
    of status 200 whose content parses; every other case is an error.
    The rate-limited direct fetch ([DirectClient.Get]) issues its request
    only after a permit, returns the context's error without a request
    when the context is done first, and returns content exactly when the
    answer has status 200 and a body that parses. *)
Theorem fetch_layers c url w sel dc :
  (let '(r, w') := Get env c url w in
   (trace w' = trace w \/ exists req, trace w' = trace w ++ [EvRequest req])
   /\ (forall doc, r = Ok doc <->
         exists body req respBody resp result rest,
           json_Marshal (OneRequest (oxyRequest url)) = Ok body
           /\ newPost c body = Ok req
           /\ remote env (httpCalls w) req = Body 200 respBody
           /\ json_Unmarshal respBody = Ok resp
           /\ Results resp = result :: rest
           /\ StatusCode result = 200
           /\ NewDocumentFromReader (Content result) = Ok doc))
  /\ (let '(r, _, w') := DirectClient.Get env sel dc url w in
      match sel with
      | DirectClient.Done ctxErr => r = Err ctxErr /\ trace w' = trace w
      | DirectClient.Permit =>
          (trace w' = trace w ++ [EvPermit]
           \/ exists req, trace w' = trace w ++ [EvPermit; EvRequest req])
          /\ (forall doc, r = Ok doc <->
                exists req body,
                  DirectClient.newGet dc url = Ok req
                  /\ remote env (httpCalls w) req = Body 200 body
                  /\ NewDocumentFromReader body = Ok doc)
      end).
Proof.
  split.
  - unfold Get, pageOf, Do.
    destruct (json_Marshal _) as [body|e1] eqn:Hm; [|split; [by left|no_content]].
    destruct (newPost c body) as [req|e2] eqn:Hn; [|split; [by left|no_content]].
    simpl. destruct (remote env (httpCalls w) req) as [e3|st e3|st respBody] eqn:Hr;
      [split; [right; by eexists|no_content]..|].
    destruct (Z.eqb_spec st 200) as [->|Hst]; simpl;
      [|split; [right; by eexists|no_content]].
    destruct (json_Unmarshal respBody) as [resp|e4] eqn:Hd;
      [|split; [right; by eexists|no_content]].
    destruct (Results resp) as [|result rest] eqn:Hres;
      [split; [right; by eexists|no_content]|].
    destruct (Z.eqb_spec (StatusCode result) 200) as [Hsc|Hsc]; simpl;
      [|split; [right; by eexists|no_content]].
    destruct (NewDocumentFromReader (Content result)) as [doc'|e5] eqn:Hdoc;
      (split; [right; by eexists|]); [|no_content].
    intros doc. split.
    + intros [= <-]. by exists body, req, respBody, resp, result, rest.
    + intros Hex. decompose [ex and] Hex. congruence.
  - unfold DirectClient.Get, Do, emit. destruct sel as [|ctxErr]; [|done].
    assert (DirectClient.newGet
              {| DirectClient.permits := Init.Nat.pred (DirectClient.permits dc);
                 DirectClient.capacity := DirectClient.capacity dc;
                 DirectClient.clientUserAgent := DirectClient.clientUserAgent dc |}
              url = DirectClient.newGet dc url) as -> by done.
    destruct (DirectClient.newGet dc url) as [req|e1] eqn:Hn;
      [|split; [by left|no_content]].
    simpl. rewrite <- (assoc_L (++)). simpl.
    destruct (remote env (httpCalls w) req) as [e3|st e3|st body] eqn:Hr;
      [split; [right; by eexists|no_content]| |].
    + destruct (negb (st =? 200)); (split; [right; by eexists|no_content]).
    + destruct (Z.eqb_spec st 200) as [->|Hst]; simpl;
        [|split; [right; by eexists|no_content]].
      destruct (NewDocumentFromReader body) as [doc'|e5] eqn:Hdoc;
        (split; [right; by eexists|]); [|no_content].
      intros doc. split.
      * intros [= <-]. by exists req, body.
      * intros Hex. decompose [ex and] Hex. congruence.
Qed.

End FetchFacts.

Section FetchSamples.
Import Go Net OxyLabs FetchSpec Samples.
#[local] Existing Instance scraperLibrary.

(** The fallback theorem on a batch whose response body does not decode:
    the three single fetches give one document and two errors. *)
Lemma batch_failure_witness :
  BatchLevelFailure fallbackEnv sampleClient sampleURLs initial
    (snd (Do fallbackEnv
            {| Method := "POST"; Target := endpoint sampleClient;
               Payload := Some (Join sampleURLs ",");
               Headers := [("Content-Type", "application/json")];
               BasicAuth := Some ("user", "secret") |} initial))
  /\ docs (fst (@GetBatch scraperLibrary fallbackEnv sampleClient sampleURLs initial))
     = {[ Scraper.overviewURL "ABCD" := "<html></html>" ]}
  /\ errors (fst (@GetBatch scraperLibrary fallbackEnv sampleClient sampleURLs initial))
     = {[ Scraper.financialsURL "ABCD" :=
            "failed to perform request: context deadline exceeded";
          Scraper.disclosureURL "ABCD" :=
            "target page returned status code: 404" ]}.
Proof.
  assert (BatchLevelFailure fallbackEnv sampleClient sampleURLs initial
    (snd (Do fallbackEnv
            {| Method := "POST"; Target := endpoint sampleClient;
               Payload := Some (Join sampleURLs ",");
               Headers := [("Content-Type", "application/json")];
               BasicAuth := Some ("user", "secret") |} initial))) as Hfail.
  { eapply (@DecodeFails scraperLibrary); vm_compute; reflexivity. }
  destruct (@batch_failure_falls_back scraperLibrary fallbackEnv sampleClient
              sampleURLs initial _ Hfail) as [Heq _].
  split; [exact Hfail|]. rewrite Heq.
  split; vm_compute; reflexivity.
Defined.

(** The positional theorem on a status-500 response that decodes to an
    empty envelope: none of the three URLs is in either map. *)
Lemma batch_unaccounted_witness :
  let s := fst (@GetBatch scraperLibrary emptyEnvelopeEnv sampleClient
                  sampleURLs initial) in
  NoDup sampleURLs
  /\ (forall url, url ∈ sampleURLs -> @unaccounted scraperLibrary s url)
  /\ (exists url, url ∈ sampleURLs /\ @unaccounted scraperLibrary s url).
Proof.
  intros s. subst s.
  assert (NoDup sampleURLs) as Hnd.
  { apply (bool_decide_unpack _). vm_compute. exact I. }
  assert (length (Results {| Results := [] |}) < length sampleURLs)%nat as Hlen
    by (simpl; lia).
  destruct (@batch_leaves_urls_unaccounted scraperLibrary emptyEnvelopeEnv
              sampleClient sampleURLs initial
              (Join sampleURLs ",")
              {| Method := "POST"; Target := endpoint sampleClient;
                 Payload := Some (Join sampleURLs ",");
                 Headers := [("Content-Type", "application/json")];
                 BasicAuth := Some ("user", "secret") |}
              500 "{}" {| Results := [] |}
              eq_refl eq_refl eq_refl eq_refl Hnd Hlen)
    as (_ & Hall & Hex).
  split; [exact Hnd|]. split; [|exact Hex].
  intros url Hin. apply list_elem_of_lookup in Hin as [i Hi].
  apply (Hall i); [exact Hi|simpl; lia].
Defined.

End FetchSamples.

Section FetchCounterexample.
Import Go Net OxyLabs FetchSpec Samples.
#[local] Existing Instance scraperLibrary.

(** C6, as stated, fails for the fetch that the orchestrator uses: a
    proxy fetch that returns content has issued its request without any
    permit before it. *)
Lemma proxy_fetch_takes_no_permit :
  fst (Get goodEnv sampleClient (Scraper.overviewURL "ABCD") initial)
    = Ok "<html></html>"
  /\ length (requests (snd (Get goodEnv sampleClient
                              (Scraper.overviewURL "ABCD") initial))) = 1%nat
  /\ ~ permitBeforeRequest
         (trace (snd (Get goodEnv sampleClient
                        (Scraper.overviewURL "ABCD") initial))).
Proof.
  split; [vm_compute; reflexivity|]. split; [vm_compute; reflexivity|].
  intros Hp. edestruct (Hp 0%nat) as (j & Hj & _); [vm_compute; reflexivity|].
  lia.
Qed.

End FetchCounterexample.

(** ** The scrape orchestrator *)

Section ScrapeFacts.
Import Go Net OxyLabs Scraper ScrapeSpec.
Context `{Parser}.
Variable env : Env.

Lemma monitorCalls_emit (c : HealthMonitor.Call) (w : World) :
  monitorCalls (emit (EvMonitor c) w) = monitorCalls w ++ [c].
Proof. unfold monitorCalls, emit. simpl. by rewrite omap_app. Qed.

(** The client makes no call on the monitor. *)
Lemma Get_monitorCalls c url w :
  monitorCalls (snd (Get env c url w)) = monitorCalls w.
Proof.
  unfold Get, Do, monitorCalls.
  repeat case_match; simplify_eq; simpl; rewrite ?omap_app; simpl;
    by rewrite ?app_nil_r.
Qed.

Lemma individualRequests_monitorCalls c urls s w :
  monitorCalls (snd (individualRequests env c urls s w)) = monitorCalls w.
Proof.
  unfold individualRequests. revert s w.
  induction urls as [|url urls IH]; intros s w; [done|].
  simpl. pose proof (Get_monitorCalls c url w) as Hg.
  destruct (Get env c url w) as [[doc|err] w1]; rewrite IH; exact Hg.
Qed.

Lemma GetBatch_monitorCalls c urls w :
  monitorCalls (snd (GetBatch env c urls w)) = monitorCalls w.
Proof.
  unfold GetBatch, Do.
  repeat case_match; simplify_eq; simpl;
    rewrite ?individualRequests_monitorCalls;
    unfold monitorCalls; simpl; rewrite ?omap_app; simpl;
    by rewrite ?app_nil_r.
Qed.

Lemma failedPages_blocks fetched ticker :
  failedPages fetched ticker =
  failedPage fetched "overview" (overviewURL ticker)
  ++ failedPage fetched "financials" (financialsURL ticker)
  ++ failedPage fetched "disclosure" (disclosureURL ticker).
Proof.
  unfold failedPages, failedPage, pages. simpl.
  by destruct (docs fetched !! overviewURL ticker),
       (errors fetched !! overviewURL ticker),
       (docs fetched !! financialsURL ticker),
       (errors fetched !! financialsURL ticker),
       (docs fetched !! disclosureURL ticker),
       (errors fetched !! disclosureURL ticker).
Qed.

(** One page block: a failed page gets one failure call and one error
    string; any other page gets none. *)
Lemma processPage_effect label url ticker parse store fetched p :
  (forall m d, Errors (store m d) = Errors d /\ Ticker (store m d) = Ticker d) ->
  let p' := processPage env label url ticker parse store fetched p in
  exists calls,
    monitorCalls (world p') = monitorCalls (world p) ++ calls
    /\ monitor p' = foldl HealthMonitor.step (monitor p) calls
    /\ Forall2 (failureOf ticker) calls (failedPage fetched label url)
    /\ Errors (scraped p') = Errors (scraped p)
                             ++ map errorString (failedPage fetched label url)
    /\ Ticker (scraped p') = Ticker (scraped p)
    /\ (hasErrors p' = false ->
        hasErrors p = false /\ failedPage fetched label url = []).
Proof.
  intros Hstore p'. subst p'. unfold processPage, failedPage.
  destruct (docs fetched !! url) as [doc|].
  - exists []. simpl. destruct (Hstore (parse doc) (scraped p)) as [-> ->].
    by rewrite !app_nil_r.
  - destruct (errors fetched !! url) as [err|].
    + unfold recordFailure, Now. simpl.
      eexists [_]. rewrite monitorCalls_emit. simpl.
      split; [done|]. split; [done|]. split; [|done].
      constructor; [|constructor]. by eexists _, _.
    + exists []. simpl. by rewrite !app_nil_r.
Qed.



End ScrapeFacts.

Section ScrapeSamples.
Import Go Net OxyLabs Scraper ScrapeSpec Samples.
#[local] Existing Instance scraperLibrary.
#[local] Existing Instance sampleParser.

(** A scrape whose batch falls back to single fetches, of which one
    succeeds: two error strings, two failure calls, one success call. *)
Example scrape_after_fallback :
  let '((scraped, err), s', w') :=
    ScrapeTicker fallbackEnv sampleScraper "ABCD" initial in
  err = None
  /\ Errors scraped =
       ["financials: failed to perform request: context deadline exceeded";
        "disclosure: target page returned status code: 404"]
  /\ Overview scraped = {[ "overview" := VString "<html></html>" ]}
  /\ map (fun c => match c with
                   | HealthMonitor.CallRecordSuccess _ _ => "success"
                   | HealthMonitor.CallRecordFailure _ _ _ _ url => url
                   | HealthMonitor.CallReset => "reset"
                   end) (monitorCalls w')
     = [financialsURL "ABCD"; disclosureURL "ABCD"; "success"]
  /\ HealthMonitor.totalRequests (healthMonitor s') = 3
  /\ HealthMonitor.successfulRequests (healthMonitor s') = 1.
Proof. vm_compute. repeat split; reflexivity. Qed.

(** A scrape whose batch response decodes to one result for three URLs:
    two pages are in neither map, so no error string and no failure call
    stands for them, and the success call is made. *)
Example scrape_with_unaccounted_pages :
  let '((scraped, err), s', w') :=
    ScrapeTicker goodEnv sampleScraper "ABCD" initial in
  err = None
  /\ Errors scraped = []
  /\ Financials scraped = ∅ /\ Disclosure scraped = ∅
  /\ length (monitorCalls w') = 1%nat
  /\ HealthMonitor.successfulRequests (healthMonitor s') = 1
  /\ HealthMonitor.failedRequests (healthMonitor s') = 0.
Proof. vm_compute. repeat split; reflexivity. Qed.

End ScrapeSamples.

(** ** The scoring pipeline *)

Section PipelineFacts.
Import Go Pipeline PipelineSpec.

(** [start] while Running: a Conflict, and no change of state. *)
Lemma start_while_running config p :
  Running p ->
  Conflict (fst (Start config p)) /\ snd (Start config p) = p.
Proof. unfold Running, Start. intros ->. split; [by eexists|done]. Qed.

(** [stop] while not Running: a Conflict, and no change of state. *)
Lemma stop_while_stopped p :
  Stopped p -> Conflict (fst (Stop p)) /\ snd (Stop p) = p.
Proof. unfold Stopped, Stop. intros ->. split; [by eexists|done]. Qed.

(** [start] while not Running: Running, with exactly one loop launched. *)
Lemma start_while_stopped config p :
  Stopped p ->
  fst (Start config p) = Returned None
  /\ Running (snd (Start config p))
  /\ launched (snd (Start config p)) = launched p ++ [config]
  /\ wg (snd (Start config p)) = S (wg p).
Proof. unfold Stopped, Running, Start. by intros ->. Qed.

(** Two [start] calls in a row launch one loop only. *)
Lemma start_twice config1 config2 p :
  Stopped p ->
  Conflict (fst (Start config2 (snd (Start config1 p))))
  /\ launched (snd (Start config2 (snd (Start config1 p))))
     = launched p ++ [config1].
Proof. unfold Stopped, Start. intros ->. simpl. split; [by eexists|done]. Qed.

(** [stop] while Running, with the stop channel still open: Stopped. *)
Lemma stop_while_running_open p :
  Running p -> stopChan p = Open ->
  fst (Stop p) = Returned None
  /\ Stopped (snd (Stop p))
  /\ stopChan (snd (Stop p)) = Closed
  /\ wg (snd (Stop p)) = 0%nat.
Proof. unfold Running, Stopped, Stop. by intros -> ->. Qed.

(** [stop] while Running, with the stop channel already closed: a panic,
    and the pipeline stays Running. *)
Lemma stop_while_running_closed p :
  Running p -> stopChan p = Closed ->
  fst (Stop p) = Panicked "close of closed channel" /\ snd (Stop p) = p.
Proof. unfold Running, Stop. by intros -> ->. Qed.

(** C5, at the failing input: after start, stop, start, the pipeline is
    Running, yet [stop] does not return a Conflict and does not reach
    Stopped: it panics on closing the closed stop channel, and the
    pipeline stays Running. *)
Theorem restart_then_stop_panics config :
  let p := after [CallStart config; CallStop; CallStart config]
             NewScoringPipeline in
  outcomes [CallStart config; CallStop; CallStart config] NewScoringPipeline
    = [Returned None; Returned None; Returned None]
  /\ Running p
  /\ fst (Stop p) = Panicked "close of closed channel"
  /\ ~ Conflict (fst (Stop p))
  /\ ~ Stopped (snd (Stop p)).
Proof.
  simpl. unfold Running, Stopped, Conflict. simpl.
  split; [done|]. split; [done|]. split; [done|].
  split; [by intros [msg Hmsg]|done].
Qed.

(** A closed stop channel stays closed: nothing makes a new one. *)
Lemma closed_forever cs p :
  stopChan p = Closed -> stopChan (after cs p) = Closed.
Proof.
  unfold after. revert p. induction cs as [|c cs IH]; intros p Hc; [done|].
  simpl. apply IH. destruct c as [config| |]; simpl; [| |done].
  - unfold Start. by destruct (isRunning p).
  - unfold Stop. destruct (isRunning p); simpl; [|done]. by rewrite Hc.
Qed.

(** A Running pipeline whose stop channel is closed stays Running. *)
Lemma running_forever cs p :
  stopChan p = Closed -> Running p -> Running (after cs p).
Proof.
  unfold after, Running. revert p.
  induction cs as [|c cs IH]; intros p Hc Hr; [done|].
  simpl. destruct c as [config| |]; simpl.
  - unfold Start. rewrite Hr. by apply IH.
  - unfold Stop. rewrite Hr, Hc. by apply IH.
  - by apply IH.
Qed.

(** The loop of a pipeline whose stop channel is closed. *)
Lemma selectLoop_closed ticks n :
  selectLoop (closedSchedule ticks) n =
  ((n + ticksTaken ticks)%nat,
   if (ticksTaken ticks <? length ticks)%nat then Exited else Waiting).
Proof.
  revert n. induction ticks as [|[pending pick] ticks IH]; intros n; simpl.
  - by rewrite Nat.add_0_r.
  - destruct pending, pick; simpl; rewrite ?Nat.add_0_r; try done.
    rewrite IH. f_equal. lia.
Qed.

(** C10 (amended). The stop channel is made once, by
    [NewScoringPipeline], and is closed by the first successful [Stop].
    So after a successful [Stop] followed, at any later point, by a
    successful [Start], the channel is closed and stays closed, and the
    pipeline reports isRunning=true from then on, whatever is called.
    The loop that this [Start] launches finds the stop case ready at
    every check: it runs its immediate cycle (none if the interval is
    not positive, where the ticker panics), then one periodic cycle for
    each check at which a tick is already waiting and the runtime's
    choice takes the tick, and it exits at the first other check; with
    no tick waiting at the first check it runs no periodic cycle. *)
Theorem restarted_loop (pre mid post : list Call) (config : PipelineConfig)
    (ticks : list (bool * bool)) :
  let p1 := after pre NewScoringPipeline in
  fst (Stop p1) = Returned None ->
  let p2 := after mid (snd (Stop p1)) in
  fst (Start config p2) = Returned None ->
  let p3 := snd (Start config p2) in
  let run := runPipeline config (closedSchedule ticks) in
  stopChan p3 = Closed
  /\ last (launched p3) = Some config
  /\ stopChan (after post p3) = Closed
  /\ IsRunning (after post p3) = true
  /\ run =
     (if wrap64 (wrap64 (IntervalMinutes config) * Minute) <=? 0
      then {| immediateCycles := 0; periodicCycles := 0; ending := Crashed |}
      else {| immediateCycles := 1;
              periodicCycles := ticksTaken ticks;
              ending := if (ticksTaken ticks <? length ticks)%nat
                        then Exited else Waiting |})
  /\ (immediateCycles run <= 1)%nat
  /\ (forall pick rest, ticks = (false, pick) :: rest ->
        periodicCycles run = 0%nat /\ ending run <> Waiting).
Proof.
  intros p1 Hstop p2 Hstart p3 run.
  assert (stopChan (snd (Stop p1)) = Closed) as Hclosed1.
  { unfold Stop in *. destruct (isRunning p1); [|done].
    by destruct (stopChan p1). }
  assert (stopChan p2 = Closed) as Hclosed2 by by apply closed_forever.
  assert (isRunning p2 = false) as Hstopped.
  { unfold Start in Hstart. by destruct (isRunning p2). }
  assert (stopChan p3 = Closed) as Hclosed3.
  { subst p3. unfold Start. by rewrite Hstopped. }
  assert (Running p3) as Hrun3.
  { subst p3. unfold Running, Start. by rewrite Hstopped. }
  assert (run =
     (if wrap64 (wrap64 (IntervalMinutes config) * Minute) <=? 0
      then {| immediateCycles := 0; periodicCycles := 0; ending := Crashed |}
      else {| immediateCycles := 1;
              periodicCycles := ticksTaken ticks;
              ending := if (ticksTaken ticks <? length ticks)%nat
                        then Exited else Waiting |})) as Hloop.
  { subst run. unfold runPipeline. by rewrite selectLoop_closed. }
  split; [done|]. split.
  { subst p3. unfold Start. rewrite Hstopped. simpl. apply last_snoc. }
  split; [by apply closed_forever|].
  split; [by apply running_forever|].
  split; [done|]. rewrite Hloop. split.
  - destruct (_ <=? 0); simpl; lia.
  - intros pick rest ->. by destruct (_ <=? 0).
Qed.

(** The restart theorem at start, stop, start with the default
    configuration and no tick waiting at the first check: one immediate
    cycle, no periodic cycle, exit; the pipeline still reports Running,
    also after a further [Stop]. *)
Lemma restarted_loop_witness :
  let p3 := after Samples.restart NewScoringPipeline in
  let run := runPipeline DefaultPipelineConfig (closedSchedule [(false, false)]) in
  fst (Stop (after [CallStart DefaultPipelineConfig] NewScoringPipeline))
    = Returned None
  /\ stopChan p3 = Closed
  /\ IsRunning (after [CallStop] p3) = true
  /\ run = {| immediateCycles := 1; periodicCycles := 0; ending := Exited |}.
Proof.
  destruct (restarted_loop [CallStart DefaultPipelineConfig] [] [CallStop]
              DefaultPipelineConfig [(false, false)] eq_refl eq_refl)
    as (Hc & _ & _ & Hr & Hrun & _).
  split; [reflexivity|]. split; [exact Hc|]. split; [exact Hr|exact Hrun].
Defined.

(** C10, as stated, fails: after start, stop, start, the loop finds a
    tick waiting at its first check (the immediate cycle outlasted the
    interval) and the runtime takes the tick, so a periodic cycle runs
    before the loop exits. *)
Lemma restarted_loop_runs_periodic_cycle :
  let p3 := after Samples.restart NewScoringPipeline in
  let run := runPipeline DefaultPipelineConfig
               (closedSchedule [(true, true); (true, false)]) in
  outcomes Samples.restart NewScoringPipeline
    = [Returned None; Returned None; Returned None]
  /\ stopChan p3 = Closed
  /\ IsRunning p3 = true
  /\ run = {| immediateCycles := 1; periodicCycles := 1; ending := Exited |}
  /\ ~ exitsAtFirstCheck run.
Proof.
  repeat split; try reflexivity.
  intros [_ Hp]. vm_compute in Hp. discriminate Hp.
Qed.

End PipelineFacts.

(** ** More on the health monitor *)

Section HealthMonitorMore.
Import Go HealthMonitor HealthSpec.

(** All counters stay between 0 and the number of calls. *)
Lemma run_all_counters (cs : list Call) :
  Z.of_nat (length cs) < 2 ^ 63 ->
  let h := run cs in
  totalRequests h = successfulRequests h + failedRequests h
  /\ 0 <= successfulRequests h
  /\ 0 <= consecutiveFailures h <= failedRequests h
  /\ Z.of_nat (length (recentFailures h)) <= failedRequests h
  /\ totalRequests h <= Z.of_nat (length cs).
Proof.
  induction cs as [|c cs IH] using rev_ind; [simpl; lia|].
  rewrite length_app, run_snoc. simpl length. intros Hlen.
  destruct IH as (Ht & Hs & Hc & Hr & Hb); [lia|].
  destruct (run_constants cs) as (Hmax & _ & _).
  destruct c; simpl; rewrite ?Hmax, ?wrap64_succ; unfold int64_max;
    try lia.
  rewrite length_app. simpl length.
  case_match; rewrite ?length_drop, ?length_app; simpl length; lia.
Qed.

(** X1. After any sequence of fewer than 2^63 calls on a fresh monitor,
    totalRequests = successfulRequests + failedRequests, the
    consecutive-failure count lies between 0 and failedRequests, and the
    ring holds no more records than failedRequests. *)
Theorem monitor_counters_consistent (cs : list Call) :
  Z.of_nat (length cs) < 2 ^ 63 ->
  let h := run cs in
  totalRequests h = successfulRequests h + failedRequests h
  /\ 0 <= successfulRequests h
  /\ 0 <= consecutiveFailures h <= failedRequests h
  /\ Z.of_nat (length (recentFailures h)) <= failedRequests h.
Proof.
  intros Hlen h. destruct (run_all_counters cs Hlen) as (? & ? & ? & ? & _).
  done.
Qed.

Lemma monitor_counters_witness :
  Z.of_nat (length Samples.sixFailures) < 2 ^ 63
  /\ totalRequests (run Samples.sixFailures)
     = successfulRequests (run Samples.sixFailures)
       + failedRequests (run Samples.sixFailures).
Proof.
  assert (Z.of_nat (length Samples.sixFailures) < 2 ^ 63) as Hlen
    by (vm_compute; reflexivity).
  split; [exact Hlen|].
  exact (proj1 (monitor_counters_consistent Samples.sixFailures Hlen)).
Defined.

(** Pattern analysis only appends, and as many actions as issues. *)
Lemma analyzeFailurePatterns_appends (h : t) (issues actions : list string) :
  exists issues' actions',
    analyzeFailurePatterns h issues actions = (issues ++ issues', actions ++ actions')
    /\ length issues' = length actions'.
Proof.
  unfold analyzeFailurePatterns.
  case_match; [exists [], []; by rewrite !app_nil_r|].
  generalize (countErrors (recentFailures h)) as errorCounts.
  generalize (Z.of_nat (length (recentFailures h))) as totalRecent.
  intros totalRecent errorCounts.
  generalize ["timeout"; "rate_limit"; "authentication"; "network"; "other"]%string.
  intros order. revert issues actions.
  induction order as [|c order IH]; intros issues actions.
  - exists [], []. by rewrite !app_nil_r.
  - simpl.
    destruct (errorCounts !! c) as [count|]; [|apply IH].
    destruct (_ <? _)%float; [|apply IH].
    destruct (patternAdvice c) as [[issue action]|]; [|apply IH].
    destruct (IH (issues ++ [issue]) (actions ++ [action]))
      as (issues' & actions' & -> & Hlen).
    exists (issue :: issues'), (action :: actions').
    rewrite <- !(assoc_L (++)). simpl. by rewrite Hlen.
Qed.

(** A run of failures adds its length to the consecutive count. *)
Lemma consecutive_after_failures (cs fs : list Call) :
  Forall (fun c => match c with CallRecordFailure _ _ _ _ _ => True | _ => False end) fs ->
  Z.of_nat (length (cs ++ fs)) < 2 ^ 63 ->
  consecutiveFailures (run (cs ++ fs))
  = consecutiveFailures (run cs) + Z.of_nat (length fs).
Proof.
  induction fs as [|f fs IH] using rev_ind; intros Hall Hlen.
  - rewrite app_nil_r. simpl. lia.
  - apply Forall_app in Hall as [Hall Hf%Forall_inv].
    rewrite (assoc_L (++)), run_snoc.
    rewrite (assoc_L (++)), length_app in Hlen. simpl length in Hlen.
    destruct f; simpl in Hf; try done.
    destruct (run_all_counters (cs ++ fs)) as (Ht & Hs & Hc & _ & Hb); [lia|].
    rewrite length_app, Nat2Z.inj_add, Z.add_assoc, <- IH by (done || lia).
    simpl step. simpl consecutiveFailures at 1.
    rewrite wrap64_succ by (unfold int64_max; lia). simpl length. lia.
Qed.

(** X2. Whatever was recorded before, five or more failures in a row
    make the status unhealthy, with the issue "Multiple consecutive
    failures detected", at every clock reading; one success recorded
    after them brings the consecutive count back to 0. *)
Theorem consecutive_failures_unhealthy (cs fs : list Call) (now t : Time)
    (ticker : string) :
  Forall (fun c => match c with CallRecordFailure _ _ _ _ _ => True | _ => False end) fs ->
  (5 <= length fs)%nat ->
  Z.of_nat (length (cs ++ fs)) < 2 ^ 63 ->
  let st := GetHealthStatus now (run (cs ++ fs)) in
  IsHealthy st = false
  /\ "Multiple consecutive failures detected"%string ∈ HealthIssues st
  /\ consecutiveFailures (run (cs ++ fs ++ [CallRecordSuccess t ticker])) = 0.
Proof.
  intros Hall Hfive Hlen st.
  pose proof (consecutive_after_failures cs fs Hall Hlen) as Hcons.
  destruct (run_all_counters cs) as (_ & _ & Hc & _ & _).
  { rewrite length_app in Hlen. lia. }
  assert (consecutiveCheck (run (cs ++ fs)) = true) as Hcheck.
  { unfold consecutiveCheck. destruct (run_constants (cs ++ fs)) as (_ & _ & ->).
    apply Z.leb_le. lia. }
  split; [|split].
  - subst st. rewrite IsHealthy_checks, Hcheck. by rewrite orb_true_r.
  - subst st. unfold GetHealthStatus. rewrite Hcheck.
    destruct (failureRateCheck _ _), (staleCheck _ _);
      match goal with
      | |- context [analyzeFailurePatterns ?h ?i ?a] =>
          destruct (analyzeFailurePatterns_appends h i a)
            as (issues' & actions' & -> & _)
      end; simpl; rewrite ?elem_of_app, ?elem_of_cons; auto 6.
  - by rewrite (assoc_L (++)), run_snoc.
Qed.

Lemma consecutive_failures_witness :
  IsHealthy (GetHealthStatus Samples.sampleNoon (run ([] ++ Samples.sixFailures)))
  = false.
Proof.
  refine (proj1 (consecutive_failures_unhealthy [] Samples.sixFailures
                   Samples.sampleNoon Samples.sampleNoon "TICKER" _ _ _)).
  - unfold Samples.sixFailures. repeat constructor.
  - vm_compute. lia.
  - vm_compute. reflexivity.
Defined.

(** X3. [Reset] brings any monitor reached from a fresh one back to the
    fresh monitor: all counters 0, both timestamps cleared, the ring
    empty, and its status healthy with rate 1.0, no timestamps, no
    issues and no actions. *)
Theorem reset_restores_fresh_monitor (cs : list Call) (now : Time) :
  Reset (run cs) = NewHealthMonitor
  /\ run (cs ++ [CallReset]) = NewHealthMonitor
  /\ GetHealthStatus now (Reset (run cs)) =
     {| IsHealthy := true; TotalRequests := 0; SuccessfulRequests := 0;
        FailedRequests := 0; SuccessRate := 1%float; ConsecutiveFailures := 0;
        LastFailureTime := None; LastSuccessTime := None;
        RecentFailures := []; HealthIssues := []; RecommendedActions := [] |}.
Proof.
  assert (Reset (run cs) = NewHealthMonitor) as Hreset.
  { unfold Reset. by destruct (run_constants cs) as (-> & -> & ->). }
  split; [done|]. split; [by rewrite run_snoc|].
  by rewrite Hreset.
Qed.

(** X4. In every status, of any monitor at any clock reading, the list
    of recommended actions is as long as the list of issues, and an
    unhealthy status lists at least one issue. *)
Theorem status_issues_and_actions (now : Time) (h : t) :
  let st := GetHealthStatus now h in
  length (RecommendedActions st) = length (HealthIssues st)
  /\ (IsHealthy st = false -> HealthIssues st <> []).
Proof.
  unfold GetHealthStatus.
  destruct (failureRateCheck _ _), (consecutiveCheck _), (staleCheck _ _);
    match goal with
    | |- context [analyzeFailurePatterns ?h ?i ?a] =>
        destruct (analyzeFailurePatterns_appends h i a)
          as (issues' & actions' & -> & Hlen)
    end; simpl; rewrite ?length_app, ?Hlen; simpl;
    (split; [lia|]); try done; intros _ Hnil;
    apply (f_equal length) in Hnil; rewrite ?length_app in Hnil; simpl in Hnil; lia.
Qed.

End HealthMonitorMore.

(** ** The pattern analysis and the order of map iteration *)

Section HealthRangeFacts.
Import Go HealthMonitor HealthRange.

Lemma countErrors_snoc (ring : list FailureRecord) (f : FailureRecord) :
  countErrors (ring ++ [f]) =
  <[categorizeError (Error f) :=
      wrap64 (default 0 (countErrors ring !! categorizeError (Error f)) + 1)]>
    (countErrors ring).
Proof. unfold countErrors. by rewrite foldl_app. Qed.

Lemma categoryCount_snoc (c : string) (ring : list FailureRecord)
    (f : FailureRecord) :
  categoryCount c (ring ++ [f]) =
  categoryCount c ring + (if decide (categorizeError (Error f) = c) then 1 else 0).
Proof.
  unfold categoryCount. rewrite filter_app, length_app, Nat2Z.inj_add. f_equal.
  destruct (decide (categorizeError (Error f) = c)) as [Heq|Hne].
  - by rewrite filter_cons_True.
  - by rewrite filter_cons_False.
Qed.

Lemma categoryCount_bounds (c : string) (ring : list FailureRecord) :
  0 <= categoryCount c ring <= Z.of_nat (length ring).
Proof.
  unfold categoryCount. pose proof (length_filter (fun f => categorizeError (Error f) = c) ring).
  lia.
Qed.

(** The map built by the counting loop holds, for each category, the
    number of records of that category, and no entry for a category
    without records. *)
Lemma countErrors_lookup (ring : list FailureRecord) (c : string) :
  Z.of_nat (length ring) < 2 ^ 63 ->
  countErrors ring !! c =
  if decide (categoryCount c ring = 0) then None else Some (categoryCount c ring).
Proof.
  induction ring as [|f ring IH] using rev_ind; intros Hlen; [done|].
  rewrite length_app in Hlen. simpl length in Hlen.
  rewrite countErrors_snoc, categoryCount_snoc.
  pose proof (categoryCount_bounds c ring) as Hb.
  destruct (decide (categorizeError (Error f) = c)) as [Heq|Hne].
  - rewrite Heq, lookup_insert_eq, IH by lia.
    destruct (decide (categoryCount c ring = 0)) as [H0|H0]; simpl.
    + rewrite H0. by rewrite wrap64_succ by (unfold int64_max; lia).
    + rewrite wrap64_succ by (unfold int64_max; lia).
      destruct (decide _); [lia|done].
  - rewrite lookup_insert_ne, IH by (done || lia).
    by rewrite Z.add_0_r.
Qed.

(** Two different categories share the ring. *)
Lemma categoryCount_disjoint (c1 c2 : string) (ring : list FailureRecord) :
  c1 <> c2 ->
  categoryCount c1 ring + categoryCount c2 ring <= Z.of_nat (length ring).
Proof.
  intros Hne. induction ring as [|f ring IH] using rev_ind; [done|].
  rewrite !categoryCount_snoc, length_app. simpl length.
  repeat destruct (decide _); subst; try done; lia.
Qed.

(** For rings of up to 50 records the float64 test "more than half" is
    the exact test total < 2 * count. *)
Lemma half_grid :
  forallb (fun total =>
             forallb (fun count =>
                        Bool.eqb
                          (f0_5 <? float64_of_int count / float64_of_int total)%float
                          (total <? 2 * count))
                     (seqZ 0 (total + 1)))
          (seqZ 1 50) = true.
Proof. vm_compute. reflexivity. Qed.

Lemma more_than_half_exact (count total : Z) :
  0 <= count <= total -> 0 < total <= 50 ->
  (f0_5 <? float64_of_int count / float64_of_int total)%float
  = (total <? 2 * count).
Proof.
  intros Hs Ht. pose proof half_grid as Hgrid.
  rewrite forallb_forall in Hgrid.
  specialize (Hgrid total). rewrite <- list_elem_of_In, elem_of_seqZ in Hgrid.
  specialize (Hgrid ltac:(lia)). rewrite forallb_forall in Hgrid.
  specialize (Hgrid count).
  rewrite <- list_elem_of_In, elem_of_seqZ in Hgrid.
  specialize (Hgrid ltac:(lia)). by apply eqb_prop in Hgrid.
Qed.

(** At most one key makes the loop body append. *)
Lemma fires_unique (ring : list FailureRecord) (c1 c2 : string) :
  (length ring <= 50)%nat ->
  fires (countErrors ring) (Z.of_nat (length ring)) c1 = true ->
  fires (countErrors ring) (Z.of_nat (length ring)) c2 = true ->
  c1 = c2.
Proof.
  intros Hlen H1 H2. unfold fires in *.
  rewrite !countErrors_lookup in * by lia.
  destruct (decide (categoryCount c1 ring = 0)) as [|Hn1]; [done|].
  destruct (decide (categoryCount c2 ring = 0)) as [|Hn2]; [done|].
  apply andb_true_iff in H1 as [H1 _]. apply andb_true_iff in H2 as [H2 _].
  pose proof (categoryCount_bounds c1 ring) as Hb1.
  pose proof (categoryCount_bounds c2 ring) as Hb2.
  rewrite more_than_half_exact in H1, H2 by lia.
  apply Z.ltb_lt in H1, H2.
  destruct (decide (c1 = c2)) as [|Hne]; [done|].
  pose proof (categoryCount_disjoint c1 c2 ring Hne). lia.
Qed.

Lemma patternStep_fires (m : gmap string Z) (total : Z)
    (acc : list string * list string) (c : string) :
  patternStep m total acc c =
  if fires m total c
  then match patternAdvice c with
       | Some (issue, action) => (acc.1 ++ [issue], acc.2 ++ [action])
       | None => acc
       end
  else acc.
Proof.
  unfold patternStep, fires. destruct acc as [issues actions].
  destruct (m !! c) as [count|]; [|done].
  destruct (_ <? _)%float; [|done].
  destruct (patternAdvice c) as [[issue action]|]; [|done].
  rewrite bool_decide_eq_true_2; [done|by eexists].
Qed.

Lemma patternStep_quiet (m : gmap string Z) (total : Z) (order : list string)
    (acc : list string * list string) :
  (forall c, c ∈ order -> fires m total c = false) ->
  foldl (patternStep m total) acc order = acc.
Proof.
  revert acc. induction order as [|c order IH]; intros acc Hq; [done|].
  simpl. rewrite patternStep_fires, Hq by apply list_elem_of_here.
  apply IH. intros c' Hc'. apply Hq. by apply list_elem_of_further.
Qed.

(** The loop appends for the one firing key among those visited, or
    not at all. *)
Lemma patternStep_fold (m : gmap string Z) (total : Z) (order : list string)
    (acc : list string * list string) :
  NoDup order ->
  (forall c1 c2, fires m total c1 = true -> fires m total c2 = true -> c1 = c2) ->
  foldl (patternStep m total) acc order =
  match List.find (fires m total) order with
  | Some c => patternStep m total acc c
  | None => acc
  end.
Proof.
  intros Hnd Huniq. revert acc.
  induction order as [|c order IH]; intros acc; [done|].
  apply NoDup_cons in Hnd as [Hnotin Hnd]. simpl.
  destruct (fires m total c) eqn:Hc.
  - apply patternStep_quiet. intros c' Hc'.
    destruct (fires m total c') eqn:Hc''; [|done].
    rewrite (Huniq c c' Hc Hc'') in Hnotin. done.
  - rewrite patternStep_fires, Hc. by apply IH.
Qed.

Lemma find_fires (m : gmap string Z) (total : Z) (order : list string) (c : string) :
  (forall c1 c2, fires m total c1 = true -> fires m total c2 = true -> c1 = c2) ->
  fires m total c = true -> c ∈ order ->
  List.find (fires m total) order = Some c.
Proof.
  intros Huniq Hc Hin.
  destruct (List.find (fires m total) order) as [c'|] eqn:Hfind.
  - apply find_some in Hfind as [_ Hc']. by rewrite (Huniq c c').
  - apply list_elem_of_In in Hin.
    pose proof (find_none _ _ Hfind c Hin) as Hn. congruence.
Qed.

Lemma find_fires_None (m : gmap string Z) (total : Z) (order : list string) :
  (forall c, c ∈ order -> fires m total c = false) ->
  List.find (fires m total) order = None.
Proof.
  intros Hq. destruct (List.find (fires m total) order) as [c'|] eqn:Hfind; [|done].
  apply find_some in Hfind as [Hin Hc']. apply list_elem_of_In in Hin.
  rewrite Hq in Hc'; done.
Qed.

(** A key with advice is one of the four named categories. *)
Lemma patternAdvice_keys (c : string) :
  is_Some (patternAdvice c) ->
  c ∈ ["timeout"; "rate_limit"; "authentication"; "network"; "other"]%string.
Proof.
  unfold patternAdvice, eqb_string. intros [x Hx].
  repeat (case_bool_decide; [subst; set_solver|]). done.
Qed.

(** The model of [analyzeFailurePatterns] visits the keys in one fixed
    order. *)
Lemma analyzeFailurePatterns_fixed_order (h : t) (issues actions : list string) :
  analyzeFailurePatterns h issues actions =
  analyzeFailurePatternsIn
    ["timeout"; "rate_limit"; "authentication"; "network"; "other"]%string
    h issues actions.
Proof. reflexivity. Qed.

(** X5. On every monitor reached from a fresh one, the issues and
    actions that the pattern analysis appends do not depend on the order
    in which Go's runtime visits the keys of errorCounts, and at most one
    issue (with its action) is appended. *)
Theorem pattern_analysis_order_free (cs : list Call) (order : list string)
    (issues actions : list string) :
  keyOrder (run cs) order ->
  analyzeFailurePatternsIn order (run cs) issues actions
  = analyzeFailurePatterns (run cs) issues actions
  /\ exists issue action,
       (length issue <= 1)%nat /\ length action = length issue
       /\ analyzeFailurePatterns (run cs) issues actions
          = (issues ++ issue, actions ++ action).
Proof.
  intros Hperm. unfold keyOrder in Hperm.
  rewrite !analyzeFailurePatterns_fixed_order. unfold analyzeFailurePatternsIn.
  pose proof (ring_is_window cs) as Hw.
  pose proof (mostRecent_length 50 (HealthSpec.arrivals cs)) as Hlen.
  rewrite <- Hw in Hlen.
  set (ring := recentFailures (run cs)) in *.
  case_match; [split; [done|]; exists [], []; rewrite !app_nil_r; auto|].
  set (m := countErrors ring). set (total := Z.of_nat (length ring)).
  assert (forall c1 c2, fires m total c1 = true -> fires m total c2 = true -> c1 = c2)
    as Huniq by (intros c1 c2; by apply fires_unique).
  assert (NoDup order) as Hnd.
  { rewrite Hperm. apply NoDup_fst_map_to_list. }
  assert (NoDup ["timeout"; "rate_limit"; "authentication"; "network"; "other"]%string)
    as Hnd5 by (apply (bool_decide_unpack _); vm_compute; reflexivity).
  rewrite !patternStep_fold by done.
  assert (forall c, fires m total c = true ->
            c ∈ order
            /\ c ∈ ["timeout"; "rate_limit"; "authentication"; "network"; "other"]%string)
    as Hin.
  { intros c Hc. unfold fires in Hc.
    destruct (m !! c) as [count|] eqn:Hm; [|done].
    apply andb_true_iff in Hc as [_ Hadv%bool_decide_eq_true_1]. split.
    - rewrite Hperm. apply list_elem_of_fmap. exists (c, count). split; [done|].
      by apply elem_of_map_to_list.
    - by apply patternAdvice_keys. }
  destruct (List.find (fires m total)
              ["timeout"; "rate_limit"; "authentication"; "network"; "other"]%string)
    as [c|] eqn:Hfind.
  - pose proof (find_some _ _ Hfind) as [_ Hc].
    destruct (Hin c Hc) as [Hin1 _].
    rewrite (find_fires m total order c) by done. split; [done|].
    rewrite patternStep_fires, Hc. simpl.
    destruct (patternAdvice c) as [[issue action]|].
    + by exists [issue], [action].
    + exists [], []. rewrite !app_nil_r. auto.
  - rewrite find_fires_None.
    + split; [done|]. exists [], []. rewrite !app_nil_r. auto.
    + intros c _. destruct (fires m total c) eqn:Hc; [|done].
      destruct (Hin c Hc) as [_ Hin5]. apply list_elem_of_In in Hin5.
      pose proof (find_none _ _ Hfind c Hin5). congruence.
Qed.

Lemma pattern_analysis_witness :
  analyzeFailurePatternsIn
    (map_to_list (countErrors (recentFailures (run Samples.sixFailures)))).*1
    (run Samples.sixFailures) [] []
  = analyzeFailurePatterns (run Samples.sixFailures) [] [].
Proof.
  exact (proj1 (pattern_analysis_order_free Samples.sixFailures
                  (map_to_list (countErrors (recentFailures (run Samples.sixFailures)))).*1
                  [] [] (reflexivity _))).
Defined.

End HealthRangeFacts.

(** ** More on the scoring engine *)

Section EngineFieldsFacts.
Import Go Engine EngineSpec EngineFields.
Context `{Library}.

(** A field outside the computed ones goes to the second switch. *)
Lemma evaluateCondition_stored now data field operator expected :
  field ∉ computedFields ->
  evaluateCondition now data field operator expected =
  match data !! field with
  | None => (false, VNil)
  | Some actualValue =>
      (standardField actualValue operator expected, actualValue)
  end.
Proof.
  intros Hnc. unfold evaluateCondition, eqb_string.
  repeat (case_bool_decide as Hf;
          [exfalso; apply Hnc; rewrite Hf;
           apply (bool_decide_unpack _); vm_compute; reflexivity|clear Hf]).
  done.
Qed.

(** X6. A condition on a field that is not computed and is absent from
    the snapshot never matches, whatever the operator (the negated ones
    not_equals, not_in and is_false included) and the literal; the value
    reported is nil. *)
Theorem absent_field_never_matches now data field operator expected :
  field ∉ computedFields ->
  data !! field = None ->
  evaluateCondition now data field operator expected = (false, VNil).
Proof. intros Hnc Hd. by rewrite evaluateCondition_stored, Hd. Qed.

(** X7. A condition whose operator is none of the twelve known ones
    never matches on a stored field; the stored value is reported. *)
Theorem unknown_operator_never_matches now data field operator expected v :
  field ∉ computedFields ->
  data !! field = Some v ->
  operator ∉ operators ->
  evaluateCondition now data field operator expected = (false, v).
Proof.
  intros Hnc Hd Hop. rewrite evaluateCondition_stored, Hd by done.
  unfold standardField, eqb_string.
  repeat (case_bool_decide as Hf;
          [exfalso; apply Hop; rewrite Hf;
           apply (bool_decide_unpack _); vm_compute; reflexivity|clear Hf]).
  done.
Qed.

(** X8. The four numeric comparisons never match when the stored value
    or the literal is not a number (a string of digits or a date string
    is not one). *)
Theorem comparison_needs_numbers now data field operator expected v :
  field ∉ computedFields ->
  data !! field = Some v ->
  operator ∈ comparisonOperators ->
  numeric v = false \/ numeric expected = false ->
  evaluateCondition now data field operator expected = (false, v).
Proof.
  intros Hnc Hd Hop Hnum. rewrite evaluateCondition_stored, Hd by done.
  f_equal. unfold comparisonOperators in Hop.
  assert (forall op, compareNumbers v expected op = false) as Hcmp.
  { intros op. unfold compareNumbers.
    destruct Hnum as [Hn|Hn]; [destruct v|destruct expected];
      try discriminate Hn; simpl; try done;
      by destruct (toFloat64 _) as [? []]. }
  repeat (apply elem_of_cons in Hop as [->|Hop]; [by apply Hcmp|]).
  by apply elem_of_nil in Hop.
Qed.

(** X9. On a stored field, not_equals is the negation of equals and
    not_in the negation of in; is_false is the negation of is_true on a
    stored bool, while on a stored string other than "true" and "false"
    neither is_true nor is_false matches. *)
Theorem negated_operators now data field expected v :
  field ∉ computedFields ->
  data !! field = Some v ->
  fst (evaluateCondition now data field "not_equals" expected)
  = negb (fst (evaluateCondition now data field "equals" expected))
  /\ fst (evaluateCondition now data field "not_in" expected)
     = negb (fst (evaluateCondition now data field "in" expected))
  /\ (forall b, v = VBool b ->
        fst (evaluateCondition now data field "is_false" expected)
        = negb (fst (evaluateCondition now data field "is_true" expected)))
  /\ (forall s, v = VString s -> s <> "true"%string -> s <> "false"%string ->
        fst (evaluateCondition now data field "is_true" expected) = false
        /\ fst (evaluateCondition now data field "is_false" expected) = false).
Proof.
  intros Hnc Hd. rewrite !evaluateCondition_stored, !Hd by done.
  repeat split.
  - by intros b ->.
  - subst v. simpl. unfold standardField, eqb_string. simpl.
    by rewrite bool_decide_eq_false_2.
  - subst v. simpl. unfold standardField, eqb_string. simpl.
    by rewrite bool_decide_eq_false_2.
Qed.

(** X10. A computed field is answered from its source keys alone: a
    value stored in the snapshot under the computed field's own name,
    the operator and the literal all play no part. *)
Theorem computed_field_ignores_stored_flag now data field v
    operator expected operator' expected' :
  field ∈ computedFields ->
  evaluateCondition now (<[field := v]> data) field operator expected
  = evaluateCondition now data field operator' expected'.
Proof.
  intros Hc. unfold computedFields in Hc.
  repeat (apply elem_of_cons in Hc as [->|Hc];
          [unfold evaluateCondition, eqb_string; simpl;
           unfold evaluateDelinquency, evaluateMarketTierRisk,
             evaluateDescriptionKeywords, evaluateAsianManagement,
             getOfficerLocations, evaluateActiveTransferAgent,
             evaluateDomainMatch, evaluateAuditorPresent, index;
           by rewrite ?lookup_insert_ne by done|]).
  by apply elem_of_nil in Hc.
Qed.

(** X11. When their source keys are absent from the snapshot, the
    computed text fields do not match (market tier, description
    keywords, management location, transfer agent, domain, auditor),
    whereas no_verified_profile matches when profile_verified is absent
    or is not a bool. *)
Theorem computed_fields_without_sources now data operator expected :
  (data !! "market_tier" = None ->
   fst (evaluateCondition now data "pink_limited_or_expert" operator expected) = false)
  /\ (data !! "description" = None ->
      fst (evaluateCondition now data "reverse_merger_shell" operator expected) = false
      /\ fst (evaluateCondition now data "cannabis_or_crypto" operator expected) = false
      /\ fst (evaluateCondition now data "holding_company_or_spac" operator expected)
         = false)
  /\ (data !! "officers" = None -> data !! "address" = None ->
      fst (evaluateCondition now data "asian_management" operator expected) = false)
  /\ (data !! "transfer_agent" = None ->
      fst (evaluateCondition now data "active_transfer_agent" operator expected) = false)
  /\ (data !! "website" = None \/ data !! "company_name" = None ->
      fst (evaluateCondition now data "domain_linked_to_company" operator expected)
      = false)
  /\ (data !! "auditor" = None ->
      fst (evaluateCondition now data "auditor_identified" operator expected) = false)
  /\ ((forall b, data !! "profile_verified" <> Some (VBool b)) ->
      evaluateCondition now data "no_verified_profile" operator expected
      = (true, VBool false)).
Proof.
  unfold evaluateCondition, eqb_string; simpl.
  unfold evaluateMarketTierRisk, evaluateDescriptionKeywords,
    evaluateAsianManagement, evaluateActiveTransferAgent, evaluateDomainMatch,
    evaluateAuditorPresent, index.
  split; [by intros ->|].
  split; [intros Hd; by rewrite Hd|].
  split; [by intros -> ->|].
  split; [by intros ->|].
  split; [intros [-> | ->]; [done|]; by destruct (data !! "website")|].
  split; [by intros ->|].
  intros Hb. destruct (data !! "profile_verified") as [[]|] eqn:Hp; try done.
  by destruct (Hb b).
Qed.

(** *** The rules of [ScoreCompany] *)

Lemma applyRule_effect now data r rule :
  RequirementsMet (applyRule now data r rule) = RequirementsMet r
  /\ Qualified (applyRule now data r rule) = Qualified r
  /\ Score (applyRule now data r rule)
     = (if triggers now data rule then wrap64 (Score r + Weight rule) else Score r)
  /\ Breakdown (applyRule now data r rule)
     = <[RuleField rule := ruleEntry now data rule]> (Breakdown r).
Proof.
  unfold applyRule, triggers, ruleEntry.
  by destruct (evaluateCondition _ _ _ _ _) as [[|] value].
Qed.

Lemma sumZ_snoc (l : list Z) (z : Z) : sumZ (l ++ [z]) = sumZ l + z.
Proof. unfold sumZ. induction l as [|a l IH]; simpl; lia. Qed.

Lemma pointsOf_bounds now data (rules : list ScoringRule) :
  Forall (fun rule => - 2 ^ 31 <= Weight rule <= 2 ^ 31) rules ->
  - 2 ^ 31 * Z.of_nat (length rules)
  <= sumZ (map (pointsOf now data) rules)
  <= 2 ^ 31 * Z.of_nat (length rules).
Proof.
  induction 1 as [|rule rules Hw _ IH]; simpl; [lia|].
  unfold pointsOf at 1 3. destruct (triggers now data rule); lia.
Qed.

(** What the loop over the rules leaves in the result. *)
Lemma rules_loop_effect now data r rules :
  Forall (fun rule => - 2 ^ 31 <= Weight rule <= 2 ^ 31) rules ->
  Z.of_nat (length rules) <= 2 ^ 31 ->
  Score r = 0 ->
  let r' := foldl (applyRule now data) r rules in
  Qualified r' = Qualified r
  /\ Score r' = sumZ (map (pointsOf now data) rules)
  /\ Breakdown r' = store RuleField (ruleEntry now data) (Breakdown r) rules.
Proof.
  intros Hw Hlen H0. unfold store.
  induction rules as [|rule rules IH] using rev_ind; simpl; [done|].
  apply Forall_app in Hw as [Hw Hrule%Forall_inv].
  rewrite length_app in Hlen. simpl length in Hlen.
  destruct IH as (IH1 & IH2 & IH3); [done|lia|].
  rewrite !foldl_app. simpl.
  destruct (applyRule_effect now data (foldl (applyRule now data) r rules) rule)
    as (_ & -> & -> & ->).
  rewrite IH1, IH2, IH3, map_app. simpl map. rewrite sumZ_snoc.
  split; [done|]. split; [|done].
  pose proof (pointsOf_bounds now data rules Hw) as Hb.
  assert (pointsOf now data rule
          = if triggers now data rule then Weight rule else 0) as -> by done.
  destruct (triggers now data rule); [|lia].
  apply wrap64_id. unfold int64_min, int64_max. nia.
Qed.

Lemma gatePasses_not_fails now data model :
  gatePasses now data model = true <-> ~ gateFails now data model.
Proof.
  rewrite gateFails_forallb. unfold gatePasses.
  by destruct (_ && _).
Qed.

(** X12. When every requirement holds and no exclusion does, the score
    is the sum of the weights of the rules that trigger (for weights
    within 2^31 in absolute value and at most 2^31 rules, so that no sum
    leaves the int64 range), requirementsMet is true, and qualified tells
    whether that sum reaches MinScore. *)
Theorem score_sums_triggered_weights scoredAt now data model :
  gatePasses now data model = true ->
  boundedWeights model ->
  let r := ScoreCompany scoredAt now data model in
  RequirementsMet r = true
  /\ Score r = sumZ (map (pointsOf now data) (Rules model))
  /\ Qualified r = (MinScore model <=? sumZ (map (pointsOf now data) (Rules model))).
Proof.
  intros Hgate [Hw Hlen] r. subst r. unfold ScoreCompany.
  set (r0 := {| CompanyID := ""; ScoringModelID := ID model; Score := 0;
                Qualified := false; RequirementsMet := true; Breakdown := ∅;
                ScoredAt := scoredAt |}).
  destruct (requirements_loop now data r0 (Requirements model))
    as (Hm1 & Hs1 & _ & _).
  set (r1 := foldl (checkRequirement now data) r0 (Requirements model)) in *.
  destruct (exclusions_loop now data r1 (Exclusions model))
    as (Hm2 & Hs2 & _ & _).
  set (r2 := foldl (checkExclusion now data) r1 (Exclusions model)) in *.
  rewrite Hm1 in Hm2. rewrite Hs1 in Hs2. simpl in Hm2, Hs2.
  unfold gatePasses in Hgate. rewrite Hgate in Hm2. rewrite Hm2.
  destruct (rules_loop_effect now data r2 (Rules model) Hw Hlen Hs2)
    as (_ & Hs3 & _).
  simpl. rewrite rules_loop, Hs3. done.
Qed.

(** X13. When every requirement holds and no exclusion does, the
    breakdown is read as follows under every key: the entry of the last
    rule on that field if a rule bears on it (points = weight if it
    triggered, 0 otherwise); failing that, the entry of the last
    exclusion, and failing that of the last requirement, stored under
    that key; and nothing otherwise.  So every rule's field has an
    entry, and two rules on one field leave one entry, of the later
    one. *)
Theorem breakdown_after_rules scoredAt now data model (k : string) :
  gatePasses now data model = true ->
  Breakdown (ScoreCompany scoredAt now data model) !! k =
  match lastRuleOn k (Rules model) with
  | Some rule => Some (ruleEntry now data rule)
  | None =>
      match last (filter (fun ex => exclusionKey ex = k) (Exclusions model)) with
      | Some ex => Some (exclusionEntry now data ex)
      | None =>
          requirementEntry now data
            <$> last (filter (fun req => requirementKey req = k) (Requirements model))
      end
  end.
Proof.
  intros Hgate. unfold ScoreCompany.
  set (r0 := {| CompanyID := ""; ScoringModelID := ID model; Score := 0;
                Qualified := false; RequirementsMet := true; Breakdown := ∅;
                ScoredAt := scoredAt |}).
  destruct (requirements_loop now data r0 (Requirements model))
    as (Hm1 & _ & _ & Hb1).
  set (r1 := foldl (checkRequirement now data) r0 (Requirements model)) in *.
  destruct (exclusions_loop now data r1 (Exclusions model))
    as (Hm2 & _ & _ & Hb2).
  set (r2 := foldl (checkExclusion now data) r1 (Exclusions model)) in *.
  rewrite Hm1 in Hm2. rewrite Hb1 in Hb2. simpl in Hm2, Hb2.
  unfold gatePasses in Hgate. rewrite Hgate in Hm2. rewrite Hm2. simpl.
  assert (Breakdown (foldl (applyRule now data) r2 (Rules model))
          = store RuleField (ruleEntry now data) (Breakdown r2) (Rules model))
    as ->.
  { unfold store. generalize (Rules model) as rules.
    induction rules as [|rule rules IH] using rev_ind; [done|].
    rewrite !foldl_app. simpl.
    destruct (applyRule_effect now data (foldl (applyRule now data) r2 rules) rule)
      as (_ & _ & _ & ->).
    by rewrite IH. }
  rewrite store_lookup. unfold lastRuleOn.
  destruct (last (filter _ (Rules model))); [done|].
  rewrite Hb2, store_lookup.
  destruct (last (filter _ (Exclusions model))); [done|].
  rewrite store_lookup, lookup_empty. by destruct (last _).
Qed.

End EngineFieldsFacts.

Section EngineFieldsSamples.
Import Go Engine EngineSpec EngineFields Samples.

Lemma absent_field_witness :
  @evaluateCondition engineLibrary sampleNow ∅ "market_tier" "not_equals"
    (VString "Expert Market") = (false, VNil).
Proof.
  apply (@absent_field_never_matches engineLibrary).
  - apply (bool_decide_unpack _). vm_compute. reflexivity.
  - reflexivity.
Defined.

Lemma unknown_operator_witness :
  @evaluateCondition engineLibrary sampleNow pinkSnapshot "market_tier" "matches"
    (VString "OTC Pink") = (false, VString "OTC Pink").
Proof.
  apply (@unknown_operator_never_matches engineLibrary).
  - apply (bool_decide_unpack _). vm_compute. reflexivity.
  - reflexivity.
  - apply (bool_decide_unpack _). vm_compute. reflexivity.
Defined.

(** The exclusion "last_filing_date less_than 2023-01-01" of the default
    Pink Market model compares two strings, and so never matches. *)
Lemma comparison_witness :
  @evaluateCondition engineLibrary sampleNow
    {[ "last_filing_date" := VString "2020-05-01" ]}
    "last_filing_date" "less_than" (VString "2023-01-01")
  = (false, VString "2020-05-01").
Proof.
  apply (@comparison_needs_numbers engineLibrary).
  - apply (bool_decide_unpack _). vm_compute. reflexivity.
  - reflexivity.
  - apply (bool_decide_unpack _). vm_compute. reflexivity.
  - left. reflexivity.
Defined.

Lemma negated_operators_witness :
  fst (@evaluateCondition engineLibrary sampleNow pinkSnapshot "market_tier"
         "not_equals" (VString "Expert Market"))
  = negb (fst (@evaluateCondition engineLibrary sampleNow pinkSnapshot "market_tier"
                 "equals" (VString "Expert Market"))).
Proof.
  refine (proj1 (@negated_operators engineLibrary sampleNow pinkSnapshot
                   "market_tier" (VString "Expert Market") (VString "OTC Pink") _ _)).
  - apply (bool_decide_unpack _). vm_compute. reflexivity.
  - reflexivity.
Defined.

Lemma computed_field_witness :
  @evaluateCondition engineLibrary sampleNow
    (<["delinquent_10k" := VBool false]> pinkSnapshot)
    "delinquent_10k" "is_true" VNil
  = @evaluateCondition engineLibrary sampleNow pinkSnapshot
      "delinquent_10k" "" VNil.
Proof.
  apply (@computed_field_ignores_stored_flag engineLibrary).
  apply (bool_decide_unpack _). vm_compute. reflexivity.
Defined.

(** A snapshot that passes the gate of [pinkModel]: of its two rules the
    first triggers. *)
Lemma score_sum_witness :
  Score (@ScoreCompany engineLibrary 0 sampleNow pinkSnapshot RuleSamples.pinkModel)
  = 5.
Proof.
  refine (proj1 (proj2 (@score_sums_triggered_weights engineLibrary 0 sampleNow
                          pinkSnapshot RuleSamples.pinkModel _ _))).
  - vm_compute. reflexivity.
  - split; [|vm_compute; discriminate].
    repeat constructor; vm_compute; discriminate.
Defined.

Lemma breakdown_after_rules_witness :
  Breakdown (@ScoreCompany engineLibrary 0 sampleNow pinkSnapshot
               RuleSamples.pinkModel) !! "market_tier"
  = Some {| Points := 0; Triggered := false;
            DetailDescription := "Expert Market tier";
            DetailValue := "OTC Pink" |}.
Proof.
  refine (@breakdown_after_rules engineLibrary 0 sampleNow pinkSnapshot
            RuleSamples.pinkModel "market_tier" _).
  vm_compute. reflexivity.
Defined.

End EngineFieldsSamples.

(** ** The default models *)

Section DefaultModelsFacts.
Import Go Engine EngineSpec EngineFields DefaultModels.
Context `{Library}.

(** The points of a list of rules lie between the sum of its negative
    weights and the sum of its positive weights. *)
Lemma pointsOf_range now data (rules : list ScoringRule) :
  sumZ (map (fun rule => Z.min 0 (Weight rule)) rules)
  <= sumZ (map (pointsOf now data) rules)
  <= sumZ (map (fun rule => Z.max 0 (Weight rule)) rules).
Proof.
  induction rules as [|rule rules IH]; simpl; [lia|].
  unfold pointsOf at 1 3. destruct (triggers now data rule); lia.
Qed.

(** X22. In the default models the one exclusion, last_filing_date
    less_than "2023-01-01" of Pink Market Opportunity, compares against
    a string and so holds for no snapshot at any time: for both models
    requirementsMet is decided by the requirements alone, and their
    score, when the requirements hold, lies between -3 and 9. *)
Theorem default_models_exclusions_dead scoredAt now data model :
  model ∈ GetDefaultICPModels ->
  (forall ex, ex ∈ Exclusions model -> holds now data ex = false)
  /\ RequirementsMet (ScoreCompany scoredAt now data model)
     = forallb (holds now data) (Requirements model)
  /\ (RequirementsMet (ScoreCompany scoredAt now data model) = true ->
      -3 <= Score (ScoreCompany scoredAt now data model) <= 9).
Proof.
  intros Hin.
  assert (forall ex, ex ∈ Exclusions model -> holds now data ex = false) as Hex.
  { intros ex Hex. unfold GetDefaultICPModels in Hin.
    apply elem_of_cons in Hin as [->|Hin]; [by apply elem_of_nil in Hex|].
    apply list_elem_of_singleton in Hin as ->. simpl in Hex.
    apply list_elem_of_singleton in Hex as ->. unfold holds. simpl.
    rewrite evaluateCondition_stored
      by (apply (bool_decide_unpack _); vm_compute; reflexivity).
    destruct (data !! "last_filing_date") as [v|]; [|done]. simpl.
    unfold standardField, eqb_string. simpl. unfold compareNumbers.
    by destruct (toFloat64 v) as [? []]. }
  assert (gatePasses now data model = forallb (holds now data) (Requirements model))
    as Hgate.
  { unfold gatePasses.
    assert (forallb (fun ex => negb (holds now data ex)) (Exclusions model) = true)
      as ->; [|by rewrite andb_true_r].
    apply forallb_forall. intros ex Hin'. apply list_elem_of_In in Hin'.
    by rewrite Hex. }
  assert (RequirementsMet (ScoreCompany scoredAt now data model)
          = forallb (holds now data) (Requirements model)) as Hmet.
  { rewrite <- Hgate. unfold ScoreCompany.
    set (r0 := {| CompanyID := ""; ScoringModelID := ID model; Score := 0;
                  Qualified := false; RequirementsMet := true; Breakdown := ∅;
                  ScoredAt := scoredAt |}).
    destruct (requirements_loop now data r0 (Requirements model)) as (Hm1 & _).
    set (r1 := foldl (checkRequirement now data) r0 (Requirements model)) in *.
    destruct (exclusions_loop now data r1 (Exclusions model)) as (Hm2 & _).
    set (r2 := foldl (checkExclusion now data) r1 (Exclusions model)) in *.
    rewrite Hm1 in Hm2. simpl in Hm2. fold (gatePasses now data model) in Hm2.
    destruct (RequirementsMet r2) eqn:Hr2; simpl; rewrite ?rules_loop, Hr2; done. }
  split; [done|]. split; [done|].
  intros Hreq. rewrite Hmet, <- Hgate in Hreq.
  assert (boundedWeights model) as Hbw.
  { unfold boundedWeights, GetDefaultICPModels in *.
    apply elem_of_cons in Hin as [->|Hin];
      [|apply list_elem_of_singleton in Hin as ->];
      (split; [repeat constructor; simpl; lia|simpl; lia]). }
  unfold ScoreCompany.
  set (r0 := {| CompanyID := ""; ScoringModelID := ID model; Score := 0;
                Qualified := false; RequirementsMet := true; Breakdown := ∅;
                ScoredAt := scoredAt |}).
  destruct (requirements_loop now data r0 (Requirements model)) as (Hm1 & Hs1 & _).
  set (r1 := foldl (checkRequirement now data) r0 (Requirements model)) in *.
  destruct (exclusions_loop now data r1 (Exclusions model)) as (Hm2 & Hs2 & _).
  set (r2 := foldl (checkExclusion now data) r1 (Exclusions model)) in *.
  rewrite Hm1 in Hm2. rewrite Hs1 in Hs2. simpl in Hm2, Hs2.
  fold (gatePasses now data model) in Hm2. rewrite Hreq in Hm2. rewrite Hm2.
  destruct Hbw as [Hw Hlen].
  destruct (rules_loop_effect now data r2 (Rules model) Hw Hlen Hs2) as (_ & -> & _).
  simpl. pose proof (pointsOf_range now data (Rules model)) as Hrange.
  remember (sumZ (map (pointsOf now data) (Rules model))) as points eqn:Hpoints.
  clear Hpoints Hm1 Hs1 Hm2 Hs2 Hmet Hgate Hreq Hex Hw Hlen. clear r2 r1 r0.
  unfold GetDefaultICPModels in Hin.
  apply elem_of_cons in Hin as [->|Hin];
    [|apply list_elem_of_singleton in Hin as ->];
    cbv -[Z.le] in Hrange; lia.
Qed.

End DefaultModelsFacts.

Section DefaultModelsSamples.
Import Go Engine EngineSpec EngineFields DefaultModels Samples.

Lemma default_models_witness :
  RequirementsMet
    (@ScoreCompany engineLibrary 0 sampleNow pinkSnapshot
       (default (RuleSamples.pinkModel) (GetDefaultICPModels !! 1%nat)))
  = false.
Proof.
  refine (eq_trans
            (proj1 (proj2 (@default_models_exclusions_dead engineLibrary 0 sampleNow
                             pinkSnapshot _ _))) _).
  - apply list_elem_of_further, list_elem_of_here.
  - vm_compute. reflexivity.
Defined.

End DefaultModelsSamples.

(** ** One scoring cycle *)

Section ScoringCycleFacts.
Import Go Pipeline ScoringCycle.

Variable getCompaniesForScoring : PipelineConfig -> result (list CompanyForScoring).
Variable ScoreCompany : nat -> string -> option error.
Variable startTime endTime : Time.

Lemma successes_bounds (l : list (option error)) :
  0 <= successes l <= Z.of_nat (length l).
Proof.
  unfold successes. pose proof (length_filter (fun o : option error => o = None) l). lia.
Qed.

Lemma successes_app (l1 l2 : list (option error)) :
  successes (l1 ++ l2) = successes l1 + successes l2.
Proof. unfold successes. rewrite filter_app, length_app. lia. Qed.

Lemma outcomesFrom_length (n : nat) (cs : list CompanyForScoring) :
  length (outcomesFrom ScoreCompany n cs) = length cs.
Proof. revert n. induction cs as [|c cs IH]; intros n; simpl; [done|by rewrite IH]. Qed.

Lemma outcomesFrom_app (n : nat) (cs1 cs2 : list CompanyForScoring) :
  outcomesFrom ScoreCompany n (cs1 ++ cs2)
  = outcomesFrom ScoreCompany n cs1
    ++ outcomesFrom ScoreCompany (n + length cs1) cs2.
Proof.
  revert n. induction cs1 as [|c cs1 IH]; intros n; simpl.
  - by rewrite Nat.add_0_r.
  - rewrite IH. do 3 f_equal. lia.
Qed.

(** [processBatch] counts every company once, as a success or as a
    failure, and two models for each success. *)
Lemma processFrom_counts (cs : list CompanyForScoring) (n : nat) (st : BatchStats) :
  0 <= Processed st -> 0 <= Succeeded st -> 0 <= Failed st -> 0 <= ModelsApplied st ->
  Processed st + Z.of_nat (length cs) < 2 ^ 62 ->
  Succeeded st + Z.of_nat (length cs) < 2 ^ 62 ->
  Failed st + Z.of_nat (length cs) < 2 ^ 62 ->
  ModelsApplied st + 2 * Z.of_nat (length cs) < 2 ^ 63 ->
  let s := successes (outcomesFrom ScoreCompany n cs) in
  processFrom ScoreCompany n cs st =
  {| Processed := Processed st + Z.of_nat (length cs);
     Succeeded := Succeeded st + s;
     Failed := Failed st + (Z.of_nat (length cs) - s);
     ModelsApplied := ModelsApplied st + 2 * s |}.
Proof.
  revert n st. induction cs as [|c cs IH]; intros n st Hp Hs Hf Hm Bp Bs Bf Bm.
  - simpl. destruct st. simpl. f_equal; unfold successes; simpl; lia.
  - simpl length in *. simpl processFrom. simpl outcomesFrom.
    change (ScoreCompany n (ID c) :: outcomesFrom ScoreCompany (S n) cs)
      with ([ScoreCompany n (ID c)] ++ outcomesFrom ScoreCompany (S n) cs).
    rewrite successes_app.
    pose proof (successes_bounds (outcomesFrom ScoreCompany (S n) cs)) as Hb.
    rewrite outcomesFrom_length in Hb.
    assert (forall z, 0 <= z -> z + 2 < 2 ^ 63 -> wrap64 (z + 1) = z + 1) as W1.
    { intros z ? ?. apply wrap64_id. unfold int64_min, int64_max. lia. }
    assert (forall z, 0 <= z -> z + 2 < 2 ^ 63 -> wrap64 (z + 2) = z + 2) as W2.
    { intros z ? ?. apply wrap64_id. unfold int64_min, int64_max. lia. }
    destruct (ScoreCompany n (ID c)) as [err|] eqn:Ho.
    + assert (successes [Some err] = 0) as -> by done.
      rewrite IH; simpl; rewrite ?W1 by lia; try lia.
      f_equal; lia.
    + assert (successes [@None error] = 1) as -> by done.
      rewrite IH; simpl; rewrite ?W1, ?W2 by lia; try lia.
      f_equal; lia.
Qed.

Lemma processBatch_counts (cs : list CompanyForScoring) (n : nat) :
  Z.of_nat (length cs) < 2 ^ 62 ->
  let s := successes (outcomesFrom ScoreCompany n cs) in
  processBatch ScoreCompany n cs =
  {| Processed := Z.of_nat (length cs);
     Succeeded := s;
     Failed := Z.of_nat (length cs) - s;
     ModelsApplied := 2 * s |}.
Proof.
  intros Hlen. unfold processBatch. rewrite processFrom_counts; simpl; try lia.
  done.
Qed.

(** The launching loop with a positive batch size: from index [i] on it
    launches batches that cover the rest of the list, and their
    statistics add up to those of the rest. *)
Lemma spawnBatches_covers (b : Z) (cs : list CompanyForScoring) :
  0 < b <= int64_max ->
  Z.of_nat (length cs) < 2 ^ 62 ->
  forall (fuel : nat) (i : Z) (st : PipelineStats),
    0 <= i -> (i < Z.of_nat (length cs) -> i + b <= int64_max) ->
    Z.of_nat (length cs) - i <= Z.of_nat fuel ->
    0 <= CompaniesProcessed st -> 0 <= CompaniesSucceeded st ->
    0 <= CompaniesFailed st -> 0 <= StatsModelsApplied st ->
    CompaniesProcessed st <= i -> CompaniesSucceeded st <= i ->
    CompaniesFailed st <= i -> StatsModelsApplied st <= 2 * i ->
    exists batches,
      spawnBatches fuel b cs i = Spawned batches
      /\ (i < Z.of_nat (length cs) -> batches <> [])
      /\ let rest := outcomesFrom ScoreCompany (Z.to_nat i) (drop (Z.to_nat i) cs) in
         let st' :=
           foldl (fun stats '(n, batch) =>
                    addBatch stats (processBatch ScoreCompany n batch))
                 st batches in
         CompaniesProcessed st' = CompaniesProcessed st + Z.of_nat (length rest)
         /\ CompaniesSucceeded st' = CompaniesSucceeded st + successes rest
         /\ CompaniesFailed st'
            = CompaniesFailed st + (Z.of_nat (length rest) - successes rest)
         /\ StatsModelsApplied st' = StatsModelsApplied st + 2 * successes rest
         /\ CompaniesFound st' = CompaniesFound st
         /\ StatsBatchSize st' = StatsBatchSize st.
Proof.
  intros Hb Hlen. set (n := Z.of_nat (length cs)) in *.
  induction fuel as [|fuel IH]; intros i st Hi Hib Hfuel Hp Hs Hf Hm Bp Bs Bf Bm.
  - assert (n <= i) as Hge by lia.
    exists []. simpl. fold n. destruct (Z.ltb_spec i n); [lia|].
    split; [done|]. split; [lia|].
    rewrite drop_ge by lia. simpl. unfold successes. simpl. lia.
  - simpl. fold n. destruct (Z.ltb_spec i n) as [Hlt|Hge]; last first.
    { exists []. split; [done|]. split; [lia|].
      rewrite drop_ge by lia. simpl. unfold successes. simpl. lia. }
    specialize (Hib Hlt).
    rewrite (wrap64_id (i + b)) by (unfold int64_min, int64_max in *; lia).
    remember (if n <? i + b then n else i + b) as e eqn:Ee.
    assert (i < e <= n /\ e <= i + b /\ (e = i + b \/ e = n)) as (He & He' & Hcase).
    { subst e. destruct (Z.ltb_spec n (i + b)); lia. }
    clear Ee.
    destruct (Z.leb_spec 0 i); [|lia]. destruct (Z.leb_spec i e); [|lia]. simpl.
    set (batch := take (Z.to_nat (e - i)) (drop (Z.to_nat i) cs)).
    assert (Z.of_nat (length batch) = e - i) as Hbl.
    { subst batch. rewrite length_take, length_drop. lia. }
    assert (drop (Z.to_nat i) cs = batch ++ drop (Z.to_nat (i + b)) cs) as Hsplit.
    { subst batch. rewrite <- (take_drop (Z.to_nat (e - i)) (drop (Z.to_nat i) cs)) at 1.
      f_equal. rewrite drop_drop.
      destruct Hcase as [Hcase|Hcase].
      - f_equal. lia.
      - rewrite !drop_ge by lia. done. }
    pose proof (processBatch_counts batch (Z.to_nat i) ltac:(lia)) as Hpb.
    simpl in Hpb.
    pose proof (successes_bounds (outcomesFrom ScoreCompany (Z.to_nat i) batch)) as Hsb.
    rewrite outcomesFrom_length in Hsb.
    set (s := successes (outcomesFrom ScoreCompany (Z.to_nat i) batch)) in *.
    set (st1 := addBatch st (processBatch ScoreCompany (Z.to_nat i) batch)).
    assert (CompaniesProcessed st1 = CompaniesProcessed st + (e - i)
            /\ CompaniesSucceeded st1 = CompaniesSucceeded st + s
            /\ CompaniesFailed st1 = CompaniesFailed st + (e - i - s)
            /\ StatsModelsApplied st1 = StatsModelsApplied st + 2 * s
            /\ CompaniesFound st1 = CompaniesFound st
            /\ StatsBatchSize st1 = StatsBatchSize st) as (E1 & E2 & E3 & E4 & E5 & E6).
    { subst st1. unfold addBatch. rewrite Hpb. simpl. rewrite Hbl.
      rewrite !wrap64_id by (unfold int64_min, int64_max; lia). done. }
    destruct (IH (i + b) st1) as (batches & -> & _ & R1 & R2 & R3 & R4 & R5 & R6);
      try lia.
    { intros Hlt'. unfold int64_max. lia. }
    exists ((Z.to_nat i, batch) :: batches).
    split; [done|]. split; [done|].
    cbn [foldl]. fold st1. rewrite R1, R2, R3, R4, R5, R6, E1, E2, E3, E4, E5, E6.
    rewrite Hsplit, outcomesFrom_app, length_app, successes_app, !outcomesFrom_length.
    fold s.
    replace (Z.to_nat i + length batch)%nat with (Z.to_nat e) by lia.
    destruct Hcase as [Hcase|Hcase].
    + rewrite Hcase. lia.
    + rewrite !(drop_ge cs) by lia. simpl.
      assert (successes [] = 0) as -> by done. lia.
Qed.

(** A cycle with a positive batch size and a positive concurrency limit
    ends, with these statistics. *)
Lemma cycle_finishes (fuel : nat) (config : PipelineConfig)
    (companies : list CompanyForScoring) :
  getCompaniesForScoring config = Ok companies ->
  0 < BatchSize config <= int64_max ->
  0 < MaxConcurrent config ->
  Z.of_nat (length companies) < 2 ^ 62 ->
  (length companies <= fuel)%nat ->
  let n := Z.of_nat (length companies) in
  let s := successes (outcomesFrom ScoreCompany 0 companies) in
  executeScoringCycle getCompaniesForScoring ScoreCompany startTime endTime
    fuel config
  = Finished
      {| StartTime := startTime; EndTime := endTime;
         StatsDuration := if n =? 0 then 0 else Sub endTime startTime;
         StatsBatchSize := BatchSize config;
         CompaniesFound := n;
         CompaniesProcessed := n;
         CompaniesSucceeded := s;
         CompaniesFailed := n - s;
         StatsModelsApplied := 2 * s |}
      None.
Proof.
  intros Hq Hb Hc Hlen Hfuel n s. unfold executeScoringCycle. rewrite Hq.
  fold n. destruct (Z.eqb_spec n 0) as [H0|Hn0].
  { assert (companies = []) as -> by (destruct companies; [done|simpl in *; lia]).
    subst s n. unfold successes. simpl. done. }
  destruct (Z.ltb_spec (MaxConcurrent config) 0); [lia|].
  set (st := {| StartTime := startTime; EndTime := zeroTime; StatsDuration := 0;
                StatsBatchSize := BatchSize config; CompaniesFound := n;
                CompaniesProcessed := 0; CompaniesSucceeded := 0;
                CompaniesFailed := 0; StatsModelsApplied := 0 |}).
  destruct (spawnBatches_covers (BatchSize config) companies Hb Hlen fuel 0 st)
    as (batches & -> & Hne & R); simpl; try lia.
  cbv zeta in R. change (Z.to_nat 0) with 0%nat in R.
  rewrite drop_0, outcomesFrom_length in R.
  destruct R as (R1 & R2 & R3 & R4 & R5 & R6).
  destruct batches as [|batch batches]; [by destruct Hne; [lia|]|].
  destruct (Z.eqb_spec (MaxConcurrent config) 0); [lia|].
  rewrite R1, R2, R3, R4, R5, R6. done.
Qed.

(** With a batch size of 0 the launching loop never ends. *)
Lemma cycle_zero_batch (config : PipelineConfig)
    (companies : list CompanyForScoring) (fuel : nat) :
  getCompaniesForScoring config = Ok companies ->
  companies <> [] ->
  0 <= MaxConcurrent config -> BatchSize config = 0 ->
  executeScoringCycle getCompaniesForScoring ScoreCompany startTime endTime
    fuel config = Unfinished.
Proof.
  intros Hq Hne Hmc H0.
  assert (0 < Z.of_nat (length companies)) as Hpos.
  { destruct companies; [done|simpl; lia]. }
  set (n := Z.of_nat (length companies)) in *.
  unfold executeScoringCycle. rewrite Hq. fold n.
  destruct (Z.eqb_spec n 0); [lia|].
  destruct (Z.ltb_spec (MaxConcurrent config) 0); [lia|].
  assert (spawnBatches fuel (BatchSize config) companies 0 = StillSpawning) as ->;
    [|done].
  rewrite H0. induction fuel as [|fuel IH]; cbn [spawnBatches]; fold n;
    (destruct (Z.ltb_spec 0 n); [|lia]); [done|].
  change (wrap64 (0 + 0)) with 0. rewrite IH.
  destruct (Z.ltb_spec n 0); [lia|]. done.
Qed.

(** X14. With a positive batch size and a positive concurrency limit
    (and fewer than 2^62 companies), a scoring cycle ends without error
    once every batch is launched: found = processed = the number of
    companies returned by the query, succeeded = the number of scoring
    calls that returned nil, failed = the others, and models_applied =
    twice succeeded, whatever number of models was in fact applied.
    These statistics do not depend on the batch size or on the
    concurrency limit: another such configuration for which the query
    returns the same companies gives the same counts. *)
Theorem cycle_statistics (fuel : nat) (config : PipelineConfig)
    (companies : list CompanyForScoring) :
  getCompaniesForScoring config = Ok companies ->
  0 < BatchSize config <= int64_max ->
  0 < MaxConcurrent config ->
  Z.of_nat (length companies) < 2 ^ 62 ->
  (length companies <= fuel)%nat ->
  let n := Z.of_nat (length companies) in
  let s := successes (outcomesFrom ScoreCompany 0 companies) in
  executeScoringCycle getCompaniesForScoring ScoreCompany startTime endTime
    fuel config
  = Finished
      {| StartTime := startTime; EndTime := endTime;
         StatsDuration := if n =? 0 then 0 else Sub endTime startTime;
         StatsBatchSize := BatchSize config;
         CompaniesFound := n;
         CompaniesProcessed := n;
         CompaniesSucceeded := s;
         CompaniesFailed := n - s;
         StatsModelsApplied := 2 * s |}
      None
  /\ forall (fuel' : nat) (config' : PipelineConfig),
       getCompaniesForScoring config' = Ok companies ->
       0 < BatchSize config' <= int64_max ->
       0 < MaxConcurrent config' ->
       (length companies <= fuel')%nat ->
       exists stats stats',
         executeScoringCycle getCompaniesForScoring ScoreCompany startTime endTime
           fuel config = Finished stats None
         /\ executeScoringCycle getCompaniesForScoring ScoreCompany startTime
              endTime fuel' config' = Finished stats' None
         /\ CompaniesFound stats' = CompaniesFound stats
         /\ CompaniesProcessed stats' = CompaniesProcessed stats
         /\ CompaniesSucceeded stats' = CompaniesSucceeded stats
         /\ CompaniesFailed stats' = CompaniesFailed stats
         /\ StatsModelsApplied stats' = StatsModelsApplied stats.
Proof.
  intros Hq Hb Hc Hlen Hfuel n s.
  split; [by apply cycle_finishes|].
  intros fuel' config' Hq' Hb' Hc' Hfuel'.
  rewrite (cycle_finishes fuel config companies) by done.
  rewrite (cycle_finishes fuel' config' companies) by done.
  eexists _, _. split; [done|]. split; [done|]. done.
Qed.

(** X15. With companies to score, the cycle does not end normally on a
    batch size or a concurrency limit that is not positive: a negative
    concurrency limit panics in [make], a negative batch size panics in
    the first slice expression, a batch size of 0 never stops launching
    goroutines, and a concurrency limit of 0 leaves every goroutine
    blocked on the semaphore. *)
Theorem cycle_needs_positive_config (fuel : nat) (config : PipelineConfig)
    (companies : list CompanyForScoring) :
  getCompaniesForScoring config = Ok companies ->
  companies <> [] ->
  fitsInt config ->
  Z.of_nat (length companies) < 2 ^ 62 ->
  (length companies <= fuel)%nat ->
  let cycle :=
    executeScoringCycle getCompaniesForScoring ScoreCompany startTime endTime
      fuel config in
  (MaxConcurrent config < 0 -> cycle = Panics "makechan: size out of range")
  /\ (0 <= MaxConcurrent config -> BatchSize config < 0 ->
      cycle = Panics "slice bounds out of range")
  /\ (0 <= MaxConcurrent config -> BatchSize config = 0 ->
      forall fuel',
        executeScoringCycle getCompaniesForScoring ScoreCompany startTime endTime
          fuel' config = Unfinished)
  /\ (MaxConcurrent config = 0 -> 0 < BatchSize config -> cycle = Blocked)
  /\ ((exists stats err, cycle = Finished stats err)
      <-> 0 < BatchSize config /\ 0 < MaxConcurrent config).
Proof.
  intros Hq Hne [Hb Hc] Hlen Hfuel cycle.
  assert (0 < Z.of_nat (length companies)) as Hpos.
  { destruct companies; [done|simpl; lia]. }
  assert (exists fuel0, fuel = S fuel0) as [fuel0 ->].
  { destruct fuel; [lia|by eexists]. }
  set (n := Z.of_nat (length companies)) in *.
  assert (MaxConcurrent config < 0 -> cycle = Panics "makechan: size out of range")
    as C1.
  { intros Hneg. subst cycle. unfold executeScoringCycle. rewrite Hq. fold n.
    destruct (Z.eqb_spec n 0); [lia|]. destruct (Z.ltb_spec (MaxConcurrent config) 0); [done|lia]. }
  assert (0 <= MaxConcurrent config -> BatchSize config < 0 ->
          cycle = Panics "slice bounds out of range") as C2.
  { intros Hmc Hneg. subst cycle. unfold executeScoringCycle. rewrite Hq. fold n.
    destruct (Z.eqb_spec n 0); [lia|].
    destruct (Z.ltb_spec (MaxConcurrent config) 0); [lia|].
    simpl. fold n. destruct (Z.ltb_spec 0 n); [|lia].
    rewrite wrap64_id by (simpl; lia). rewrite !Z.add_0_l.
    destruct (Z.ltb_spec n (BatchSize config)); [lia|].
    destruct (Z.leb_spec 0 (BatchSize config)); [lia|]. done. }
  assert (0 <= MaxConcurrent config -> BatchSize config = 0 ->
          forall fuel',
            executeScoringCycle getCompaniesForScoring ScoreCompany startTime endTime
              fuel' config = Unfinished) as C3.
  { intros Hmc H0 fuel'. by apply (cycle_zero_batch config companies). }
  assert (MaxConcurrent config = 0 -> 0 < BatchSize config -> cycle = Blocked) as C4.
  { intros Hmc Hbs. subst cycle. unfold executeScoringCycle. rewrite Hq. fold n.
    destruct (Z.eqb_spec n 0); [lia|].
    destruct (Z.ltb_spec (MaxConcurrent config) 0); [lia|].
    set (st := {| StartTime := startTime; EndTime := zeroTime; StatsDuration := 0;
                  StatsBatchSize := BatchSize config; CompaniesFound := n;
                  CompaniesProcessed := 0; CompaniesSucceeded := 0;
                  CompaniesFailed := 0; StatsModelsApplied := 0 |}).
    destruct (spawnBatches_covers (BatchSize config) companies ltac:(lia) Hlen
                (S fuel0) 0 st)
      as (batches & -> & Hnb & _); simpl; try lia.
    destruct batches as [|batch batches]; [by destruct Hnb; [lia|]|].
    by rewrite Hmc. }
  split; [done|]. split; [done|]. split; [done|]. split; [done|].
  split.
  - intros (stats & err & Hfin).
    destruct (Z.lt_trichotomy (MaxConcurrent config) 0) as [Hm|[Hm|Hm]].
    + rewrite C1 in Hfin by done. discriminate.
    + destruct (Z.lt_trichotomy (BatchSize config) 0) as [Hbs|[Hbs|Hbs]].
      * rewrite C2 in Hfin by lia. discriminate.
      * subst cycle. rewrite C3 in Hfin by lia. discriminate.
      * rewrite C4 in Hfin by done. discriminate.
    + destruct (Z.lt_trichotomy (BatchSize config) 0) as [Hbs|[Hbs|Hbs]].
      * rewrite C2 in Hfin by lia. discriminate.
      * subst cycle. rewrite C3 in Hfin by lia. discriminate.
      * done.
  - intros [Hbs Hmc]. subst cycle.
    rewrite (cycle_finishes (S fuel0) config companies) by (done || lia).
    by eexists _, _.
Qed.

End ScoringCycleFacts.

Section ScoringCycleSamples.
Import Go Pipeline ScoringCycle CycleSamples.

(** Three companies in batches of two, the second scoring call failing:
    three processed, two succeeded, one failed, four models counted. *)
Lemma cycle_statistics_witness :
  executeScoringCycle sampleQuery sampleScore 0 Second 3 smallBatches
  = Finished
      {| StartTime := 0; EndTime := Second; StatsDuration := Second;
         StatsBatchSize := 2; CompaniesFound := 3; CompaniesProcessed := 3;
         CompaniesSucceeded := 2; CompaniesFailed := 1;
         StatsModelsApplied := 4 |}
      None.
Proof.
  refine (proj1 (cycle_statistics sampleQuery sampleScore 0 Second 3 smallBatches
                   sampleCompanies eq_refl _ _ _ _)).
  - vm_compute. split; [reflexivity|discriminate].
  - reflexivity.
  - reflexivity.
  - vm_compute. lia.
Defined.

Lemma cycle_zero_batch_witness :
  executeScoringCycle sampleQuery sampleScore 0 Second 1000 zeroBatch
  = Unfinished.
Proof.
  refine (proj1 (proj2 (proj2
            (cycle_needs_positive_config sampleQuery sampleScore 0 Second 3
               zeroBatch sampleCompanies eq_refl _ _ _ _))) _ _ 1000%nat).
  - discriminate.
  - vm_compute. repeat split; discriminate.
  - reflexivity.
  - vm_compute. lia.
  - vm_compute. discriminate.
  - reflexivity.
Defined.

End ScoringCycleSamples.

(** ** The pipeline handlers *)

Section PipelineHandlerFacts.
Import Go Pipeline ScoringCycle PipelineHandler.
Context `{Strconv}.

Lemma validate_positive (config : PipelineConfig) : positive (validate config).
Proof.
  destruct config as [b i m pn r]. unfold positive, validate. simpl.
  destruct (Z.leb_spec b 0); simpl; destruct (Z.leb_spec i 0); simpl;
    destruct (Z.leb_spec m 0); simpl; destruct (Z.leb_spec r 0); simpl; lia.
Qed.

Lemma validate_id (config : PipelineConfig) :
  positive config -> validate config = config.
Proof.
  destruct config as [b i m pn r]. unfold positive, validate. simpl.
  intros (H1 & H2 & H3 & H4).
  destruct (Z.leb_spec b 0); [lia|]. simpl. destruct (Z.leb_spec i 0); [lia|].
  simpl. destruct (Z.leb_spec m 0); [lia|]. simpl.
  destruct (Z.leb_spec r 0); [lia|]. done.
Qed.

(** X16. A request to start the pipeline that does not carry the admin
    role is answered 403 and leaves the pipeline as it is.  For an admin
    the configuration handed to [Start] has four positive integers: the
    bound one if its integers are all positive, the defaults 50, 60, 10
    and 7 in place of those that are not, and the default configuration
    when the body does not bind; the answer is 409 when the pipeline is
    running and 200, with one more loop launched, when it is not. *)
Theorem start_handler (role : option Value) (bound : result PipelineConfig)
    (p : ScoringPipeline) :
  let config := startConfig bound in
  (notAdmin role = true -> StartPipeline role bound p = (Forbidden, p))
  /\ positive config
  /\ (forall c, bound = Ok c -> positive c -> config = c)
  /\ (forall err, bound = Err err -> config = DefaultPipelineConfig)
  /\ (notAdmin role = false -> isRunning p = true ->
      StartPipeline role bound p
      = (Conflict "Failed to start pipeline: pipeline is already running", p))
  /\ (notAdmin role = false -> isRunning p = false ->
      exists p',
        StartPipeline role bound p = (StatusOK config, p')
        /\ isRunning p' = true
        /\ launched p' = launched p ++ [config]).
Proof.
  intros config. unfold StartPipeline, Start.
  split; [by intros ->|]. split; [apply validate_positive|].
  split; [intros c -> Hc; by apply validate_id|].
  split; [by intros err ->|].
  split.
  - by intros -> ->.
  - intros -> ->. by eexists.
Qed.

Lemma interval_no_overflow (i : Z) :
  0 < i <= 153722867 -> 0 < wrap64 (wrap64 i * Minute).
Proof.
  intros Hi. unfold Minute, Second.
  rewrite (wrap64_id i) by (unfold int64_min, int64_max; lia).
  rewrite wrap64_id by (unfold int64_min, int64_max; lia). lia.
Qed.

Lemma interval_overflow (i : Z) :
  153722867 < i <= 307445734 -> wrap64 (wrap64 i * Minute) < 0.
Proof.
  intros Hi. unfold Minute, Second.
  rewrite (wrap64_id i) by (unfold int64_min, int64_max; lia).
  unfold wrap64.
  replace ((i * (60 * 1000000000) + 2 ^ 63) mod 2 ^ 64)
    with (i * (60 * 1000000000) + 2 ^ 63 - 2 ^ 64); [lia|].
  apply Z.mod_unique with (q := 1); lia.
Qed.

(** X17. The validation of [StartPipeline] does not bound the interval
    from above.  The loop launched with the validated configuration
    starts its ticker and runs its first cycle when the interval is at
    most 153722867 minutes; from 153722868 to 307445734 minutes the
    duration handed to [time.NewTicker] has wrapped around to a negative
    number, and the loop panics before any cycle. *)
Theorem validated_interval (bound : result PipelineConfig)
    (sched : list SelectObs) :
  let config := startConfig bound in
  (IntervalMinutes config <= 153722867 ->
   immediateCycles (runPipeline config sched) = 1%nat
   /\ ending (runPipeline config sched) <> Crashed)
  /\ (153722867 < IntervalMinutes config <= 307445734 ->
      runPipeline config sched
      = {| immediateCycles := 0; periodicCycles := 0; ending := Crashed |})
  /\ (forall c, bound = Ok c -> positive c ->
      153722867 < IntervalMinutes c <= 307445734 ->
      runPipeline config sched
      = {| immediateCycles := 0; periodicCycles := 0; ending := Crashed |}).
Proof.
  intros config.
  pose proof (validate_positive
                (match bound with Err _ => DefaultPipelineConfig | Ok c => c end))
    as (_ & Hpos & _).
  fold (startConfig bound) in Hpos. fold config in Hpos.
  assert (153722867 < IntervalMinutes config <= 307445734 ->
          runPipeline config sched
          = {| immediateCycles := 0; periodicCycles := 0; ending := Crashed |})
    as Hcrash.
  { intros Hi. unfold runPipeline.
    pose proof (interval_overflow _ Hi).
    destruct (Z.leb_spec (wrap64 (wrap64 (IntervalMinutes config) * Minute)) 0);
      [done|lia]. }
  split; [|split; [done|]].
  - intros Hi. unfold runPipeline.
    pose proof (interval_no_overflow (IntervalMinutes config) ltac:(lia)).
    destruct (Z.leb_spec (wrap64 (wrap64 (IntervalMinutes config) * Minute)) 0);
      [lia|].
    destruct (selectLoop sched 0) as [periodic e] eqn:Hloop. simpl.
    split; [done|]. intros ->.
    clear -Hloop. revert Hloop. generalize 0%nat.
    induction sched as [|o sched IH]; intros k Hloop; simpl in Hloop; [done|].
    repeat case_match; try done; by eapply IH.
  - intros c Hb Hc Hi. apply Hcrash. subst config. unfold startConfig.
    rewrite Hb, validate_id by done. done.
Qed.

(** The three integers that [RunPipelineOnce] reads are positive
    whatever the query says. *)
Lemma positiveQuery_positive (value : string) (fallback : Z) :
  0 < fallback -> 0 < positiveQuery value fallback.
Proof.
  intros Hf. unfold positiveQuery.
  destruct (negb _); [|done].
  destruct (Atoi value) as [parsed|]; [|done].
  destruct (Z.ltb_spec 0 parsed); done.
Qed.

Lemma positiveQuery_int (value : string) (fallback : Z) :
  AtoiInt -> int64_min <= fallback <= int64_max ->
  int64_min <= positiveQuery value fallback <= int64_max.
Proof.
  intros Hint Hf. unfold positiveQuery.
  destruct (negb _); [|done].
  destruct (Atoi value) as [parsed|] eqn:Ha; [|done].
  destruct (Z.ltb_spec 0 parsed); [|done]. by apply (Hint value).
Qed.

Section RunOnce.
Variable getCompaniesForScoring : PipelineConfig -> result (list CompanyForScoring).
Variable ScoreCompany : nat -> string -> option error.
Variable startTime endTime : Time.

(** X18. A request to run one cycle that does not carry the admin role
    is answered 403.  For an admin, whatever the query parameters, the
    configuration has a positive batch size and a positive concurrency
    limit (a parameter that is missing, does not parse or is not
    positive leaves the default), so that the cycle ends once the
    database has answered: the answer is 200 with the statistics of the
    cycle, found = processed = the number of companies returned. *)
Theorem run_once_handler (role : option Value) (query : string -> string)
    (fuel : nat) (companies : list CompanyForScoring) :
  AtoiInt ->
  getCompaniesForScoring (runOnceConfig query) = Ok companies ->
  Z.of_nat (length companies) < 2 ^ 62 ->
  (length companies <= fuel)%nat ->
  let config := runOnceConfig query in
  (notAdmin role = true ->
   RunPipelineOnce getCompaniesForScoring ScoreCompany startTime endTime
     role query fuel = Responds Forbidden None)
  /\ positive config /\ IntervalMinutes config = 60
  /\ (notAdmin role = false ->
      exists stats,
        RunPipelineOnce getCompaniesForScoring ScoreCompany startTime endTime
          role query fuel = Responds (StatusOK config) (Some stats)
        /\ CompaniesFound stats = Z.of_nat (length companies)
        /\ CompaniesProcessed stats = Z.of_nat (length companies)
        /\ CompaniesSucceeded stats + CompaniesFailed stats
           = Z.of_nat (length companies)
        /\ StatsModelsApplied stats = 2 * CompaniesSucceeded stats).
Proof.
  intros Hint Hq Hlen Hfuel config.
  assert (positive config) as Hpos.
  { unfold positive, config, runOnceConfig. simpl.
    repeat split; try apply positiveQuery_positive; done. }
  split; [|split; [done|split; [done|]]].
  - unfold RunPipelineOnce. by intros ->.
  - intros Hadmin. unfold RunPipelineOnce, RunOnce. rewrite Hadmin. fold config.
    destruct Hpos as (Hb & _ & Hc & _).
    rewrite (cycle_finishes getCompaniesForScoring ScoreCompany startTime endTime
               fuel config companies); try done.
    + eexists. split; [done|]. simpl. repeat split; lia.
    + split; [done|]. unfold config, runOnceConfig. simpl.
      apply positiveQuery_int; [done|]. unfold int64_min, int64_max. lia.
Qed.

(** X19. [parsePipelineConfig] of the pipeline command takes over every
    integer that parses, positive or not; with no variable set it is the
    default configuration.  A batch size of 0 taken from
    PIPELINE_BATCH_SIZE goes unchanged into the cycle, which then, with
    companies to score, never stops launching goroutines. *)
Theorem command_config_unchecked (getenv : string -> string) :
  ((forall name, getenv name = ""%string) ->
   parsePipelineConfig getenv = DefaultPipelineConfig)
  /\ (forall n, getenv "PIPELINE_BATCH_SIZE" <> ""%string ->
        Atoi (getenv "PIPELINE_BATCH_SIZE") = Ok n ->
        BatchSize (parsePipelineConfig getenv) = n)
  /\ (forall companies fuel,
        getenv "PIPELINE_BATCH_SIZE" <> ""%string ->
        Atoi (getenv "PIPELINE_BATCH_SIZE") = Ok 0 ->
        0 <= MaxConcurrent (parsePipelineConfig getenv) ->
        getCompaniesForScoring (parsePipelineConfig getenv) = Ok companies ->
        companies <> [] ->
        executeScoringCycle getCompaniesForScoring ScoreCompany startTime endTime
          fuel (parsePipelineConfig getenv) = Unfinished).
Proof.
  assert (forall n, getenv "PIPELINE_BATCH_SIZE" <> ""%string ->
            Atoi (getenv "PIPELINE_BATCH_SIZE") = Ok n ->
            BatchSize (parsePipelineConfig getenv) = n) as Hbatch.
  { intros n Hset Ha. unfold parsePipelineConfig, parsedEnv, eqb_string. simpl.
    rewrite bool_decide_eq_false_2 by done. simpl. by rewrite Ha. }
  split; [|split; [done|]].
  - intros Hunset. unfold parsePipelineConfig, parsedEnv, eqb_string.
    rewrite !Hunset. done.
  - intros companies fuel Hset Ha Hmc Hq Hne.
    apply (cycle_zero_batch getCompaniesForScoring ScoreCompany startTime endTime
             _ companies); try done.
    by apply Hbatch.
Qed.

End RunOnce.
End PipelineHandlerFacts.

Section PipelineHandlerSamples.
Import Go Pipeline ScoringCycle PipelineHandler CycleSamples.

Lemma sampleAtoi_int : @AtoiInt sampleStrconv.
Proof.
  intros s n. simpl. unfold sampleAtoi, int64_min, int64_max.
  repeat case_match; intros [=]; subst; lia.
Qed.

(** An admin request with batch_size=0 runs the cycle with the default
    batch size. *)
Lemma run_once_handler_witness :
  positive (@runOnceConfig sampleStrconv
              (fun name => if eqb_string name "batch_size" then "0" else "")).
Proof.
  refine (proj1 (proj2
            (@run_once_handler sampleStrconv sampleQuery sampleScore 0 Second
               adminRole
               (fun name => if eqb_string name "batch_size" then "0" else "")
               3 sampleCompanies sampleAtoi_int eq_refl _ _))).
  - vm_compute. reflexivity.
  - vm_compute. lia.
Defined.

(** A body that asks for an interval of 153722868 minutes passes the
    validation and makes the loop panic. *)
Lemma validated_interval_witness :
  runPipeline (startConfig (Ok longInterval)) []
  = {| immediateCycles := 0; periodicCycles := 0; ending := Crashed |}.
Proof.
  refine (proj2 (proj2 (validated_interval (Ok longInterval) []))
            longInterval eq_refl _ _).
  - vm_compute. repeat split.
  - vm_compute. split; [reflexivity|discriminate].
Defined.

End PipelineHandlerSamples.

(** ** The scoring service *)

Section ScoringServiceFacts.
Import Go Models ScoringService EngineSpec EngineFields.
Context `{Engine.Library}.

Variable GetActiveModels : result (list Engine.ICPModel).
Variable uuid_Parse : string -> result string.
Variable GetByID : string -> result Company.
Variable StoreScoreResult : string -> Engine.ScoreResult -> option error.
Variable readings : nat -> Time * Time.

Lemma scoreModels_stored (i : nat) (companyID : string)
    (data : gmap string Value) (models : list Engine.ICPModel) :
  let '(stored, logged) :=
    scoreModels StoreScoreResult readings i companyID data models in
  map Engine.CompanyID stored = map (fun _ => companyID) models
  /\ map Engine.ScoringModelID stored = map Engine.ID models
  /\ (length logged <= length models)%nat.
Proof.
  revert i. induction models as [|model models IH]; intros i; simpl; [done|].
  destruct (readings i) as [scoredAt now].
  specialize (IH (S i)).
  destruct (scoreModels _ _ (S i) companyID data models) as [stored logged].
  destruct IH as (IH1 & IH2 & IH3).
  assert (Engine.ScoringModelID (Engine.ScoreCompany scoredAt now data model)
          = Engine.ID model) as Hid.
  { unfold Engine.ScoreCompany.
    set (r0 := {| Engine.CompanyID := ""; Engine.ScoringModelID := Engine.ID model;
                  Engine.Score := 0; Engine.Qualified := false;
                  Engine.RequirementsMet := true; Engine.Breakdown := ∅;
                  Engine.ScoredAt := scoredAt |}).
    assert (forall (A : Type) (f : Engine.ScoreResult -> A -> Engine.ScoreResult)
              (l : list A) (r : Engine.ScoreResult),
              (forall r a, Engine.ScoringModelID (f r a) = Engine.ScoringModelID r) ->
              Engine.ScoringModelID (foldl f r l) = Engine.ScoringModelID r) as Hfold.
    { intros A f l. induction l as [|a l IHl]; intros r Hf; simpl; [done|].
      by rewrite IHl, Hf. }
    assert (forall r a, Engine.ScoringModelID (Engine.checkRequirement now data r a)
                        = Engine.ScoringModelID r) as H1.
    { intros r a. unfold Engine.checkRequirement.
      by destruct (Engine.evaluateCondition _ _ _ _ _) as [[] ?]. }
    assert (forall r a, Engine.ScoringModelID (Engine.checkExclusion now data r a)
                        = Engine.ScoringModelID r) as H2.
    { intros r a. unfold Engine.checkExclusion.
      by destruct (Engine.evaluateCondition _ _ _ _ _) as [[] ?]. }
    assert (forall r a, Engine.ScoringModelID (Engine.applyRule now data r a)
                        = Engine.ScoringModelID r) as H3.
    { intros r a. unfold Engine.applyRule.
      by destruct (Engine.evaluateCondition _ _ _ _ _) as [[] ?]. }
    destruct (Engine.RequirementsMet _); simpl; by rewrite ?Hfold. }
  destruct (StoreScoreResult companyID _); simpl;
    rewrite IH1, IH2, Hid; repeat split; lia.
Qed.

(** X20. [ScoreCompany] of the scoring service returns an error exactly
    when the active models or the company cannot be loaded, and then
    hands nothing to the store.  Otherwise it returns nil and has handed
    one result per active model to the store, in the order of the
    models, each under the company's ID and its model's ID, whatever the
    store answered: store errors are logged only, and with no active
    model nothing is stored. *)
Theorem service_score_company (companyID : string) :
  let '(err, stored, logged) :=
    ScoreCompany GetActiveModels uuid_Parse GetByID StoreScoreResult readings
      companyID in
  (forall e, GetActiveModels = Err e ->
     err = Some (wrapf "failed to get active models" e) /\ stored = [])
  /\ (forall models e, GetActiveModels = Ok models ->
        getCompanyData uuid_Parse GetByID companyID = Err e ->
        err = Some (wrapf "failed to get company data" e) /\ stored = [])
  /\ (forall models data, GetActiveModels = Ok models ->
        getCompanyData uuid_Parse GetByID companyID = Ok data ->
        err = None
        /\ map Engine.CompanyID stored = map (fun _ => companyID) models
        /\ map Engine.ScoringModelID stored = map Engine.ID models
        /\ (length logged <= length models)%nat)
  /\ (err = None <->
      is_Some (match GetActiveModels with Ok m => Some m | Err _ => None end)
      /\ is_Some (match getCompanyData uuid_Parse GetByID companyID with
                  | Ok d => Some d | Err _ => None end)).
Proof.
  unfold ScoreCompany.
  destruct GetActiveModels as [models|e].
  - destruct (getCompanyData uuid_Parse GetByID companyID) as [data|e].
    + pose proof (scoreModels_stored 0 companyID data models) as Hs.
      destruct (scoreModels _ _ 0 companyID data models) as [stored logged].
      split; [done|]. split; [done|]. split.
      * intros ? ? [= <-] [= <-]. by split.
      * split; [intros _; split; by eexists|done].
    + split; [done|]. split; [by intros ? ? _ [= <-]|]. split; [done|].
      split; [done|]. intros [_ [? Hd]]. done.
  - split; [by intros ? [= <-]|]. split; [done|]. split; [done|].
    split; [done|]. intros [[? Hm] _]. done.
Qed.






End ScoringServiceFacts.

(** ** The scoring cycle over the scoring service *)

Section CycleServiceFacts.
Import Go Pipeline ScoringCycle CycleService.
Context `{Engine.Library}.

Variable getCompaniesForScoring : PipelineConfig -> result (list CompanyForScoring).
Variable GetActiveModels : nat -> result (list Engine.ICPModel).
Variable uuid_Parse : string -> result string.
Variable GetByID : nat -> string -> result Models.Company.
Variable StoreScoreResult : nat -> string -> Engine.ScoreResult -> option error.
Variable readings : nat -> nat -> Time * Time.
Variable startTime endTime : Time.

Lemma successes_all (score : nat -> string -> option error) (n : nat)
    (companies : list CompanyForScoring) :
  (forall k id, score k id = None) ->
  successes (outcomesFrom score n companies) = Z.of_nat (length companies).
Proof.
  intros Hall. revert n. induction companies as [|c cs IH]; intros n; [done|].
  simpl outcomesFrom. rewrite Hall.
  change (None :: outcomesFrom score (S n) cs)
    with ([@None error] ++ outcomesFrom score (S n) cs).
  rewrite successes_app, IH. simpl length.
  assert (successes [@None error] = 1) as -> by done. lia.
Qed.

(** X29. The statistics of a cycle do not tell what was stored.  When
    the companies can be loaded, every scoring call returns nil whatever
    the store answers and however many models are active: with a
    positive batch size and concurrency limit the cycle reports every
    company as succeeded and twice as many models applied, also when no
    model is active and no call hands any result to the store. *)
Theorem cycle_counts_unstored_scores (fuel : nat) (config : PipelineConfig)
    (companies : list CompanyForScoring) :
  getCompaniesForScoring config = Ok companies ->
  0 < BatchSize config <= int64_max ->
  0 < MaxConcurrent config ->
  Z.of_nat (length companies) < 2 ^ 62 ->
  (length companies <= fuel)%nat ->
  (forall n, exists models, GetActiveModels n = Ok models) ->
  (forall n id, exists uuid company,
     uuid_Parse id = Ok uuid /\ GetByID n uuid = Ok company) ->
  exists stats,
    executeScoringCycle getCompaniesForScoring
      (ScoreCompany GetActiveModels uuid_Parse GetByID StoreScoreResult readings)
      startTime endTime fuel config = Finished stats None
    /\ CompaniesSucceeded stats = Z.of_nat (length companies)
    /\ CompaniesFailed stats = 0
    /\ StatsModelsApplied stats = 2 * Z.of_nat (length companies)
    /\ ((forall n, GetActiveModels n = Ok []) ->
        forall n id,
          handedToStore GetActiveModels uuid_Parse GetByID StoreScoreResult
            readings n id = []).
Proof.
  intros Hq Hb Hc Hlen Hfuel Hmodels Hload.
  assert (forall n id,
            ScoreCompany GetActiveModels uuid_Parse GetByID StoreScoreResult
              readings n id = None) as Hnil.
  { intros n id. unfold ScoreCompany, serviceCall, ScoringService.ScoreCompany.
    destruct (Hmodels n) as [models ->].
    destruct (Hload n id) as (uuid & company & Hu & Hc').
    unfold ScoringService.getCompanyData. rewrite Hu, Hc'.
    by destruct (ScoringService.scoreModels _ _ _ _ _ _). }
  rewrite (cycle_finishes getCompaniesForScoring _ startTime endTime fuel config
             companies) by done.
  rewrite successes_all by done.
  eexists. split; [done|]. simpl. split; [done|]. split; [lia|]. split; [done|].
  intros Hnone n id. unfold handedToStore, serviceCall, ScoringService.ScoreCompany.
  rewrite Hnone. destruct (Hload n id) as (uuid & company & Hu & Hc').
  unfold ScoringService.getCompanyData. by rewrite Hu, Hc'.
Qed.

End CycleServiceFacts.

Section CycleServiceSamples.
Import Go Pipeline ScoringCycle CycleService CycleSamples.

(** Three companies, no active model: three successes, six models
    counted. *)
Lemma cycle_counts_witness :
  exists stats,
    executeScoringCycle sampleQuery
      (@ScoreCompany Samples.engineLibrary (fun _ => Ok []) (fun id => Ok id)
         (fun _ _ => Ok ServiceSamples.sampleCompany) (fun _ _ _ => None)
         (fun _ _ => (0, 0)))
      0 Second 3 smallBatches = Finished stats None
    /\ CompaniesSucceeded stats = 3
    /\ StatsModelsApplied stats = 6.
Proof.
  destruct (@cycle_counts_unstored_scores Samples.engineLibrary sampleQuery
              (fun _ => Ok []) (fun id => Ok id)
              (fun _ _ => Ok ServiceSamples.sampleCompany) (fun _ _ _ => None)
              (fun _ _ => (0, 0)) 0 Second 3 smallBatches sampleCompanies eq_refl)
    as (stats & Hfin & Hs & _ & Hm & _).
  - vm_compute. split; [reflexivity|discriminate].
  - reflexivity.
  - vm_compute. reflexivity.
  - vm_compute. lia.
  - intros n. by eexists.
  - intros n id. by eexists _, _.
  - exists stats. split; [exact Hfin|]. split; [exact Hs|exact Hm].
Defined.

End CycleServiceSamples.

(** ** The health check of the scraper *)

Section ScraperHealthFacts.
Import Go Net OxyLabs Scraper ScraperHealth.
Context `{Library}.
Variable env : Env.

Lemma recordFailure_effect (ticker errorMsg url : string) (h : HealthMonitor.t)
    (w : World) :
  exists now1 now2,
    recordFailure env ticker errorMsg url h w
    = (HealthMonitor.RecordFailure now1 now2 ticker errorMsg url h,
       emit (EvMonitor (HealthMonitor.CallRecordFailure now1 now2 ticker errorMsg url))
         {| httpCalls := httpCalls w; clockReads := S (S (clockReads w));
            trace := trace w |}).
Proof. unfold recordFailure, Now. simpl. by eexists _, _. Qed.

Lemma recordSuccess_effect (ticker : string) (h : HealthMonitor.t) (w : World) :
  exists now,
    recordSuccess env ticker h w
    = (HealthMonitor.RecordSuccess now ticker h,
       emit (EvMonitor (HealthMonitor.CallRecordSuccess now ticker))
         {| httpCalls := httpCalls w; clockReads := S (clockReads w);
            trace := trace w |}).
Proof. unfold recordSuccess, Now. simpl. by eexists. Qed.

Lemma getHealthStatus_effect (h : HealthMonitor.t) (w : World) :
  exists now w',
    getHealthStatus env h w = (HealthMonitor.GetHealthStatus now h, w')
    /\ trace w' = trace w.
Proof.
  unfold getHealthStatus, Now. destruct (IsZero _); simpl; by eexists _, _.
Qed.

(** X23. One call of [Scraper.Health] makes at most one call on the
    health monitor.  When the client check fails, it is a failure
    recorded under the ticker "health_check" with an empty URL, and the
    error is returned.  When the client check passes and the monitor is
    unhealthy, an error is returned and the monitor is left untouched.
    Only when the client check passes and the monitor is healthy is a
    success recorded, under "health_check", and nil returned: a health
    check counts as a request in the monitor's statistics. *)
Theorem health_probe (s : Scraper.t) (w : World) :
  let '(clientErr, w1) := OxyLabsHealth.Health env (client s) w in
  let '(err, s', w') := Health env s w in
  client s' = client s
  /\ match clientErr with
     | Some e =>
         err = Some (wrapf "OxyLabs client health check failed" e)
         /\ exists now1 now2,
              let c := HealthMonitor.CallRecordFailure now1 now2 "health_check" e "" in
              healthMonitor s' = HealthMonitor.step (healthMonitor s) c
              /\ monitorCalls w' = monitorCalls w1 ++ [c]
     | None =>
         exists now,
           let status := HealthMonitor.GetHealthStatus now (healthMonitor s) in
           if HealthMonitor.IsHealthy status then
             err = None
             /\ exists now',
                  let c := HealthMonitor.CallRecordSuccess now' "health_check" in
                  healthMonitor s' = HealthMonitor.step (healthMonitor s) c
                  /\ monitorCalls w' = monitorCalls w1 ++ [c]
           else
             is_Some err /\ s' = s /\ monitorCalls w' = monitorCalls w1
     end.
Proof.
  unfold Health.
  destruct (OxyLabsHealth.Health env (client s) w) as [[e|] w1].
  - destruct (recordFailure_effect "health_check" e "" (healthMonitor s) w1)
      as (now1 & now2 & ->).
    split; [done|]. split; [done|]. exists now1, now2. split; [done|].
    unfold monitorCalls, emit. simpl. by rewrite omap_app.
  - destruct (getHealthStatus_effect (healthMonitor s) w1) as (now & w2 & -> & Htr).
    destruct (HealthMonitor.IsHealthy _) eqn:Hh; cbn [negb].
    + destruct (recordSuccess_effect "health_check" (healthMonitor s) w2)
        as (now' & ->).
      split; [done|]. exists now. rewrite Hh. split; [done|]. exists now'.
      split; [done|]. unfold monitorCalls, emit. simpl. by rewrite omap_app, Htr.
    + split; [done|]. exists now. rewrite Hh. split; [by eexists|].
      split; [done|]. unfold monitorCalls. by rewrite Htr.
Qed.

(** One health check on a monitor that the consecutive-failure check
    holds unhealthy. *)
Lemma health_locked_step (s : Scraper.t) (w : World) :
  HealthMonitor.consecutiveCheck (healthMonitor s) = true ->
  0 <= HealthMonitor.consecutiveFailures (healthMonitor s) < int64_max ->
  let '(err, s', w') := Health env s w in
  is_Some err
  /\ HealthMonitor.consecutiveCheck (healthMonitor s') = true
  /\ HealthMonitor.consecutiveFailures (healthMonitor s)
     <= HealthMonitor.consecutiveFailures (healthMonitor s')
     <= HealthMonitor.consecutiveFailures (healthMonitor s) + 1
  /\ HealthMonitor.successfulRequests (healthMonitor s')
     = HealthMonitor.successfulRequests (healthMonitor s).
Proof.
  intros Hcheck Hmax. unfold Health.
  destruct (OxyLabsHealth.Health env (client s) w) as [[e|] w1].
  - destruct (recordFailure_effect "health_check" e "" (healthMonitor s) w1)
      as (now1 & now2 & ->).
    split; [by eexists|].
    unfold HealthMonitor.consecutiveCheck in *. simpl.
    apply Z.leb_le in Hcheck.
    rewrite wrap64_succ by lia. split; [apply Z.leb_le; lia|]. split; [lia|done].
  - destruct (getHealthStatus_effect (healthMonitor s) w1) as (now & w2 & -> & Htr).
    rewrite IsHealthy_checks, Hcheck, orb_true_r. simpl.
    split; [by eexists|]. split; [done|]. split; [lia|done].
Qed.

(** X24. Health checks cannot bring back a monitor that the
    consecutive-failure check holds unhealthy: every one of any number
    of health checks in a row returns an error, none of them records a
    success, and the monitor is still held unhealthy afterwards (as long
    as the int64 counter does not wrap). *)
Theorem health_checks_stay_unhealthy (n : nat) (s : Scraper.t) (w : World) :
  HealthMonitor.consecutiveCheck (healthMonitor s) = true ->
  0 <= HealthMonitor.consecutiveFailures (healthMonitor s) ->
  HealthMonitor.consecutiveFailures (healthMonitor s) + Z.of_nat n <= int64_max ->
  let '(errs, s', w') := probes env n s w in
  length errs = n
  /\ Forall is_Some errs
  /\ HealthMonitor.consecutiveCheck (healthMonitor s') = true
  /\ HealthMonitor.successfulRequests (healthMonitor s')
     = HealthMonitor.successfulRequests (healthMonitor s)
  /\ forall now, HealthMonitor.isHealthy now (healthMonitor s') = false.
Proof.
  revert s w. induction n as [|n IH]; intros s w Hcheck Hpos Hmax.
  - simpl. repeat split; [constructor|done|].
    intros now. unfold HealthMonitor.isHealthy.
    by rewrite IsHealthy_checks, Hcheck, orb_true_r.
  - cbn [probes].
    pose proof (health_locked_step s w Hcheck ltac:(lia)) as Hstep.
    destruct (Health env s w) as [[err s1] w1].
    destruct Hstep as (Herr & Hcheck1 & Hcons & Hsucc).
    specialize (IH s1 w1 Hcheck1 ltac:(lia) ltac:(lia)).
    destruct (probes env n s1 w1) as [[errs s'] w'].
    destruct IH as (Hlen & Hall & Hcheck' & Hsucc' & Hun).
    repeat split; simpl; try done.
    + by rewrite Hlen.
    + by constructor.
    + by rewrite Hsucc'.
Qed.

End ScraperHealthFacts.

Section ScraperHealthSamples.
Import Go Net OxyLabs Scraper ScraperHealth Samples ProbeSamples.
#[local] Existing Instance scraperLibrary.

(** Two health checks that reach the proxy service, on a monitor with
    six failures in a row: both return an error. *)
Lemma health_checks_witness :
  Forall is_Some (probes goodEnv 2 lockedScraper initial).1.1.
Proof.
  generalize (health_checks_stay_unhealthy goodEnv 2 lockedScraper initial
                eq_refl ltac:(vm_compute; discriminate)
                ltac:(vm_compute; discriminate)).
  destruct (probes goodEnv 2 lockedScraper initial) as [[errs s'] w'].
  intros (_ & Hall & _). exact Hall.
Defined.

End ScraperHealthSamples.

(** ** The batched scrape *)

Section ScraperBatchFacts.
Import Go Net OxyLabs Scraper ScraperBatch.
Context `{Parser}.
Variable env : Env.

Lemma storePage_Ticker label url parse store fetched scraped :
  (forall m d, Ticker (store m d) = Ticker d) ->
  Ticker (storePage label url parse store fetched scraped) = Ticker scraped.
Proof.
  intros Hs. unfold storePage. by repeat case_match.
Qed.

Lemma resultFor_Ticker fetched ticker scrapedAt :
  Ticker (resultFor fetched ticker scrapedAt) = ticker.
Proof. unfold resultFor. by rewrite !storePage_Ticker. Qed.

Lemma prefix_is_sublist {A} (l k : list A) :
  l `prefix_of` k -> l `sublist_of` k.
Proof. intros [k' ->]. by apply sublist_inserts_r. Qed.

Lemma batchesOf_concat (fuel : nat) (tickers : list string) :
  (length tickers <= fuel)%nat -> concat (batchesOf fuel tickers) = tickers.
Proof.
  revert tickers. induction fuel as [|fuel IH]; intros tickers Hlen.
  - destruct tickers; [done|simpl in Hlen; lia].
  - destruct tickers as [|t tickers]; [done|].
    cbn [batchesOf concat]. rewrite IH.
    + apply take_drop.
    + rewrite length_drop. simpl length in *. lia.
Qed.

Lemma batchesOf_sizes (fuel : nat) (tickers : list string) :
  Forall (fun batch => (0 < length batch <= 10)%nat) (batchesOf fuel tickers).
Proof.
  revert tickers. induction fuel as [|fuel IH]; intros tickers.
  - destruct tickers; constructor.
  - destruct tickers as [|t tickers]; [constructor|].
    cbn [batchesOf]. constructor; [|apply IH].
    rewrite length_take. simpl length. lia.
Qed.

(** What the loop over the tickers of a batch does, for any schedule:
    it sends results for a prefix of the tickers, in order, and makes no
    call on the monitor and no request. *)
Lemma sendResults_effect sched fetched tickers out w :
  let '(e, out', w') := sendResults env sched fetched tickers out w in
  exists results,
    sent out' = sent out ++ results
    /\ map Ticker results `prefix_of` tickers
    /\ (e = Returned None -> map Ticker results = tickers)
    /\ checks out' = checks out
    /\ trace w' = trace w
    /\ httpCalls w' = httpCalls w
    /\ ((forall k, sendObs sched k = Sent) -> e = Returned None).
Proof.
  revert out w. induction tickers as [|ticker tickers IH]; intros out w.
  - simpl. exists []. rewrite app_nil_r. by repeat split.
  - simpl. destruct (sendObs sched (sends out)) eqn:Hobs.
    + match goal with
      | |- context [sendResults env sched fetched tickers ?o ?w'] =>
          specialize (IH o w');
          destruct (sendResults env sched fetched tickers o w')
            as [[e out'] w''] eqn:Hrec
      end.
      destruct IH as (results & Hsent & Hpre & Hall & Hchk & Htr & Hhttp & Hlive).
      simpl in Hsent, Hchk, Htr, Hhttp.
      eexists (_ :: results). rewrite Hsent, <- (assoc_L (++)). simpl.
      rewrite resultFor_Ticker.
      split; [done|]. split; [by apply prefix_cons|].
      split; [intros He; by rewrite Hall|]. done.
    + exists []. rewrite app_nil_r. simpl.
      split; [done|]. split; [apply prefix_nil|]. split; [done|].
      split; [done|]. split; [done|]. split; [done|].
      intros Hs. by rewrite Hs in Hobs.
    + exists []. rewrite app_nil_r. simpl.
      split; [done|]. split; [apply prefix_nil|]. split; [done|].
      split; [done|]. split; [done|]. split; [done|].
      intros Hs. by rewrite Hs in Hobs.
Qed.

Lemma processBatch_effect sched s tickers out w :
  let '(e, out', w') := processBatch env sched s tickers out w in
  exists results,
    sent out' = sent out ++ results
    /\ map Ticker results `prefix_of` tickers
    /\ (e = Returned None -> map Ticker results = tickers)
    /\ checks out' = checks out
    /\ monitorCalls w' = monitorCalls w
    /\ ((forall k, sendObs sched k = Sent) -> e = Returned None).
Proof.
  unfold processBatch.
  match goal with
  | |- context [GetBatch env ?c ?urls w] =>
      pose proof (GetBatch_monitorCalls env c urls w) as Hb;
      destruct (GetBatch env c urls w) as [fetched w1]
  end.
  simpl in Hb.
  pose proof (sendResults_effect sched fetched tickers out w1) as Hs.
  destruct (sendResults env sched fetched tickers out w1) as [[e out'] w'].
  destruct Hs as (results & Hsent & Hpre & Hall & Hchk & Htr & _ & Hlive).
  exists results. repeat split; try done.
  unfold monitorCalls. by rewrite Htr.
Qed.

(** The tickers of the results sent by the loop over the batches are a
    subsequence of the tickers of the batches. *)
Lemma batchLoop_effect sched s batches out w :
  let '(e, out', w') := batchLoop env sched s batches out w in
  exists results,
    sent out' = sent out ++ results
    /\ map Ticker results `sublist_of` concat batches
    /\ monitorCalls w' = monitorCalls w
    /\ ((forall k, sendObs sched k = Sent) -> (forall k, doneObs sched k = None) ->
        e = Returned None /\ map Ticker results = concat batches).
Proof.
  revert out w. induction batches as [|batch batches IH]; intros out w.
  - simpl. exists []. rewrite app_nil_r. by repeat split.
  - cbn [batchLoop concat].
    pose proof (processBatch_effect sched s batch out w) as Hp.
    destruct (processBatch env sched s batch out w) as [[e1 out1] w1].
    destruct Hp as (r1 & Hsent1 & Hpre1 & Hall1 & Hchk1 & Hmon1 & Hlive1).
    destruct e1 as [err1|].
    + destruct (doneObs sched (checks out1)) as [ctxErr|] eqn:Hdone.
      * exists r1. simpl. split; [done|].
        split; [apply sublist_inserts_r; by apply prefix_is_sublist|].
        split; [done|]. intros _ Hd. by rewrite Hd in Hdone.
      * match goal with
        | |- context [batchLoop env sched s batches ?o ?w'] =>
            specialize (IH o w');
            destruct (batchLoop env sched s batches o w') as [[e out'] w'']
        end.
        destruct IH as (r2 & Hsent2 & Hsub2 & Hmon2 & Hlive2).
        simpl in Hsent2.
        exists (r1 ++ r2). rewrite Hsent2, Hsent1, <- (assoc_L (++)).
        split; [done|]. rewrite map_app.
        split; [apply sublist_app; [by apply prefix_is_sublist|done]|].
        split; [by rewrite Hmon2|].
        intros Hs Hd. destruct (Hlive2 Hs Hd) as [-> ->].
        split; [done|]. f_equal. apply Hall1. by apply Hlive1.
    + exists r1. split; [done|].
      split; [apply sublist_inserts_r; by apply prefix_is_sublist|].
      split; [done|]. intros Hs _. by specialize (Hlive1 Hs).
Qed.

(** X25. [ScrapeTickersOptimized] cuts the tickers into consecutive
    batches of at most ten.  Whatever the fetches return and whenever
    the context is cancelled, the results it sends are for a
    subsequence of the tickers, in their order, at most one per ticker;
    it makes no call on the health monitor; and the results channel is
    closed exactly when it returns.  When the context is never done and
    every result is received, it returns nil after one result for each
    ticker, in order. *)
Theorem optimized_scrape sched s tickers w :
  let '(e, results, closed, w') := ScrapeTickersOptimized env sched s tickers w in
  concat (batchesOf (length tickers) tickers) = tickers
  /\ Forall (fun batch => (0 < length batch <= 10)%nat)
       (batchesOf (length tickers) tickers)
  /\ map Ticker results `sublist_of` tickers
  /\ monitorCalls w' = monitorCalls w
  /\ (closed = true <-> exists err, e = Returned err)
  /\ ((forall k, sendObs sched k = Sent) -> (forall k, doneObs sched k = None) ->
      e = Returned None /\ map Ticker results = tickers).
Proof.
  unfold ScrapeTickersOptimized.
  pose proof (batchLoop_effect sched s (batchesOf (length tickers) tickers)
                {| sent := []; sends := 0; checks := 0 |} w) as Hb.
  destruct (batchLoop env sched s _ _ w) as [[e out] w'].
  destruct Hb as (results & Hsent & Hsub & Hmon & Hlive).
  simpl in Hsent. rewrite batchesOf_concat in * by done.
  split; [done|]. split; [apply batchesOf_sizes|].
  rewrite Hsent. split; [done|]. split; [done|]. split.
  - destruct e; split; try done; [by eexists|by intros [? ?]].
  - done.
Qed.

End ScraperBatchFacts.

(** ** The transformer *)

Section TransformerFacts.
Import Go Models Transformer.

Variable asOfficers : Value -> option (list Officer).
Variable asAddress : Value -> option Address.

Lemma allData_lookup (scraped : Scraper.ScrapedData) (key : string) :
  allData scraped !! key = pageValue scraped key.
Proof.
  unfold allData, pageValue. rewrite !lookup_union.
  by destruct (Scraper.Disclosure scraped !! key),
       (Scraper.Financials scraped !! key),
       (Scraper.Overview scraped !! key).
Qed.

(** X26. [TransformToCompany] fails on a nil pointer only.  Each field
    of the company is read from the value that the disclosure page
    gives for its key, failing which the financials page, failing which
    the overview page, and is set only when that one value has the
    field's type: a string for the text fields, an int64 for the
    volume, a *time.Time for the dates, a bool for the flag.  A value of
    another type on a later page hides a well-typed one on an earlier
    page, and the field keeps its zero value. *)
Theorem transform_reads_last_page (scraped : Scraper.ScrapedData) (now : Time) :
  TransformToCompany asOfficers asAddress None now = Err "scraped data is nil"
  /\ exists company,
       TransformToCompany asOfficers asAddress (Some scraped) now = Ok company
       /\ Ticker company = Scraper.Ticker scraped
       /\ UpdatedAt company = now
       /\ (forall key (field : Company -> string),
             (key, field) ∈ [("company_name"%string, CompanyName);
                             ("market_tier"%string, MarketTier);
                             ("quote_status"%string, QuoteStatus);
                             ("website"%string, Website);
                             ("description"%string, Description);
                             ("transfer_agent"%string, TransferAgent);
                             ("auditor"%string, Auditor)] ->
             field company =
             match pageValue scraped key with
             | Some (VString s) => s
             | _ => ""%string
             end)
       /\ TradingVolume company =
          match pageValue scraped "trading_volume" with
          | Some (VInt64 n) => n
          | _ => 0
          end
       /\ ProfileVerified company =
          match pageValue scraped "profile_verified" with
          | Some (VBool b) => b
          | _ => false
          end
       /\ (forall key (field : Company -> option Time),
             (key, field) ∈ [("last_10k_date"%string, Last10KDate);
                             ("last_10q_date"%string, Last10QDate);
                             ("last_filing_date"%string, LastFilingDate)] ->
             field company =
             match pageValue scraped key with
             | Some (VTimePtr t) => t
             | _ => None
             end).
Proof.
  split; [done|]. eexists. split; [done|]. simpl.
  split; [done|]. split; [done|].
  rewrite !allData_lookup.
  split; [|split; [|split]].
  - intros key field Hin.
    repeat (apply elem_of_cons in Hin as [[= -> ->]|Hin];
            [simpl; by destruct (pageValue scraped _) as [[]|]|]).
    by apply elem_of_nil in Hin.
  - by destruct (pageValue scraped _) as [[]|].
  - by destruct (pageValue scraped _) as [[]|].
  - intros key field Hin.
    repeat (apply elem_of_cons in Hin as [[= -> ->]|Hin];
            [simpl; by destruct (pageValue scraped _) as [[]|]|]).
    by apply elem_of_nil in Hin.
Qed.

(** X27. [ValidateCompanyData] returns no error exactly when ticker,
    company name and market tier are all non-empty, and at most three
    errors; so a company transformed from a scrape passes exactly when
    the scrape has a ticker and its pages give a non-empty string for
    company_name and for market_tier, and a scrape whose three pages
    all failed is transformed without error into a company that does
    not pass. *)
Theorem validated_transform (scraped : Scraper.ScrapedData) (now : Time)
    (company : Company) :
  (ValidateCompanyData company = []
   <-> Ticker company <> ""%string /\ CompanyName company <> ""%string
       /\ MarketTier company <> ""%string)
  /\ (length (ValidateCompanyData company) <= 3)%nat
  /\ (TransformToCompany asOfficers asAddress (Some scraped) now = Ok company ->
      (ValidateCompanyData company = []
       <-> Scraper.Ticker scraped <> ""%string
           /\ (exists s, pageValue scraped "company_name" = Some (VString s)
                         /\ s <> ""%string)
           /\ (exists s, pageValue scraped "market_tier" = Some (VString s)
                         /\ s <> ""%string))
      /\ (Scraper.Overview scraped = ∅ -> Scraper.Financials scraped = ∅ ->
          Scraper.Disclosure scraped = ∅ ->
          "company name is missing"%string ∈ ValidateCompanyData company
          /\ "market tier is missing"%string ∈ ValidateCompanyData company)).
Proof.
  assert (ValidateCompanyData company = []
          <-> Ticker company <> ""%string /\ CompanyName company <> ""%string
              /\ MarketTier company <> ""%string) as Hvalid.
  { unfold ValidateCompanyData, eqb_string.
    repeat case_bool_decide; simpl; split; try done; try tauto;
      intros; exfalso; tauto. }
  split; [done|]. split.
  { unfold ValidateCompanyData. repeat case_match; simpl; lia. }
  intros [= <-]. split.
  - rewrite Hvalid. simpl. rewrite !allData_lookup.
    split.
    + intros (Ht & Hn & Hm). split; [done|]. split.
      * destruct (pageValue scraped "company_name") as [[]|]; try done.
        by eexists.
      * destruct (pageValue scraped "market_tier") as [[]|]; try done.
        by eexists.
    + intros (Ht & (n & -> & Hn) & (m & -> & Hm)). done.
  - intros Ho Hf Hd. unfold ValidateCompanyData, eqb_string. simpl.
    rewrite !allData_lookup. unfold pageValue. rewrite Ho, Hf, Hd, !lookup_empty.
    simpl. case_bool_decide; simpl; rewrite ?elem_of_app, ?elem_of_cons; auto 6.
Qed.

End TransformerFacts.

(** ** When a scrape counts as a success *)

Section ScrapePolicyFacts.
Import Go Net OxyLabs Scraper ScrapeSpec ScrapePolicy.
Context `{Parser}.
Variable env : Env.

Lemma processPage_hasErrors label url ticker parse store fetched p :
  hasErrors (processPage env label url ticker parse store fetched p)
  = hasErrors p || negb (bool_decide (failedPage fetched label url = [])).
Proof.
  unfold processPage, failedPage.
  destruct (docs fetched !! url) as [doc|]; simpl.
  - by rewrite orb_false_r.
  - destruct (errors fetched !! url) as [err|]; simpl.
    + unfold recordFailure, Now. simpl. by rewrite orb_true_r.
    + by rewrite orb_false_r.
Qed.

(** Failure calls bump three counters and leave the successes. *)
Lemma failure_calls_count ticker (calls : list HealthMonitor.Call)
    (failed : list (string * string * error)) (h : HealthMonitor.t) :
  Forall2 (failureOf ticker) calls failed ->
  let h' := foldl HealthMonitor.step h calls in
  HealthMonitor.totalRequests h' = bump (length failed) (HealthMonitor.totalRequests h)
  /\ HealthMonitor.failedRequests h'
     = bump (length failed) (HealthMonitor.failedRequests h)
  /\ HealthMonitor.consecutiveFailures h'
     = bump (length failed) (HealthMonitor.consecutiveFailures h)
  /\ HealthMonitor.successfulRequests h' = HealthMonitor.successfulRequests h
  /\ HealthMonitor.lastSuccessTime h' = HealthMonitor.lastSuccessTime h.
Proof.
  intros Hall. revert h.
  induction Hall as [|c page calls failed (now1 & now2 & ->) _ IH]; intros h;
    [done|].
  cbn [foldl length]. destruct (IH (HealthMonitor.step h
    (HealthMonitor.CallRecordFailure now1 now2 ticker (errorString page) page.1.2)))
    as (-> & -> & -> & -> & ->).
  unfold bump. rewrite !Nat.iter_succ_r. done.
Qed.

(** X28. [ScrapeTicker] counts a scrape as a successful request exactly
    when no page failed or the fetch returned at least one document.
    Then the monitor's success counter goes up by one and the
    consecutive-failure count is back to 0, after one failed request
    counted per failed page; otherwise only the failures are counted.
    So a scrape for which the fetch accounted for no page at all, with
    neither a document nor an error, counts as a success although the
    snapshot returned is empty and lists no error. *)
Theorem scrape_counts_as_success s ticker w :
  let fetched :=
    fst (GetBatch env (client s)
           [overviewURL ticker; financialsURL ticker; disclosureURL ticker]
           (snd (Now env w))) in
  let failed := failedPages fetched ticker in
  let success := countsAsSuccess fetched ticker in
  let '((scraped, err), s', w') := ScrapeTicker env s ticker w in
  let h := healthMonitor s in
  let h' := healthMonitor s' in
  HealthMonitor.failedRequests h'
  = bump (length failed) (HealthMonitor.failedRequests h)
  /\ HealthMonitor.successfulRequests h'
     = bump (if success then 1 else 0) (HealthMonitor.successfulRequests h)
  /\ HealthMonitor.totalRequests h'
     = bump (length failed + if success then 1 else 0) (HealthMonitor.totalRequests h)
  /\ HealthMonitor.consecutiveFailures h'
     = (if success then 0
        else bump (length failed) (HealthMonitor.consecutiveFailures h))
  /\ (docs fetched = ∅ -> errors fetched = ∅ ->
      success = true
      /\ Overview scraped = ∅ /\ Financials scraped = ∅ /\ Disclosure scraped = ∅
      /\ Errors scraped = []).
Proof.
  intros fetched failed success. unfold ScrapeTicker.
  change (Now env w) with (clock env (clockReads w), snd (Now env w)). cbv iota.
  subst success failed fetched.
  destruct (GetBatch env (client s) _ (snd (Now env w))) as [fetched w1].
  simpl fst in *.
  set (p0 := {| scraped := _; hasErrors := false; errorDetails := [];
                monitor := healthMonitor s; world := w1 |}).
  set (p1 := processPage env "overview" _ ticker ParseOverviewPage setOverview
               fetched p0).
  set (p2 := processPage env "financials" _ ticker ParseFinancialsPage
               setFinancials fetched p1).
  set (p3 := processPage env "disclosure" _ ticker ParseDisclosurePage
               setDisclosure fetched p2).
  destruct (processPage_effect env "overview" (overviewURL ticker) ticker
              ParseOverviewPage setOverview fetched p0 ltac:(done))
    as (c1 & _ & Hm1 & Hf1 & _). fold p1 in Hm1.
  destruct (processPage_effect env "financials" (financialsURL ticker) ticker
              ParseFinancialsPage setFinancials fetched p1 ltac:(done))
    as (c2 & _ & Hm2 & Hf2 & _). fold p2 in Hm2.
  destruct (processPage_effect env "disclosure" (disclosureURL ticker) ticker
              ParseDisclosurePage setDisclosure fetched p2 ltac:(done))
    as (c3 & _ & Hm3 & Hf3 & _). fold p3 in Hm3.
  assert (monitor p3 = foldl HealthMonitor.step (healthMonitor s) (c1 ++ c2 ++ c3))
    as Hmon.
  { rewrite Hm3, Hm2, Hm1. simpl. by rewrite !foldl_app. }
  assert (Forall2 (failureOf ticker) (c1 ++ c2 ++ c3) (failedPages fetched ticker))
    as Hfail.
  { rewrite failedPages_blocks. by repeat apply Forall2_app. }
  destruct (failure_calls_count ticker _ _ (healthMonitor s) Hfail)
    as (Ht & Hfr & Hc & Hsr & _).
  rewrite <- Hmon in Ht, Hfr, Hc, Hsr.
  assert (hasErrors p3 = negb (bool_decide (failedPages fetched ticker = [])))
    as Hhas.
  { subst p3 p2 p1. rewrite !processPage_hasErrors, failedPages_blocks. simpl.
    destruct (failedPage fetched "overview" _),
      (failedPage fetched "financials" _), (failedPage fetched "disclosure" _);
      by repeat case_bool_decide. }
  assert (negb (hasErrors p3) || (0 <? Z.of_nat (size (docs fetched)))
          = countsAsSuccess fetched ticker) as Hsucc.
  { unfold countsAsSuccess. by rewrite Hhas, negb_involutive. }
  rewrite Hsucc.
  assert (docs fetched = ∅ -> errors fetched = ∅ ->
          countsAsSuccess fetched ticker = true
          /\ Overview (scraped p3) = ∅ /\ Financials (scraped p3) = ∅
          /\ Disclosure (scraped p3) = ∅ /\ Errors (scraped p3) = []) as Hempty.
  { intros Hd He. subst p3 p2 p1 p0. unfold countsAsSuccess, failedPages, processPage.
    rewrite Hd, He. simpl. rewrite !lookup_empty. simpl. done. }
  destruct (countsAsSuccess fetched ticker) eqn:Hcs.
  - unfold recordSuccess, Now, checkHealth. simpl.
    destruct (IsZero _); simpl; rewrite Ht, Hfr, Hsr;
      (split; [done|]); (split; [done|]);
      (split; [by rewrite Nat.add_1_r|]); done.
  - unfold checkHealth, Now.
    destruct (IsZero _); simpl; rewrite Ht, Hfr, Hsr, Hc;
      (split; [done|]); (split; [done|]);
      (split; [by rewrite Nat.add_0_r|]); done.
Qed.

End ScrapePolicyFacts.
